(** * Google-Agenda-Program: the server routes and their stores

    A shallow embedding of [server.js] (the web-flow variant of the
    program): the settings store, the phone normaliser, the OAuth client
    and token manager, the event lister and the HTTP handlers that sit on
    them.  Of the local-flow variant, which shares the rest, the parts
    that differ are added: its [carregarAuth], which builds the client
    and logs in through the browser, and its agenda route.

    The program is thin orchestration over Node's [fs], [JSON], the
    libphonenumber and googleapis packages and multer.  Node's file
    system is modelled as a finite map from paths to file texts; what the
    other packages compute is gathered in the record [platform], and the
    few facts the proofs use about them are stated as the laws
    [json_laws] and [phone_laws].  Module [Ref] gives a small concrete
    platform on which the laws are proved and the theorems are run;
    module [RefRoutes] adds what the login routes need. *)

From Stdlib Require Import ZArith String Ascii List Lia.
From stdpp Require Import base gmap strings list fin_maps pretty.

Set Warnings "-register-all".
Local Open Scope string_scope.

(** ** JavaScript values *)

(** The values the program handles are JSON values and [undefined].
    Objects are finite maps from property names to values.  Numbers are
    modelled on the integers, which is what [diasEscopo] ranges over.
    A string is a sequence of 8-bit characters: ASCII, or the UTF-8 bytes
    of the other characters. *)
Inductive json : Type :=
  | JNull
  | JBool (b : bool)
  | JNum (n : Z)
  | JStr (s : string)
  | JArr (l : list json)
  | JObj (m : gmap string json).

(** [None] is [undefined]. *)
Abbreviation value := (option json).
Abbreviation undefined := (@None json).

(** A JavaScript number that came out of a coercion: [None] is [NaN]. *)
Abbreviation num := (option Z).

Inductive js_error : Type :=
  | Error (msg : string)
  | SyntaxError (msg : string)
  | TypeError (msg : string)
  | RangeError (msg : string)
  | MulterError (code : string).

(** [e.message]; for an error of multer, the text multer 1.x gives its
    code. *)
Definition message (e : js_error) : string :=
  match e with
  | Error m | SyntaxError m | TypeError m | RangeError m => m
  | MulterError code =>
      if String.eqb code "LIMIT_UNEXPECTED_FILE" then "Unexpected field" else code
  end.

Inductive result (A : Type) : Type :=
  | Ok (a : A)
  | Throw (e : js_error).
Arguments Ok {A} a.
Arguments Throw {A} e.

Module JS.

(** ToBoolean *)
Definition truthy (v : value) : bool :=
  match v with
  | None | Some JNull => false
  | Some (JBool b) => b
  | Some (JNum n) => negb (n =? 0)%Z
  | Some (JStr s) => negb (String.eqb s "")
  | Some (JArr _) | Some (JObj _) => true
  end.

(** [a || b] on already evaluated operands. *)
Definition or_else (a b : value) : value := if truthy a then a else b.

(** [a === b].  Two objects or arrays are equal only when they are the
    same reference; the operands compared in this program come from
    different sources (a request and a freshly parsed file), so they
    never are. *)
Definition strict_eq (a b : value) : bool :=
  match a, b with
  | None, None => true
  | Some JNull, Some JNull => true
  | Some (JBool x), Some (JBool y) => Bool.eqb x y
  | Some (JNum x), Some (JNum y) => (x =? y)%Z
  | Some (JStr x), Some (JStr y) => String.eqb x y
  | _, _ => false
  end.

Definition type_name (v : value) : string :=
  match v with None => "undefined" | _ => "null" end.

(** [v.k] for the property names this program reads (none of them is
    inherited from a prototype): a [TypeError] on [null] and
    [undefined], the own property of an object, [undefined] on the
    other values. *)
Definition get_prop (v : value) (k : string) : result value :=
  match v with
  | None | Some JNull =>
      Throw (TypeError ("Cannot read properties of " ++ type_name v
                        ++ " (reading '" ++ k ++ "')"))
  | Some (JObj m) => Ok (m !! k)
  | Some _ => Ok None
  end.

(** [const { k } = v], where the source text of [v] is [what]. *)
Definition destructure (v : value) (what k : string) : result value :=
  match v with
  | None | Some JNull =>
      Throw (TypeError ("Cannot destructure property '" ++ k ++ "' of '" ++ what
                        ++ "' as it is " ++ type_name v ++ "."))
  | Some (JObj m) => Ok (m !! k)
  | Some _ => Ok None
  end.

(** The own enumerable properties copied by [{...v}]. *)
Definition index_keys (l : list json) : gmap string json :=
  list_to_map (imap (fun i x => (pretty i, x)) l).

Definition spread (v : value) : gmap string json :=
  match v with
  | Some (JObj m) => m
  | Some (JArr l) => index_keys l
  | Some (JStr s) =>
      index_keys (map (fun c => JStr (String c EmptyString)) (list_ascii_of_string s))
  | _ => ∅
  end.

(** [v[0]] *)
Definition first (v : value) : result value :=
  match v with
  | None | Some JNull =>
      Throw (TypeError ("Cannot read properties of " ++ type_name v ++ " (reading '0')"))
  | Some (JArr l) => Ok (head l)
  | Some (JStr (String c _)) => Ok (Some (JStr (String c EmptyString)))
  | Some (JObj m) => Ok (m !! "0")
  | Some _ => Ok None
  end.

(** [haystack.includes(needle)] *)
Fixpoint includes (needle haystack : string) : bool :=
  String.prefix needle haystack ||
  match haystack with
  | EmptyString => false
  | String _ rest => includes needle rest
  end.

(** [s.replace(c, '')] for a one-character pattern: the first
    occurrence is removed. *)
Fixpoint remove_first (c : ascii) (s : string) : string :=
  match s with
  | EmptyString => EmptyString
  | String d rest => if Ascii.eqb c d then rest else String d (remove_first c rest)
  end.

(** ToString of a JSON value, as used for a computed property key and
    on the way to a number.  The objects at hand were made by
    [JSON.parse] and have no method of their own: one with an own
    [toString] key hides the inherited method behind a value that cannot
    be called, the inherited [valueOf] gives the object back, and the
    conversion throws.  An array joins the texts of its elements, and
    throws when one of them does. *)
Fixpoint to_string (v : json) : result string :=
  match v with
  | JNull => Ok "null"
  | JBool true => Ok "true"
  | JBool false => Ok "false"
  | JNum n => Ok (pretty n)
  | JStr s => Ok s
  | JArr l =>
      match foldr (fun x rest =>
                     match (match x with JNull => Ok "" | _ => to_string x end), rest with
                     | Ok s, Ok ss => Ok (s :: ss)
                     | Throw e, _ => Throw e
                     | _, Throw e => Throw e
                     end) (Ok []) l with
      | Ok ss => Ok (String.concat "," ss)
      | Throw e => Throw e
      end
  | JObj m =>
      if bool_decide (is_Some (m !! "toString"))
      then Throw (TypeError "Cannot convert object to primitive value")
      else Ok "[object Object]"
  end.

(** ToPropertyKey *)
Definition to_property_key (v : value) : result string :=
  match v with None => Ok "undefined" | Some j => to_string j end.

End JS.

(** ** The file system *)

(** Paths to file texts.  The data directory is created at start-up, so
    writing a file in it succeeds. *)
Abbreviation filesystem := (gmap string string).

(** Code that reads and writes files and may throw. *)
Definition js (A : Type) : Type := filesystem -> result A * filesystem.

Definition ret {A} (a : A) : js A := fun fs => (Ok a, fs).
Definition throw {A} (e : js_error) : js A := fun fs => (Throw e, fs).
Definition bind {A B} (c : js A) (k : A -> js B) : js B :=
  fun fs => match c fs with
            | (Ok a, fs') => k a fs'
            | (Throw e, fs') => (Throw e, fs')
            end.
Definition try_catch {A} (c : js A) (handler : js_error -> js A) : js A :=
  fun fs => match c fs with
            | (Ok a, fs') => (Ok a, fs')
            | (Throw e, fs') => handler e fs'
            end.
Definition lift {A} (r : result A) : js A := fun fs => (r, fs).
(** How [c] ended, as a value. *)
Definition attempt {A} (c : js A) : js (result A) :=
  fun fs => match c fs with (r, fs') => (Ok r, fs') end.

Declare Scope js_scope.
Delimit Scope js_scope with js.
Notation "x <- c ;; k" := (bind c (fun x => k))
  (at level 100, c at next level, right associativity) : js_scope.
Notation "c ;;; k" := (bind c (fun _ => k))
  (at level 100, right associativity) : js_scope.

Module Fs.
Definition existsSync (p : string) : js bool :=
  fun fs => (Ok (bool_decide (is_Some (fs !! p))), fs).
Definition readFileSync (p : string) : js string :=
  fun fs => match fs !! p with
            | Some text => (Ok text, fs)
            | None => (Throw (Error ("ENOENT: no such file or directory, open '" ++ p ++ "'")), fs)
            end.
Definition writeFileSync (p text : string) : js unit :=
  fun fs => (Ok tt, <[p := text]> fs).
Definition unlinkSync (p : string) : js unit :=
  fun fs => match fs !! p with
            | Some _ => (Ok tt, delete p fs)
            | None => (Throw (Error ("ENOENT: no such file or directory, unlink '" ++ p ++ "'")), fs)
            end.
(** [path.join(a, b)] for a directory and a file name. *)
Definition join (a b : string) : string := a ++ "/" ++ b.
End Fs.

(** ** Numbers and dates *)

Module Num.
(** ToNumber; [string_to_number] is the platform's reading of a numeric
    string.  An array or an object goes through its text, which it may
    not have (see [JS.to_string]); the text of an object is no number. *)
Definition to_number (string_to_number : string -> num) (v : value) : result num :=
  match v with
  | None => Ok None
  | Some JNull => Ok (Some 0%Z)
  | Some (JBool b) => Ok (Some (if b then 1 else 0)%Z)
  | Some (JNum n) => Ok (Some n)
  | Some (JStr s) => Ok (string_to_number s)
  | Some (JArr l) =>
      match JS.to_string (JArr l) with
      | Ok s => Ok (string_to_number s)
      | Throw e => Throw e
      end
  | Some (JObj m) =>
      match JS.to_string (JObj m) with
      | Ok _ => Ok None
      | Throw e => Throw e
      end
  end.
Definition add (a b : num) : num :=
  match a, b with Some x, Some y => Some (x + y)%Z | _, _ => None end.
Definition sub (a b : num) : num :=
  match a, b with Some x, Some y => Some (x - y)%Z | _, _ => None end.
End Num.

(** A [Date] is kept by its local time value in milliseconds, the number
    that [getDate], [setDate] and [setHours] read and write (ECMA-262,
    LocalTime); [None] is the invalid date.  The zone offset [LocalTZA]
    is taken to be constant over the window.  A date that [setDate] or
    [setHours] would put outside the range of time values becomes
    invalid (TimeClip).  The calendar enters through [month_start],
    which gives for a day number the day number of the first day of its
    month. *)
Module Date.
  Local Open Scope Z_scope.
Definition msPerDay : Z := 86400000.
Definition Day (t : Z) : Z := t / msPerDay.
Definition TimeWithinDay (t : Z) : Z := t mod msPerDay.
Definition MakeTime (h m s ms : Z) : Z := h * 3600000 + m * 60000 + s * 1000 + ms.
Definition MakeDate (day time : Z) : Z := day * msPerDay + time.

(** The largest time value, in either direction from the epoch. *)
Definition maxTime : Z := 8640000000000000.

(** The instant of the local time value [t] is a time value. *)
Definition in_range (LocalTZA t : Z) : bool := Z.abs (t - LocalTZA) <=? maxTime.

(** TimeClip(UTC(t)), kept as a local time value. *)
Definition TimeClip (LocalTZA t : Z) : num :=
  if in_range LocalTZA t then Some t else None.

  Section Calendar.
    Variable month_start : Z -> Z.
    Variable LocalTZA : Z.

(** DateFromTime *)
Definition getDate (d : num) : num :=
  match d with
  | Some t => Some (Day t - month_start (Day t) + 1)
  | None => None
  end.

(** MakeDay(YearFromTime(t), MonthFromTime(t), dt): days past the end
    of the month run into the following months. *)
Definition setDate (d : num) (dt : num) : num :=
  match d, dt with
  | Some t, Some n =>
      TimeClip LocalTZA (MakeDate (month_start (Day t) + n - 1) (TimeWithinDay t))
  | _, _ => None
  end.

Definition setHours (d : num) (h m s ms : Z) : num :=
  match d with
  | Some t => TimeClip LocalTZA (MakeDate (Day t) (MakeTime h m s ms))
  | None => None
  end.
  End Calendar.

(** The instant is kept in place of its ISO-8601 text. *)
Definition toISOString (d : num) : result Z :=
  match d with
  | Some t => Ok t
  | None => Throw (RangeError "Invalid time value")
  end.
End Date.

(** ** The platform *)

(** [new google.auth.OAuth2(id, secret, uri)] and its [credentials]. *)
Record oauth_client : Type := OAuth2 {
  client_id : value;
  client_secret : value;
  redirect_uri : value;
  credentials : value;
}.

Definition setCredentials (client : oauth_client) (token : json) : oauth_client :=
  {| client_id := client_id client; client_secret := client_secret client;
     redirect_uri := redirect_uri client; credentials := Some token |}.

(** The argument of [calendar.events.list]. *)
Record events_query : Type := {
  calendarId : string;
  timeMin : Z;
  timeMax : Z;
  singleEvents : bool;
  orderBy : string;
}.

Record platform : Type := {
  (** [__dirname] *)
  dirname : string;
  (** [String.prototype.trim] *)
  trim : string -> string;
  (** [JSON.parse]; [None] when it throws a [SyntaxError], whose message
      is [JSON_parse_error]. *)
  JSON_parse : string -> option json;
  JSON_parse_error : string -> string;
  (** [JSON.stringify(v, null, 2)] *)
  JSON_stringify : json -> string;
  (** google-libphonenumber: [parseAndKeepRawInput(raw, region)] ([None]
      when it throws), [isValidNumber] and [format(n, PNF.E164)]. *)
  PhoneNumber : Type;
  parseAndKeepRawInput : value -> string -> option PhoneNumber;
  isValidNumber : PhoneNumber -> bool;
  format_E164 : PhoneNumber -> string;
  (** StringToNumber *)
  string_to_number : string -> num;
  (** the calendar and the offset of the local zone, see [Date] *)
  month_start : Z -> Z;
  LocalTZA : Z;
  (** [new Date(x).toLocaleDateString('pt-BR', {day, month})] and
      [new Date(x).toLocaleTimeString('pt-BR', {hour, minute})] *)
  toLocaleDateString : value -> string;
  toLocaleTimeString : value -> string;
  (** [calendar.events.list(query)] with the client's authorisation: the
      [items] of the response, or the provider's error. *)
  events_list : oauth_client -> events_query -> result value;
  (** [db[nome].telefone = numero] on a patient file whose root is not
      an object: what [JSON.stringify(db)] is afterwards, or the error.
      Assignment on arrays and on primitive values follows rules of
      their own. *)
  exotic_set_telefone : json -> string -> json -> result json;
  (** how the engine names a key that is not a string in the message of
      a read on [null]; it does not convert the key for that *)
  key_text : value -> string;
}.

(** What the proofs use of [JSON] and [trim]: a text written by
    [JSON.stringify] is read back by [JSON.parse] as the value written,
    and a text that trims to nothing is not JSON. *)
Record json_laws (pf : platform) : Prop := {
  parse_stringify : forall v, JSON_parse pf (JSON_stringify pf v) = Some v;
  parse_blank : forall s, trim pf s = "" -> JSON_parse pf s = None;
}.

Definition all_digits (s : string) : Prop :=
  Forall (fun c => (48 <= nat_of_ascii c <= 57)%nat) (list_ascii_of_string s).

(** What the proofs use of libphonenumber: the E.164 form of a number is
    a plus sign followed by digits. *)
Record phone_laws (pf : platform) : Prop := {
  E164_shape : forall n : PhoneNumber pf,
    exists ds, format_E164 pf n = String "+" ds /\ all_digits ds;
}.

(** ** server.js *)

Record response : Type := {
  status : Z;
  body : json;
}.

(** [res.json(v)] and [res.status(code).json(v)] *)
Definition res_json (v : json) : response := {| status := 200; body := v |}.
Definition res_status_json (code : Z) (v : json) : response := {| status := code; body := v |}.

(** A multipart request as multer sees it: the [senha] text field it
    puts in [req.body] and the file parts, each with its field name and
    content, in the order they arrive. *)
Record upload_request : Type := {
  req_senha : value;
  req_files : list (string * string);
}.

(** multer's disk storage behind [upload.fields]: every file part is
    checked against the remaining count of its field and written to
    [destination/filename] as it arrives; on an error the files written
    so far are removed and the error is handed to the callback. *)
Module Multer.
  Section Storage.
    Variable destination : string.
    Variable filename : string -> result string.

(** [fs.unlink] on each stored file. *)
Definition remove_uploaded (stored : list string) : js unit :=
  fun fs => (Ok tt, foldr (fun p acc => delete p acc) fs stored).

Fixpoint handle_files (filesLeft : gmap string nat)
    (files : list (string * string)) (stored : list string) : js unit :=
  match files with
  | [] => ret tt
  | (fieldname, content) :: rest =>
      match filesLeft !! fieldname with
      | Some (S n) =>
          match filename fieldname with
          | Ok name =>
              let p := Fs.join destination name in
              (Fs.writeFileSync p content ;;;
               handle_files (<[fieldname := n]> filesLeft) rest (p :: stored))%js
          | Throw e => (remove_uploaded stored ;;; throw e)%js
          end
      | _ => (remove_uploaded stored ;;; throw (MulterError "LIMIT_UNEXPECTED_FILE"))%js
      end
  end.

(** [upload.fields(spec)], [spec] giving each field its [maxCount]. *)
Definition fields (spec : list (string * nat)) (req : upload_request) : js unit :=
  handle_files (list_to_map spec) (req_files req) [].
  End Storage.
End Multer.

Section Server.
  Context (pf : platform).
  Local Open Scope js_scope.

Definition DATA_FOLDER : string := Fs.join (dirname pf) "dados".
Definition CREDENTIALS_PATH : string := Fs.join DATA_FOLDER "credentials.json".
Definition TOKEN_PATH : string := Fs.join DATA_FOLDER "token.json".
Definition DB_PATH : string := Fs.join DATA_FOLDER "pacientes.json".
Definition SETTINGS_PATH : string := Fs.join DATA_FOLDER "settings.json".

(** [JSON.parse(text)] as a statement that may throw. *)
Definition parse (text : string) : js json :=
  match JSON_parse pf text with
  | Some v => ret v
  | None => throw (SyntaxError (JSON_parse_error pf text))
  end.

Definition defaultSettings : json :=
  JObj {[ "diasEscopo" := JNum 1; "senhaAdmin" := JStr "admin";
          "ocultarIgnorados" := JBool true ]}.

Definition getSettings : js json :=
  try_catch
    (exists_ <- Fs.existsSync SETTINGS_PATH ;;
     if exists_ then
       content <- Fs.readFileSync SETTINGS_PATH ;;
       if String.eqb (trim pf content) "" then throw (Error "Arquivo vazio")
       else parse content
     else throw (Error "Arquivo não existe"))
    (fun e =>
       Fs.writeFileSync SETTINGS_PATH (JSON_stringify pf defaultSettings) ;;;
       ret defaultSettings).

Definition saveSettings (newSettings : value) : js unit :=
  current <- getSettings ;;
  let updated := JObj (JS.spread newSettings ∪ JS.spread (Some current)) in
  Fs.writeFileSync SETTINGS_PATH (JSON_stringify pf updated).

(** The result is [null] or a string. *)
Definition prepararNumero (numeroBruto : value) : json :=
  match parseAndKeepRawInput pf numeroBruto "BR" with
  | Some numeroParseado =>
      if negb (isValidNumber pf numeroParseado) then JNull
      else JStr (JS.remove_first "+" (format_E164 pf numeroParseado))
  | None => JNull
  end.

Definition getOAuthClient : js oauth_client :=
  exists_ <- Fs.existsSync CREDENTIALS_PATH ;;
  if negb exists_ then throw (Error "CREDENTIALS_MISSING") else
  content <- Fs.readFileSync CREDENTIALS_PATH ;;
  keys <- parse content ;;
  web <- lift (JS.get_prop (Some keys) "web") ;;
  key <- (if JS.truthy web then ret web else lift (JS.get_prop (Some keys) "installed")) ;;
  let redirectUri := "https://consultoriobw.com.br/agenda/oauth2callback" in
  id <- lift (JS.get_prop key "client_id") ;;
  secret <- lift (JS.get_prop key "client_secret") ;;
  ret (OAuth2 id secret (Some (JStr redirectUri)) undefined).

(** The [return client] inside the [try] is the [Some] that leaves the
    block; falling out of the [if] reaches the final [throw]. *)
Definition carregarAuth : js oauth_client :=
  exists_ <- Fs.existsSync TOKEN_PATH ;;
  returned <-
    (if exists_ then
       try_catch
         (client <- getOAuthClient ;;
          text <- Fs.readFileSync TOKEN_PATH ;;
          token <- parse text ;;
          ret (Some (setCredentials client token)))
         (fun e => ret None)
     else ret None) ;;
  match returned with
  | Some client => ret client
  | None => throw (Error "AUTH_REQUIRED")
  end.

(** The local-flow variant of the program has no [getOAuthClient]: its
    [carregarAuth] builds the client itself before it looks for the
    token.  This is that part of the function, its steps 1 to 3; what
    follows them there opens a browser. *)
Definition carregarAuth_local_client : js oauth_client :=
  exists_ <- Fs.existsSync CREDENTIALS_PATH ;;
  if negb exists_ then
    throw (Error "Arquivo 'credentials.json' ausente. Vá em Configurações e faça o upload.")
  else
  keys <-
    try_catch
      (fileContent <- Fs.readFileSync CREDENTIALS_PATH ;;
       json <- parse fileContent ;;
       installed <- lift (JS.get_prop (Some json) "installed") ;;
       keys <- (if JS.truthy installed then ret installed
                else lift (JS.get_prop (Some json) "web")) ;;
       if negb (JS.truthy keys) then throw (Error "Formato inválido") else ret keys)
      (fun e => throw (Error "Arquivo 'credentials.json' corrompido/inválido.")) ;;
  id <- lift (JS.get_prop keys "client_id") ;;
  secret <- lift (JS.get_prop keys "client_secret") ;;
  redirect_uris <- lift (JS.get_prop keys "redirect_uris") ;;
  redirect <- (if JS.truthy redirect_uris then lift (JS.first redirect_uris)
               else ret (Some (JStr "http://localhost"))) ;;
  ret (OAuth2 id secret redirect undefined).

(** One raw event of the provider to the event sent to the front end. *)
Definition formatarEvento (evento : json) : result json :=
  match JS.get_prop (Some evento) "start" with
  | Throw e => Throw e
  | Ok start =>
      match JS.get_prop start "dateTime" with
      | Throw e => Throw e
      | Ok dateTime =>
          match (if JS.truthy dateTime then Ok dateTime else JS.get_prop start "date") with
          | Throw e => Throw e
          | Ok dataObj =>
              let dataFormatada :=
                toLocaleDateString pf dataObj ++ " às " ++ toLocaleTimeString pf dataObj in
              match JS.get_prop (Some evento) "summary" with
              | Throw e => Throw e
              | Ok summary =>
                  (* evento.summary || 'Sem Título' *)
                  let titulo :=
                    match summary with
                    | Some s => if JS.truthy summary then s else JStr "Sem Título"
                    | None => JStr "Sem Título"
                    end in
                  Ok (JObj {[ "titulo" := titulo; "data" := JStr dataFormatada ]})
              end
          end
      end
  end.

(** [eventosBrutos.map(...)]: the first event that throws ends the loop. *)
Fixpoint map_eventos (eventos : list json) : result (list json) :=
  match eventos with
  | [] => Ok []
  | evento :: rest =>
      match formatarEvento evento with
      | Throw e => Throw e
      | Ok ev =>
          match map_eventos rest with
          | Throw e => Throw e
          | Ok evs => Ok (ev :: evs)
          end
      end
  end.

(** [agora] is the local time value read by [new Date()]. *)
Definition listarEventos (agora : Z) (auth : oauth_client) : js (list json) :=
  settings <- getSettings ;;
  diasEscopo <- lift (JS.get_prop (Some settings) "diasEscopo") ;;
  let diasParaVer := JS.or_else diasEscopo (Some (JNum 1)) in
  let inicio : num := Some agora in
  let inicio := Date.setDate (month_start pf) (LocalTZA pf) inicio
                  (Num.add (Date.getDate (month_start pf) inicio) (Some 1%Z)) in
  let inicio := Date.setHours (LocalTZA pf) inicio 0 0 0 0 in
  let fim := inicio in
  dias <- lift (Num.to_number (string_to_number pf) diasParaVer) ;;
  let fim := Date.setDate (month_start pf) (LocalTZA pf) fim
               (Num.add (Date.getDate (month_start pf) fim) (Num.sub dias (Some 1%Z))) in
  let fim := Date.setHours (LocalTZA pf) fim 23 59 59 999 in
  timeMin_ <- lift (Date.toISOString inicio) ;;
  timeMax_ <- lift (Date.toISOString fim) ;;
  items <- lift (events_list pf auth
                   {| calendarId := "primary"; timeMin := timeMin_; timeMax := timeMax_;
                      singleEvents := true; orderBy := "startTime" |}) ;;
  let eventosBrutos := JS.or_else items (Some (JArr [])) in
  match eventosBrutos with
  | Some (JArr l) => lift (map_eventos l)
  | _ => throw (TypeError "eventosBrutos.map is not a function")
  end.

(** multer's storage callbacks *)
Definition storage_destination : string := DATA_FOLDER.
Definition storage_filename (fieldname : string) : result string :=
  if String.eqb fieldname "credenciais" then Ok "credentials.json"
  else if String.eqb fieldname "banco" then Ok "pacientes.json"
  else Throw (Error "Arquivo não permitido").

Definition uploadFields : upload_request -> js unit :=
  Multer.fields storage_destination storage_filename [("credenciais", 1%nat); ("banco", 1%nat)].

(** *** The routes.  A handler yields the response it sends; a [Throw]
    is an exception that leaves the handler. *)

(** The name of a key in the message of a read on [null]. *)
Definition key_name (nome : value) : string :=
  match nome with
  | Some (JStr s) => s
  | _ => key_text pf nome
  end.

(** [db[nome]] made an object if it is not one, then its [telefone]
    set.  The read [db[nome]] fails on [null] before the key is
    converted, and when the key cannot be converted.  A property of an
    array is not written by [JSON.stringify], and with the name
    [__proto__] and no own property the write lands on the shared
    prototype: the file text is the same in both cases. *)
Definition set_telefone (db : json) (nome : value) (numeroLimpo : json) : result json :=
  match db with
  | JNull =>
      Throw (TypeError ("Cannot read properties of null (reading '" ++ key_name nome ++ "')"))
  | _ =>
      match JS.to_property_key nome with
      | Throw e => Throw e
      | Ok key =>
          match db with
          | JObj m =>
              match m !! key with
              | Some (JObj paciente) =>
                  Ok (JObj (<[key := JObj (<["telefone" := numeroLimpo]> paciente)]> m))
              | Some (JArr _) => Ok db
              | None =>
                  if String.eqb key "__proto__" then Ok db
                  else Ok (JObj (<[key := JObj {[ "telefone" := numeroLimpo ]}]> m))
              | Some _ => Ok (JObj (<[key := JObj {[ "telefone" := numeroLimpo ]}]> m))
              end
          | _ => exotic_set_telefone pf db key numeroLimpo
          end
      end
  end.

Definition api_salvar (req_body : value) : js response :=
  try_catch
    (nome <- lift (JS.destructure req_body "req.body" "nome") ;;
     telefone <- lift (JS.destructure req_body "req.body" "telefone") ;;
     let numeroLimpo := prepararNumero telefone in
     if negb (JS.truthy (Some numeroLimpo)) then
       ret (res_status_json 400
              (JObj {[ "success" := JBool false; "message" := JStr "Número inválido" ]}))
     else
       exists_ <- Fs.existsSync DB_PATH ;;
       db <- (if exists_ then text <- Fs.readFileSync DB_PATH ;; parse text
              else ret (JObj ∅)) ;;
       db' <- lift (set_telefone db nome numeroLimpo) ;;
       Fs.writeFileSync DB_PATH (JSON_stringify pf db') ;;;
       ret (res_json (JObj {[ "success" := JBool true ]})))
    (fun e =>
       ret (res_status_json 500
              (JObj {[ "success" := JBool false; "message" := JStr (message e) ]}))).

Definition api_agenda (agora : Z) : js response :=
  try_catch
    (auth <- carregarAuth ;;
     eventos <- listarEventos agora auth ;;
     ret (res_json (JArr eventos)))
    (fun e =>
       if String.eqb (message e) "AUTH_REQUIRED" || JS.includes "invalid_grant" (message e) then
         exists_ <- Fs.existsSync TOKEN_PATH ;;
         (if exists_ then Fs.unlinkSync TOKEN_PATH else ret tt) ;;;
         ret (res_status_json 401 (JObj {[ "error" := JStr "AUTH_REQUIRED" ]}))
       else
         ret (res_status_json 500
                (JObj {[ "error" := JStr ("Erro ao buscar agenda: " ++ message e) ]}))).

Definition api_settings_get : js response :=
  settings <- getSettings ;;
  ret (res_json settings).

Definition api_settings_post (req_body : value) : js response :=
  saveSettings req_body ;;;
  ret (res_json (JObj {[ "success" := JBool true ]})).

(** The middleware runs first and hands its error, if any, to the
    callback. *)
Definition api_upload (req : upload_request) : js response :=
  err <- attempt (uploadFields req) ;;
  match err with
  | Throw err =>
      ret (res_status_json 500
             (JObj {[ "success" := JBool false; "message" := JStr (message err) ]}))
  | Ok _ =>
      let senha := req_senha req in
      settings <- getSettings ;;
      senhaAdmin <- lift (JS.get_prop (Some settings) "senhaAdmin") ;;
      if negb (JS.strict_eq senha senhaAdmin) then
        ret (res_status_json 403
               (JObj {[ "success" := JBool false; "message" := JStr "Senha incorreta!" ]}))
      else
        ret (res_json (JObj {[ "success" := JBool true;
                               "message" := JStr "Arquivo atualizado!" ]}))
  end.

End Server.

(** ** The other routes of server.js, and the local flow *)

(** What these routes use of the packages beyond [platform]:
    [client.generateAuthUrl(options)], [client.getToken(code)] (the
    [tokens] of its answer, or its rejection),
    [authenticate({scopes, keyfilePath})] of the local flow (the
    [credentials] of the client it resolves to, or its rejection; it
    reads the key file and writes nothing),
    [JSON.stringify(v)] without indentation, and the assignment
    [db[nome].informadoEm = x] on a patient file whose root is not an
    object (compare [exotic_set_telefone]). *)
Record auth_url_options : Type := {
  access_type : string;
  scope : list string;
  prompt : string;
}.

(** [res.send(text)] and [res.redirect(url)] *)
Inductive reply : Type :=
  | Send (text : string)
  | Redirect (url : string).

Definition SCOPES : list string := ["https://www.googleapis.com/auth/calendar.readonly"].

Section Routes.
  Context (pf : platform).
  Variable generateAuthUrl : oauth_client -> auth_url_options -> result string.
  Variable getToken : oauth_client -> value -> result json.
  Variable authenticate : list string -> string -> filesystem -> result value.
  Variable JSON_stringify_compact : json -> string.
  Variable exotic_set_informadoEm : json -> string -> json -> result json.
  Local Open Scope js_scope.

Definition api_auth_url : js response :=
  try_catch
    (client <- getOAuthClient pf ;;
     url <- lift (generateAuthUrl client
                    {| access_type := "offline"; scope := SCOPES; prompt := "consent" |}) ;;
     ret (res_json (JObj {[ "url" := JStr url ]})))
    (fun e => ret (res_status_json 500 (JObj {[ "error" := JStr "Erro no credentials.json" ]}))).

(** [code] is [req.query.code].  The client of the route is dropped
    when it ends, so its [setCredentials] leaves no trace. *)
Definition oauth2callback (code : value) : js reply :=
  if negb (JS.truthy code) then ret (Send "Erro: Sem código.") else
  try_catch
    (client <- getOAuthClient pf ;;
     tokens <- lift (getToken client code) ;;
     let client := setCredentials client tokens in
     Fs.writeFileSync (TOKEN_PATH pf) (JSON_stringify_compact tokens) ;;;
     ret (Redirect "/agenda"))
    (fun e => ret (Send ("Erro ao gerar token: " ++ message e))).

Definition api_pacientes : js response :=
  exists_ <- Fs.existsSync (DB_PATH pf) ;;
  if exists_ then
    text <- Fs.readFileSync (DB_PATH pf) ;;
    db <- parse pf text ;;
    ret (res_json db)
  else ret (res_json (JObj ∅)).

(** As [set_telefone], for the field [informadoEm]. *)
Definition set_informadoEm (db : json) (nome : value) (informadoEm : json) : result json :=
  match db with
  | JNull =>
      Throw (TypeError ("Cannot read properties of null (reading '"
                        ++ key_name pf nome ++ "')"))
  | _ =>
      match JS.to_property_key nome with
      | Throw e => Throw e
      | Ok key =>
          match db with
          | JObj m =>
              match m !! key with
              | Some (JObj paciente) =>
                  Ok (JObj (<[key := JObj (<["informadoEm" := informadoEm]> paciente)]> m))
              | Some (JArr _) => Ok db
              | None =>
                  if String.eqb key "__proto__" then Ok db
                  else Ok (JObj (<[key := JObj {[ "informadoEm" := informadoEm ]}]> m))
              | Some _ => Ok (JObj (<[key := JObj {[ "informadoEm" := informadoEm ]}]> m))
              end
          | _ => exotic_set_informadoEm db key informadoEm
          end
      end
  end.

(** [agora] is the text [JSON.stringify] writes for [new Date()], that
    of its [toJSON()]: the date reaches the file only through it. *)
Definition api_marcar_informado (agora : string) (req_body : value) : js response :=
  try_catch
    (nome <- lift (JS.destructure req_body "req.body" "nome") ;;
     informado <- lift (JS.destructure req_body "req.body" "informado") ;;
     exists_ <- Fs.existsSync (DB_PATH pf) ;;
     db <- (if exists_ then text <- Fs.readFileSync (DB_PATH pf) ;; parse pf text
            else ret (JObj ∅)) ;;
     db' <- lift (set_informadoEm db nome (if JS.truthy informado then JStr agora else JNull)) ;;
     Fs.writeFileSync (DB_PATH pf) (JSON_stringify pf db') ;;;
     ret (res_json (JObj {[ "success" := JBool true ]})))
    (fun e =>
       ret (res_status_json 500
              (JObj {[ "success" := JBool false; "message" := JStr (message e) ]}))).

Definition api_delete_token : js response :=
  try_catch
    (exists_ <- Fs.existsSync (TOKEN_PATH pf) ;;
     (if exists_ then Fs.unlinkSync (TOKEN_PATH pf) else ret tt) ;;;
     ret (res_json (JObj {[ "success" := JBool true;
                            "message" := JStr "Token apagado com sucesso." ]})))
    (fun e =>
       ret (res_status_json 500
              (JObj {[ "success" := JBool false;
                       "message" := JStr "Erro interno ao tentar apagar o token." ]}))).

(** *** The local flow: [carregarAuth] in full and its agenda route *)

(** Steps 4 and 5 of the function, after the client is built: the stored
    token if it can be read, else the login in the browser. *)
Definition carregarAuth_local : js oauth_client :=
  client <- carregarAuth_local_client pf ;;
  exists_ <- Fs.existsSync (TOKEN_PATH pf) ;;
  returned <-
    (if exists_ then
       try_catch
         (text <- Fs.readFileSync (TOKEN_PATH pf) ;;
          token <- parse pf text ;;
          ret (Some (setCredentials client token)))
         (fun e => ret None)
     else ret None) ;;
  match returned with
  | Some client => ret client
  | None =>
      credentials_ <- (fun fs => (authenticate SCOPES (CREDENTIALS_PATH pf) fs, fs)) ;;
      match credentials_ with
      | Some c =>
          if JS.truthy credentials_ then
            Fs.writeFileSync (TOKEN_PATH pf) (JSON_stringify_compact c) ;;;
            ret (setCredentials client c)
          else ret client
      | None => ret client
      end
  end.

Definition api_agenda_local (agora : Z) : js response :=
  try_catch
    (auth <- carregarAuth_local ;;
     eventos <- listarEventos pf agora auth ;;
     ret (res_json (JArr eventos)))
    (fun e =>
       (if JS.includes "invalid_grant" (message e) then
          exists_ <- Fs.existsSync (TOKEN_PATH pf) ;;
          if exists_ then Fs.unlinkSync (TOKEN_PATH pf) else ret tt
        else ret tt) ;;;
       ret (res_status_json 500
              (JObj {[ "error" := JStr ("Erro ao buscar agenda: " ++ message e) ]}))).

End Routes.

(** *** The alert *)

(** What [mostrarErroFatal] does: it runs a command, or writes to the
    console. *)
Inductive alerta : Type :=
  | Exec (comando : string)
  | ConsoleError (texto : string).

(** [s.replace(/c/g, d)] for a one-character pattern. *)
Fixpoint replace_all (c d : ascii) (s : string) : string :=
  match s with
  | EmptyString => EmptyString
  | String x rest => String (if Ascii.eqb x c then d else x) (replace_all c d rest)
  end.

Definition aspas : string := String "034" EmptyString.

Definition mostrarErroFatal (plataforma titulo mensagem : string) : alerta :=
  let msgLimpa := replace_all "010" " " (replace_all "034" "'" mensagem) in
  if String.eqb plataforma "darwin" then
    Exec ("osascript -e 'display alert " ++ aspas ++ titulo ++ aspas ++ " message "
          ++ aspas ++ msgLimpa ++ aspas ++ " as critical'")
  else if String.eqb plataforma "win32" then
    Exec ("powershell -Command " ++ aspas
          ++ "Add-Type -AssemblyName PresentationFramework;[System.Windows.MessageBox]::Show('"
          ++ msgLimpa ++ "','" ++ titulo ++ "')" ++ aspas)
  else ConsoleError ("[" ++ titulo ++ "] " ++ mensagem).

(** ** Vocabulary of the statements *)

(** The settings file cannot be read: it is missing, blank, or not JSON. *)
Definition settings_unreadable (pf : platform) (fs : filesystem) : Prop :=
  fs !! SETTINGS_PATH pf = None \/
  exists text, fs !! SETTINGS_PATH pf = Some text /\
               (trim pf text = "" \/ JSON_parse pf text = None).

(** The settings file holds an object with the three recognised keys. *)
Definition settings_file_complete (pf : platform) (fs : filesystem) : bool :=
  match fs !! SETTINGS_PATH pf with
  | Some text =>
      match JSON_parse pf text with
      | Some (JObj m) =>
          bool_decide (is_Some (m !! "diasEscopo")) &&
          bool_decide (is_Some (m !! "senhaAdmin")) &&
          bool_decide (is_Some (m !! "ocultarIgnorados"))
      | _ => false
      end
  | None => false
  end.

(** What [getSettings] leaves when it restores the defaults. *)
Definition healed (pf : platform) (fs : filesystem) : result json * filesystem :=
  (Ok defaultSettings, <[SETTINGS_PATH pf := JSON_stringify pf defaultSettings]> fs).

(** [k in v] for a parsed file. *)
Definition has_key (v : json) (k : string) : bool :=
  match v with
  | JObj m => bool_decide (is_Some (m !! k))
  | _ => false
  end.

(** The 401 answer of the agenda route. *)
Definition unauthorized : response :=
  {| status := 401; body := JObj {[ "error" := JStr "AUTH_REQUIRED" ]} |}.

(** A raw event with a [start] object, as the provider sends them. *)
Definition has_start (evento : json) : bool :=
  match evento with
  | JObj m => match m !! "start" with Some (JObj _) => true | _ => false end
  | _ => false
  end.

(** The title the front end receives for a raw event: its own title, or
    the placeholder when it has none. *)
Definition titulo_ok (evento ev : json) : Prop :=
  (forall s, JS.get_prop (Some evento) "summary" = Ok (Some (JStr s)) -> s <> "" ->
             JS.get_prop (Some ev) "titulo" = Ok (Some (JStr s))) /\
  (JS.get_prop (Some evento) "summary" = Ok None ->
   JS.get_prop (Some ev) "titulo" = Ok (Some (JStr "Sem Título"))).

(** The dates [listarEventos] goes through for a window of [n] days
    stay within the range of [Date]: the next day at the hour of now,
    its midnight, the midnight of the last day and its last
    millisecond. *)
Definition window_in_range (pf : platform) (agora n : Z) : bool :=
  let amanha := (Date.Day agora + 1)%Z in
  Date.in_range (LocalTZA pf) (Date.MakeDate amanha (Date.TimeWithinDay agora)) &&
  Date.in_range (LocalTZA pf) (Date.MakeDate amanha 0) &&
  Date.in_range (LocalTZA pf) (Date.MakeDate (amanha + n - 1) 0) &&
  Date.in_range (LocalTZA pf) (Date.MakeDate (amanha + n - 1) (Date.MakeTime 23 59 59 999)).

(** Two entries of a patient store hold the same record: for two
    objects, the same fields with the same values, in whatever order
    they were written. *)
Definition mesmo_registro (a b : value) : Prop :=
  match a, b with
  | Some (JObj p), Some (JObj q) => forall k, p !! k = q !! k
  | _, _ => a = b
  end.

(** The counts multer keeps for [uploadFields] while it handles the
    parts of a request: at most one file left for a listed field, no
    other field. *)
Definition filesLeft_ok (filesLeft : gmap string nat) : Prop :=
  forall field n, filesLeft !! field = Some n ->
    (n <= 1)%nat /\ (field = "credenciais" \/ field = "banco").

(** ** A reference platform

    A concrete platform on which the laws hold: a JSON printer with
    two-space indentation and a JSON reader (integer literals only, one
    UTF-8 byte per character of the model's strings), [trim] over the
    ASCII white space, a phone library that knows Brazilian national
    numbers, the Gregorian calendar, and a provider with a fixed agenda. *)
Module Ref.

(** *** Printing *)

Fixpoint indent (n : nat) (k : string) : string :=
  match n with
  | O => k
  | S n' => String " " (indent n' k)
  end.

Definition newline (n : nat) (k : string) : string := String "010" (indent n k).

Definition hex_digit (n : N) : ascii :=
  match n with
  | 0 => "0" | 1 => "1" | 2 => "2" | 3 => "3" | 4 => "4" | 5 => "5" | 6 => "6"
  | 7 => "7" | 8 => "8" | 9 => "9" | 10 => "a" | 11 => "b" | 12 => "c"
  | 13 => "d" | 14 => "e" | _ => "f"
  end%N%char.

(** One character of a string literal, followed by [k]. *)
Definition escape_char (c : ascii) (k : string) : string :=
  let n := N_of_ascii c in
  if (n =? 34)%N then String "\" (String "034" k)
  else if (n =? 92)%N then String "\" (String "\" k)
  else if (n =? 8)%N then String "\" (String "b" k)
  else if (n =? 12)%N then String "\" (String "f" k)
  else if (n =? 10)%N then String "\" (String "n" k)
  else if (n =? 13)%N then String "\" (String "r" k)
  else if (n =? 9)%N then String "\" (String "t" k)
  else if (n <? 32)%N then
    String "\" (String "u" (String "0" (String "0"
      (String (hex_digit (n / 16)) (String (hex_digit (n mod 16)) k)))))
  else String c k.

Fixpoint escape (s : string) (k : string) : string :=
  match s with
  | EmptyString => k
  | String c rest => escape_char c (escape rest k)
  end.

Definition quote (s : string) (k : string) : string :=
  String "034" (escape s (String "034" k)).

(** One member of an array or of an object on a line of its own, after
    a comma unless it is the first; [next] prints what follows it. *)
Definition print_item (n : nat) (item : string -> string)
    (next : bool -> string) (first : bool) : string :=
  (if first then newline n else fun k => String "," (newline n k)) (item (next false)).

(** [print n v k] is the text of [v] at indentation [n], followed by [k]. *)
Fixpoint print (n : nat) (v : json) (k : string) : string :=
  match v with
  | JNull => "null" ++ k
  | JBool true => "true" ++ k
  | JBool false => "false" ++ k
  | JNum z => pretty z ++ k
  | JStr s => quote s k
  | JArr l =>
      match l with
      | [] => String "[" (String "]" k)
      | _ =>
          String "["
            (foldr (fun x next => print_item (n + 2) (print (n + 2) x) next)
               (fun _ => newline n (String "]" k)) l true)
      end
  | JObj m =>
      if decide (m = ∅) then String "{" (String "}" k)
      else
        String "{"
          (map_fold
             (fun key x next =>
                print_item (n + 2)
                  (fun k' => quote key (String ":" (String " " (print (n + 2) x k')))) next)
             (fun _ => newline n (String "}" k)) m true)
  end.

Definition JSON_stringify (v : json) : string := print 0 v "".

(** *** Reading *)

Definition is_ws (c : ascii) : bool :=
  let n := N_of_ascii c in
  (n =? 32)%N || (n =? 9)%N || (n =? 10)%N || (n =? 13)%N.

Fixpoint skip_ws (s : string) : string :=
  match s with
  | String c rest => if is_ws c then skip_ws rest else s
  | EmptyString => s
  end.

Definition digit_of (c : ascii) : option N :=
  let n := N_of_ascii c in
  if (48 <=? n)%N && (n <=? 57)%N then Some (n - 48)%N else None.

Fixpoint read_digits (acc : N) (s : string) : N * string :=
  match s with
  | String c rest =>
      match digit_of c with
      | Some d => read_digits (acc * 10 + d) rest
      | None => (acc, s)
      end
  | EmptyString => (acc, s)
  end.

(** A number literal has a fraction or an exponent when the digits are
    followed by one of these; such literals are outside the reader. *)
Definition starts_fraction (s : string) : bool :=
  match s with
  | String c _ => Ascii.eqb c "." || Ascii.eqb c "e" || Ascii.eqb c "E"
  | EmptyString => false
  end.

(** The digits of an integer literal: a lone zero, or digits that do
    not start with zero. *)
Definition read_natural (s : string) : option (N * string) :=
  match s with
  | String c rest =>
      match digit_of c with
      | Some 0%N =>
          match rest with
          | String c' _ =>
              match digit_of c' with
              | Some _ => None
              | None => if starts_fraction rest then None else Some (0%N, rest)
              end
          | EmptyString => Some (0%N, rest)
          end
      | Some _ =>
          let '(n, rest') := read_digits 0 s in
          if starts_fraction rest' then None else Some (n, rest')
      | None => None
      end
  | EmptyString => None
  end.

Definition hex_value (c : ascii) : option N :=
  let n := N_of_ascii c in
  if (48 <=? n)%N && (n <=? 57)%N then Some (n - 48)%N
  else if (97 <=? n)%N && (n <=? 102)%N then Some (n - 87)%N
  else if (65 <=? n)%N && (n <=? 70)%N then Some (n - 55)%N
  else None.

(** The UTF-8 bytes of a code point of the basic plane written
    [\uXXXX]; surrogates are outside the reader. *)
Definition utf8 (code : N) (k : string) : option string :=
  if (code <? 128)%N then Some (String (ascii_of_N code) k)
  else if (code <? 2048)%N then
    Some (String (ascii_of_N (192 + code / 64))
           (String (ascii_of_N (128 + code mod 64)) k))
  else if (55296 <=? code)%N && (code <=? 57343)%N then None
  else
    Some (String (ascii_of_N (224 + code / 4096))
           (String (ascii_of_N (128 + (code / 64) mod 64))
              (String (ascii_of_N (128 + code mod 64)) k))).

(** The characters of a string literal after its opening quote. *)
Fixpoint read_string (s : string) : option (string * string) :=
  match s with
  | EmptyString => None
  | String c rest =>
      if Ascii.eqb c "034" then Some (EmptyString, rest)
      else if Ascii.eqb c "\" then
        match rest with
        | String e rest' =>
            let simple (c' : ascii) :=
              match read_string rest' with
              | Some (str, r) => Some (String c' str, r)
              | None => None
              end in
            if Ascii.eqb e "034" then simple "034"%char
            else if Ascii.eqb e "\" then simple "\"%char
            else if Ascii.eqb e "/" then simple "/"%char
            else if Ascii.eqb e "b" then simple "008"%char
            else if Ascii.eqb e "f" then simple "012"%char
            else if Ascii.eqb e "n" then simple "010"%char
            else if Ascii.eqb e "r" then simple "013"%char
            else if Ascii.eqb e "t" then simple "009"%char
            else if Ascii.eqb e "u" then
              match rest' with
              | String h1 (String h2 (String h3 (String h4 rest''))) =>
                  match hex_value h1, hex_value h2, hex_value h3, hex_value h4 with
                  | Some a, Some b, Some c3, Some d =>
                      match read_string rest'' with
                      | Some (str, r) =>
                          match utf8 (((a * 16 + b) * 16 + c3) * 16 + d) str with
                          | Some str' => Some (str', r)
                          | None => None
                          end
                      | None => None
                      end
                  | _, _, _, _ => None
                  end
              | _ => None
              end
            else None
        | EmptyString => None
        end
      else if (N_of_ascii c <? 32)%N then None
      else
        match read_string rest with
        | Some (str, r) => Some (String c str, r)
        | None => None
        end
  end.

(** A value, and the members of an array or of an object after the
    first; [fuel] bounds the number of values and members read. *)
Fixpoint read_value (fuel : nat) (s : string) : option (json * string) :=
  match fuel with
  | O => None
  | S fuel' =>
      match skip_ws s with
      | String "n" (String "u" (String "l" (String "l" rest))) => Some (JNull, rest)
      | String "t" (String "r" (String "u" (String "e" rest))) => Some (JBool true, rest)
      | String "f" (String "a" (String "l" (String "s" (String "e" rest)))) =>
          Some (JBool false, rest)
      | String "034" rest =>
          match read_string rest with
          | Some (str, rest') => Some (JStr str, rest')
          | None => None
          end
      | String "[" rest =>
          match skip_ws rest with
          | String c rest' =>
              if Ascii.eqb c "]" then Some (JArr [], rest') else read_elements fuel' rest []
          | EmptyString => None
          end
      | String "{" rest =>
          match skip_ws rest with
          | String c rest' =>
              if Ascii.eqb c "}" then Some (JObj ∅, rest') else read_members fuel' rest []
          | EmptyString => None
          end
      | String "-" rest =>
          match read_natural rest with
          | Some (n, rest') => Some (JNum (- Z.of_N n), rest')
          | None => None
          end
      | other =>
          match read_natural other with
          | Some (n, rest') => Some (JNum (Z.of_N n), rest')
          | None => None
          end
      end
  end
with read_elements (fuel : nat) (s : string) (acc : list json) : option (json * string) :=
  match fuel with
  | O => None
  | S fuel' =>
      match read_value fuel' s with
      | Some (v, rest) =>
          match skip_ws rest with
          | String "," rest' => read_elements fuel' rest' (v :: acc)
          | String "]" rest' => Some (JArr (rev (v :: acc)), rest')
          | _ => None
          end
      | None => None
      end
  end
with read_members (fuel : nat) (s : string) (acc : list (string * json))
    : option (json * string) :=
  match fuel with
  | O => None
  | S fuel' =>
      match skip_ws s with
      | String "034" rest =>
          match read_string rest with
          | Some (key, rest1) =>
              match skip_ws rest1 with
              | String ":" rest2 =>
                  match read_value fuel' rest2 with
                  | Some (v, rest3) =>
                      match skip_ws rest3 with
                      | String "," rest4 => read_members fuel' rest4 ((key, v) :: acc)
                      | String "}" rest4 =>
                          Some (JObj (list_to_map ((key, v) :: acc)), rest4)
                      | _ => None
                      end
                  | None => None
                  end
              | _ => None
              end
          | None => None
          end
      | _ => None
      end
  end.

(** The number of values and members of a value: the fuel that reads
    its text back. *)
Fixpoint jfuel (v : json) : nat :=
  match v with
  | JArr l => S (foldr (fun x n => S (jfuel x + n)) 0%nat l)
  | JObj m => S (map_fold (fun _ x n => S (jfuel x + n)) 0%nat m)
  | _ => 1%nat
  end.

(** Texts that may follow a printed value: the end of the text, a
    comma or a line break. *)
Definition delimited (k : string) : bool :=
  match k with
  | EmptyString => true
  | String c _ => Ascii.eqb c "," || Ascii.eqb c "010"
  end.

(** The first character of a printed value. *)
Definition value_head (c : ascii) : bool :=
  negb (is_ws c) && negb (Ascii.eqb c "]") && negb (Ascii.eqb c "}").

(** What [print] puts between the brackets of an array and between the
    braces of an object. *)
Definition items (n : nat) (k : string) (l : list json) : bool -> string :=
  foldr (fun x next => print_item (n + 2) (print (n + 2) x) next)
    (fun _ => newline n (String "]" k)) l.

Definition members (n : nat) (k : string) (l : list (string * json)) : bool -> string :=
  foldr (fun kv next =>
           print_item (n + 2)
             (fun k' => quote kv.1 (String ":" (String " " (print (n + 2) kv.2 k')))) next)
    (fun _ => newline n (String "}" k)) l.

(** The text of [v] is read back as [v], given enough fuel; and it is
    long enough for the fuel [JSON_parse] takes from its length. *)
Definition reads_back (v : json) : Prop :=
  forall n k fuel, (jfuel v <= fuel)%nat -> delimited k = true ->
                   read_value fuel (print n v k) = Some (v, k).

Definition long_enough (v : json) : Prop :=
  forall n k, (jfuel v + String.length k <= String.length (print n v k))%nat.

(** [JSON.parse]: one value, then only white space.  A later member of
    an object replaces an earlier one of the same name. *)
Definition JSON_parse (s : string) : option json :=
  match read_value (S (String.length s)) s with
  | Some (v, rest) =>
      match skip_ws rest with
      | EmptyString => Some v
      | _ => None
      end
  | None => None
  end.

(** *** [trim], over the ASCII white space *)

Definition is_space (c : ascii) : bool :=
  let n := N_of_ascii c in
  (n =? 32)%N || ((9 <=? n)%N && (n <=? 13)%N).

Fixpoint trim_start (s : string) : string :=
  match s with
  | String c rest => if is_space c then trim_start rest else s
  | EmptyString => s
  end.

Definition trim (s : string) : string :=
  String.rev (trim_start (String.rev (trim_start s))).

(** *** Phone numbers: Brazilian national numbers of ten or eleven
    digits, written with digits only. *)

Fixpoint read_phone (s : string) : option (list N) :=
  match s with
  | EmptyString => Some []
  | String c rest =>
      match digit_of c, read_phone rest with
      | Some d, Some ds => Some (d :: ds)
      | _, _ => None
      end
  end.

Definition parseAndKeepRawInput (raw : value) (region : string) : option (list N) :=
  match raw with
  | Some (JStr s) =>
      if String.eqb s "" || negb (String.eqb region "BR") then None else read_phone s
  | _ => None
  end.

Definition isValidNumber (n : list N) : bool :=
  (length n =? 10)%nat || (length n =? 11)%nat.

Fixpoint print_phone (n : list N) : string :=
  match n with
  | [] => EmptyString
  | d :: ds => String (ascii_of_N (48 + d mod 10)) (print_phone ds)
  end.

Definition format_E164 (n : list N) : string := "+55" ++ print_phone n.

Definition string_to_number (s : string) : num :=
  if String.eqb s "" then Some 0%Z
  else match read_natural s with
       | Some (n, EmptyString) => Some (Z.of_N n)
       | _ => None
       end.

(** *** The Gregorian calendar: the day of the month of a day number
    counted from 1970-01-01. *)
Definition day_of_month (day : Z) : Z :=
  let z := (day + 719468)%Z in
  let era := (z / 146097)%Z in
  let doe := (z - era * 146097)%Z in
  let yoe := ((doe - doe / 1460 + doe / 36524 - doe / 146096) / 365)%Z in
  let doy := (doe - (365 * yoe + yoe / 4 - yoe / 100))%Z in
  let mp := ((5 * doy + 2) / 153)%Z in
  (doy - (153 * mp + 2) / 5 + 1)%Z.

Definition month_start (day : Z) : Z := (day - (day_of_month day - 1))%Z.

(** *** Dates of events, given as ISO-8601 texts in the local zone:
    [YYYY-MM-DD] or [YYYY-MM-DDTHH:MM...]. *)
Definition toLocaleDateString (x : value) : string :=
  match x with
  | Some (JStr s) => String.substring 8 2 s ++ "/" ++ String.substring 5 2 s
  | _ => "Invalid Date"
  end.

Definition toLocaleTimeString (x : value) : string :=
  match x with
  | Some (JStr s) =>
      if (String.length s <=? 10)%nat then "00:00" else String.substring 11 5 s
  | _ => "Invalid Date"
  end.

(** *** A provider with two events, one of them untitled, that answers
    an authorised client and rejects the others. *)
Definition agenda : list json :=
  [ JObj {[ "summary" := JStr "Maria";
            "start" := JObj {[ "dateTime" := JStr "2026-11-03T14:30:00-03:00" ]} ]};
    JObj {[ "start" := JObj {[ "date" := JStr "2026-11-03" ]} ]} ].

Definition events_list (auth : oauth_client) (q : events_query) : result value :=
  match credentials auth with
  | Some (JObj token) =>
      match token !! "access_token" with
      | Some (JStr "expired") => Throw (Error "invalid_grant")
      | Some _ => Ok (Some (JArr agenda))
      | None => Throw (Error "No access, refresh token or API key is set.")
      end
  | _ => Throw (Error "No access, refresh token or API key is set.")
  end.

Definition exotic_set_telefone (db : json) (key : string) (numero : json) : result json :=
  match db with
  | JArr _ => Ok db
  | _ => Throw (TypeError "Cannot set properties of undefined (setting 'telefone')")
  end.

(** Brasília, three hours behind UTC. *)
Definition LocalTZA : Z := (-10800000)%Z.

(** A number or a keyword by its text, an array or an object by its
    class. *)
Definition key_text (v : value) : string :=
  match v with
  | None => "undefined"
  | Some JNull => "null"
  | Some (JBool true) => "true"
  | Some (JBool false) => "false"
  | Some (JNum n) => pretty n
  | Some (JStr s) => s
  | Some (JArr _) => "[object Array]"
  | Some (JObj _) => "#<Object>"
  end.

Definition the_platform : platform :=
  Build_platform
    "/srv/agenda"
    trim
    JSON_parse
    (fun _ => "Unexpected token in JSON")
    JSON_stringify
    (list N)
    parseAndKeepRawInput
    isValidNumber
    format_E164
    string_to_number
    month_start
    LocalTZA
    toLocaleDateString
    toLocaleTimeString
    events_list
    exotic_set_telefone
    key_text.
End Ref.

(** ** Reference packages for the other routes

    A printer without white space for [JSON.stringify(v)], an
    authorisation server that exchanges a code once, a browser login
    that succeeds when the key file is there. *)
Module RefRoutes.

Definition separator (first : bool) (k : string) : string :=
  if first then k else String "," k.

(** [print v k] is the text of [v] followed by [k]. *)
Fixpoint print (v : json) (k : string) : string :=
  match v with
  | JNull => "null" ++ k
  | JBool true => "true" ++ k
  | JBool false => "false" ++ k
  | JNum z => pretty z ++ k
  | JStr s => Ref.quote s k
  | JArr l =>
      String "["
        (foldr (fun x next first => separator first (print x (next false)))
           (fun _ => String "]" k) l true)
  | JObj m =>
      String "{"
        (map_fold
           (fun key x next first =>
              separator first (Ref.quote key (String ":" (print x (next false)))))
           (fun _ => String "}" k) m true)
  end.

Definition JSON_stringify_compact (v : json) : string := print v "".

Definition generateAuthUrl (client : oauth_client) (options : auth_url_options)
    : result string :=
  match client_id client with
  | Some (JStr id) =>
      Ok ("https://accounts.google.com/o/oauth2/v2/auth?access_type=" ++ access_type options
          ++ "&scope=" ++ String.concat " " (scope options)
          ++ "&prompt=" ++ prompt options
          ++ "&response_type=code&client_id=" ++ id)
  | _ => Throw (Error "client_id is required")
  end.

Definition getToken (client : oauth_client) (code : value) : result json :=
  match code with
  | Some (JStr "usado") => Throw (Error "invalid_grant")
  | Some (JStr c) =>
      Ok (JObj {[ "access_token" := JStr ("ya29." ++ c); "token_type" := JStr "Bearer" ]})
  | _ => Throw (Error "invalid_request")
  end.

Definition authenticate (scopes : list string) (keyfilePath : string) (fs : filesystem)
    : result value :=
  match fs !! keyfilePath with
  | Some _ =>
      Ok (Some (JObj {[ "access_token" := JStr "ya29.local"; "token_type" := JStr "Bearer" ]}))
  | None => Throw (Error ("ENOENT: no such file or directory, open '" ++ keyfilePath ++ "'"))
  end.

Definition exotic_set_informadoEm (db : json) (key : string) (informadoEm : json)
    : result json :=
  match db with
  | JArr _ => Ok db
  | _ => Throw (TypeError "Cannot set properties of undefined (setting 'informadoEm')")
  end.

(** A provider that keeps its events by the local time value of their
    start and answers an authorised client with those inside the window
    asked for, and the reference platform before it. *)
Definition agenda_datada : list (Z * json) :=
  [ (1793716200000%Z,
     JObj {[ "summary" := JStr "Maria";
             "start" := JObj {[ "dateTime" := JStr "2026-11-03T14:30:00-03:00" ]} ]});
    (1793750400000%Z,
     JObj {[ "start" := JObj {[ "date" := JStr "2026-11-04" ]} ]});
    (1793955600000%Z,
     JObj {[ "summary" := JStr "João";
             "start" := JObj {[ "dateTime" := JStr "2026-11-06T09:00:00-03:00" ]} ]}) ].

Definition events_list_janela (auth : oauth_client) (q : events_query) : result value :=
  match credentials auth with
  | Some (JObj _) =>
      Ok (Some (JArr (map snd
                        (List.filter
                           (fun e => (timeMin q <=? fst e)%Z && (fst e <=? timeMax q)%Z)
                           agenda_datada))))
  | _ => Throw (Error "No access, refresh token or API key is set.")
  end.

Definition com_janela : platform :=
  Build_platform
    "/srv/agenda"
    Ref.trim
    Ref.JSON_parse
    (fun _ => "Unexpected token in JSON")
    Ref.JSON_stringify
    (list N)
    Ref.parseAndKeepRawInput
    Ref.isValidNumber
    Ref.format_E164
    Ref.string_to_number
    Ref.month_start
    Ref.LocalTZA
    Ref.toLocaleDateString
    Ref.toLocaleTimeString
    events_list_janela
    Ref.exotic_set_telefone
    Ref.key_text.



(** The reference platform before a provider whose answer carries no
    [items]. *)
Definition sem_itens : platform :=
  Build_platform
    "/srv/agenda"
    Ref.trim
    Ref.JSON_parse
    (fun _ => "Unexpected token in JSON")
    Ref.JSON_stringify
    (list N)
    Ref.parseAndKeepRawInput
    Ref.isValidNumber
    Ref.format_E164
    Ref.string_to_number
    Ref.month_start
    Ref.LocalTZA
    Ref.toLocaleDateString
    Ref.toLocaleTimeString
    (fun _ _ => Ok undefined)
    Ref.exotic_set_telefone
    Ref.key_text.

End RefRoutes.

(** * Facts *)

(** ** The settings store *)

Section SettingsFacts.
  Context (pf : platform).

Lemma existsSync_Some p (fs : filesystem) text :
  fs !! p = Some text -> Fs.existsSync p fs = (Ok true, fs).
Proof.
  intros H. unfold Fs.existsSync. rewrite bool_decide_eq_true_2; eauto.
Qed.

Lemma existsSync_None p (fs : filesystem) :
  fs !! p = None -> Fs.existsSync p fs = (Ok false, fs).
Proof.
  intros H. unfold Fs.existsSync. rewrite bool_decide_eq_false_2; [done|].
  rewrite H. by intros [? ?].
Qed.

Lemma getSettings_missing fs :
  fs !! SETTINGS_PATH pf = None -> getSettings pf fs = healed pf fs.
Proof.
  intros H. unfold getSettings, try_catch, bind.
  rewrite (existsSync_None _ _ H). reflexivity.
Qed.

Lemma getSettings_blank fs text :
  fs !! SETTINGS_PATH pf = Some text -> trim pf text = "" -> getSettings pf fs = healed pf fs.
Proof.
  intros H Ht. unfold getSettings, try_catch, bind.
  rewrite (existsSync_Some _ _ _ H). unfold Fs.readFileSync. rewrite H, Ht. reflexivity.
Qed.

Lemma getSettings_unparsable fs text :
  fs !! SETTINGS_PATH pf = Some text -> JSON_parse pf text = None ->
  getSettings pf fs = healed pf fs.
Proof.
  intros H Hp. unfold getSettings, try_catch, bind.
  rewrite (existsSync_Some _ _ _ H). unfold Fs.readFileSync. rewrite H.
  destruct (String.eqb _ _); [reflexivity|].
  unfold parse. rewrite Hp. reflexivity.
Qed.

Lemma getSettings_parsed fs text v :
  fs !! SETTINGS_PATH pf = Some text -> trim pf text <> "" -> JSON_parse pf text = Some v ->
  getSettings pf fs = (Ok v, fs).
Proof.
  intros H Ht Hp. unfold getSettings, try_catch, bind.
  rewrite (existsSync_Some _ _ _ H). unfold Fs.readFileSync. rewrite H.
  destruct (String.eqb_spec (trim pf text) ""); [done|].
  unfold parse. rewrite Hp. reflexivity.
Qed.

Lemma getSettings_unreadable fs :
  settings_unreadable pf fs -> getSettings pf fs = healed pf fs.
Proof.
  intros [Hmiss | (text & Hfile & [Hblank | Hbad])].
  - exact (getSettings_missing fs Hmiss).
  - exact (getSettings_blank fs text Hfile Hblank).
  - exact (getSettings_unparsable fs text Hfile Hbad).
Qed.

Lemma getSettings_readable fs :
  ~ settings_unreadable pf fs ->
  exists text v, fs !! SETTINGS_PATH pf = Some text /\ JSON_parse pf text = Some v /\
                 getSettings pf fs = (Ok v, fs).
Proof.
  intros H. unfold settings_unreadable in H.
  destruct (fs !! SETTINGS_PATH pf) as [text|] eqn:Hf; [|tauto].
  destruct (String.eqb_spec (trim pf text) "") as [Ht|Ht];
    [exfalso; apply H; right; exists text; auto|].
  destruct (JSON_parse pf text) as [v|] eqn:Hp;
    [|exfalso; apply H; right; exists text; auto].
  exists text, v. split; [reflexivity|]. split; [exact Hp|].
  exact (getSettings_parsed fs text v Hf Ht Hp).
Qed.

(** [getSettings] never throws. *)
Lemma getSettings_total fs : exists v fs', getSettings pf fs = (Ok v, fs').
Proof.
  destruct (fs !! SETTINGS_PATH pf) as [text|] eqn:H.
  - destruct (String.eqb_spec (trim pf text) "") as [Ht|Ht].
    + rewrite (getSettings_blank _ _ H Ht). unfold healed; eauto.
    + destruct (JSON_parse pf text) as [v|] eqn:Hp.
      * rewrite (getSettings_parsed _ _ _ H Ht Hp); eauto.
      * rewrite (getSettings_unparsable _ _ H Hp). unfold healed; eauto.
  - rewrite (getSettings_missing _ H). unfold healed; eauto.
Qed.

(** [getSettings] touches the settings file only. *)
Lemma getSettings_frame (fs : filesystem) p :
  p <> SETTINGS_PATH pf -> snd (getSettings pf fs) !! p = fs !! p.
Proof.
  intros Hp.
  assert (Hheal : snd (healed pf fs) !! p = fs !! p).
  { simpl. by rewrite lookup_insert_ne. }
  destruct (fs !! SETTINGS_PATH pf) as [text|] eqn:H.
  - destruct (String.eqb_spec (trim pf text) "") as [Ht|Ht].
    + by rewrite (getSettings_blank _ _ H Ht).
    + destruct (JSON_parse pf text) as [v|] eqn:Hparse.
      * by rewrite (getSettings_parsed _ _ _ H Ht Hparse).
      * by rewrite (getSettings_unparsable _ _ H Hparse).
  - by rewrite (getSettings_missing _ H).
Qed.

Lemma default_file_complete (fs : filesystem) :
  json_laws pf ->
  settings_file_complete pf (<[SETTINGS_PATH pf := JSON_stringify pf defaultSettings]> fs) = true.
Proof.
  intros L. unfold settings_file_complete.
  rewrite lookup_insert_eq, (parse_stringify pf L). reflexivity.
Qed.

Lemma saveSettings_run fs v fs1 (newSettings : value) :
  getSettings pf fs = (Ok v, fs1) ->
  saveSettings pf newSettings fs =
    (Ok tt, <[SETTINGS_PATH pf :=
                JSON_stringify pf (JObj (JS.spread newSettings ∪ JS.spread (Some v)))]> fs1).
Proof.
  intros H. unfold saveSettings, bind. rewrite H. reflexivity.
Qed.

(** A settings file written by the program is read back as written. *)
Lemma getSettings_written (fs : filesystem) v :
  json_laws pf ->
  getSettings pf (<[SETTINGS_PATH pf := JSON_stringify pf v]> fs) =
    (Ok v, <[SETTINGS_PATH pf := JSON_stringify pf v]> fs).
Proof.
  intros L. apply getSettings_parsed with (text := JSON_stringify pf v).
  - apply lookup_insert_eq.
  - intros Hb. apply (parse_blank pf L) in Hb. rewrite (parse_stringify pf L) in Hb.
    discriminate.
  - apply (parse_stringify pf L).
Qed.

End SettingsFacts.

(** ** The credential and token manager *)

Section AuthFacts.
  Context (pf : platform).
  Local Arguments JS.get_prop : simpl never.

Lemma getOAuthClient_missing (fs : filesystem) :
  fs !! CREDENTIALS_PATH pf = None ->
  getOAuthClient pf fs = (Throw (Error "CREDENTIALS_MISSING"), fs).
Proof.
  intros H. unfold getOAuthClient, bind. rewrite (existsSync_None _ _ H). reflexivity.
Qed.

Lemma getOAuthClient_unparsable (fs : filesystem) text :
  fs !! CREDENTIALS_PATH pf = Some text -> JSON_parse pf text = None ->
  getOAuthClient pf fs = (Throw (SyntaxError (JSON_parse_error pf text)), fs).
Proof.
  intros H Hp. unfold getOAuthClient, bind. rewrite (existsSync_Some _ _ _ H). simpl.
  unfold Fs.readFileSync. rewrite H. unfold parse. rewrite Hp. reflexivity.
Qed.

Lemma getOAuthClient_parsed (fs : filesystem) text keys :
  fs !! CREDENTIALS_PATH pf = Some text -> JSON_parse pf text = Some keys ->
  getOAuthClient pf fs =
    (match JS.get_prop (Some keys) "web" with
     | Throw e => Throw e
     | Ok web =>
         match (if JS.truthy web then Ok web else JS.get_prop (Some keys) "installed") with
         | Throw e => Throw e
         | Ok key =>
             match JS.get_prop key "client_id" with
             | Throw e => Throw e
             | Ok id =>
                 match JS.get_prop key "client_secret" with
                 | Throw e => Throw e
                 | Ok secret =>
                     Ok (OAuth2 id secret
                           (Some (JStr "https://consultoriobw.com.br/agenda/oauth2callback"))
                           undefined)
                 end
             end
         end
     end, fs).
Proof.
  intros H Hp. unfold getOAuthClient, bind. rewrite (existsSync_Some _ _ _ H). simpl.
  unfold Fs.readFileSync. rewrite H. unfold parse. rewrite Hp. unfold ret, lift.
  destruct (JS.get_prop (Some keys) "web") as [web|e]; [|reflexivity].
  destruct (JS.truthy web).
  - destruct (JS.get_prop web "client_id"); [|reflexivity].
    destruct (JS.get_prop web "client_secret"); reflexivity.
  - destruct (JS.get_prop (Some keys) "installed") as [key|]; [|reflexivity].
    destruct (JS.get_prop key "client_id"); [|reflexivity].
    destruct (JS.get_prop key "client_secret"); reflexivity.
Qed.

Lemma getOAuthClient_no_keys (fs : filesystem) text keys :
  fs !! CREDENTIALS_PATH pf = Some text -> JSON_parse pf text = Some keys ->
  has_key keys "web" = false -> has_key keys "installed" = false ->
  exists msg, getOAuthClient pf fs = (Throw (TypeError msg), fs).
Proof.
  intros H Hp Hw Hi. rewrite (getOAuthClient_parsed fs text keys H Hp).
  destruct keys as [| | | | |m]; unfold JS.get_prop; simpl; eauto.
  simpl in Hw, Hi.
  apply bool_decide_eq_false_1 in Hw. apply bool_decide_eq_false_1 in Hi.
  destruct (m !! "web") eqn:Ew; [exfalso; eauto|].
  destruct (m !! "installed") eqn:Ei; [exfalso; eauto|].
  simpl. eauto.
Qed.

Lemma getOAuthClient_reads_only (fs : filesystem) : snd (getOAuthClient pf fs) = fs.
Proof.
  destruct (fs !! CREDENTIALS_PATH pf) as [text|] eqn:H.
  - destruct (JSON_parse pf text) as [keys|] eqn:Hp.
    + rewrite (getOAuthClient_parsed fs text keys H Hp). reflexivity.
    + rewrite (getOAuthClient_unparsable fs text H Hp). reflexivity.
  - rewrite (getOAuthClient_missing fs H). reflexivity.
Qed.

(** A client that was built has the fixed callback address and no token. *)
Lemma getOAuthClient_built (fs : filesystem) client :
  fst (getOAuthClient pf fs) = Ok client ->
  redirect_uri client = Some (JStr "https://consultoriobw.com.br/agenda/oauth2callback") /\
  credentials client = undefined /\
  exists text keys, fs !! CREDENTIALS_PATH pf = Some text /\ JSON_parse pf text = Some keys.
Proof.
  destruct (fs !! CREDENTIALS_PATH pf) as [text|] eqn:H.
  - destruct (JSON_parse pf text) as [keys|] eqn:Hp.
    + rewrite (getOAuthClient_parsed fs text keys H Hp). simpl.
      destruct (JS.get_prop (Some keys) "web") as [web|]; [|discriminate].
      destruct (if JS.truthy web then _ else _) as [key|]; [|discriminate].
      destruct (JS.get_prop key "client_id"); [|discriminate].
      destruct (JS.get_prop key "client_secret"); [|discriminate].
      intros [= <-]. repeat split; eauto.
    + rewrite (getOAuthClient_unparsable fs text H Hp). discriminate.
  - rewrite (getOAuthClient_missing fs H). discriminate.
Qed.

Lemma carregarAuth_no_token (fs : filesystem) :
  fs !! TOKEN_PATH pf = None ->
  carregarAuth pf fs = (Throw (Error "AUTH_REQUIRED"), fs).
Proof.
  intros H. unfold carregarAuth, bind. rewrite (existsSync_None _ _ H). reflexivity.
Qed.

Lemma carregarAuth_token (fs : filesystem) text :
  fs !! TOKEN_PATH pf = Some text ->
  carregarAuth pf fs =
    (match fst (getOAuthClient pf fs), JSON_parse pf text with
     | Ok client, Some token => Ok (setCredentials client token)
     | _, _ => Throw (Error "AUTH_REQUIRED")
     end, fs).
Proof.
  intros H. unfold carregarAuth, bind, try_catch. rewrite (existsSync_Some _ _ _ H).
  pose proof (getOAuthClient_reads_only fs) as Hfs.
  destruct (getOAuthClient pf fs) as [[client|e] fs1]; simpl in Hfs; subst fs1; simpl.
  - unfold Fs.readFileSync. rewrite H. unfold parse.
    destruct (JSON_parse pf text); reflexivity.
  - reflexivity.
Qed.

Lemma carregarAuth_credentials_failure (fs : filesystem) :
  is_Some (fs !! TOKEN_PATH pf) ->
  (fs !! CREDENTIALS_PATH pf = None \/
   exists text, fs !! CREDENTIALS_PATH pf = Some text /\ JSON_parse pf text = None) ->
  carregarAuth pf fs = (Throw (Error "AUTH_REQUIRED"), fs).
Proof.
  intros [token Htok] Hcred.
  rewrite (carregarAuth_token fs token Htok).
  destruct Hcred as [Hmiss | (text & Hfile & Hbad)].
  - rewrite (getOAuthClient_missing fs Hmiss). reflexivity.
  - rewrite (getOAuthClient_unparsable fs text Hfile Hbad). reflexivity.
Qed.

(** The local flow gives the two credentials failures errors of their
    own, under messages of its own. *)
Lemma carregarAuth_local_client_failures (fs : filesystem) :
  (fs !! CREDENTIALS_PATH pf = None ->
   carregarAuth_local_client pf fs =
     (Throw (Error "Arquivo 'credentials.json' ausente. Vá em Configurações e faça o upload."),
      fs)) /\
  (forall text,
     fs !! CREDENTIALS_PATH pf = Some text -> JSON_parse pf text = None ->
     carregarAuth_local_client pf fs =
       (Throw (Error "Arquivo 'credentials.json' corrompido/inválido."), fs)) /\
  (forall text keys,
     fs !! CREDENTIALS_PATH pf = Some text -> JSON_parse pf text = Some keys ->
     has_key keys "installed" = false -> has_key keys "web" = false ->
     carregarAuth_local_client pf fs =
       (Throw (Error "Arquivo 'credentials.json' corrompido/inválido."), fs)).
Proof.
  split; [|split].
  - intros H. unfold carregarAuth_local_client, bind.
    rewrite (existsSync_None _ _ H). reflexivity.
  - intros text H Hp. unfold carregarAuth_local_client, bind, try_catch.
    rewrite (existsSync_Some _ _ _ H). simpl.
    unfold Fs.readFileSync. rewrite H. unfold parse. rewrite Hp. reflexivity.
  - intros text keys H Hp Hi Hw. unfold carregarAuth_local_client, bind, try_catch.
    rewrite (existsSync_Some _ _ _ H). simpl.
    unfold Fs.readFileSync. rewrite H. unfold parse. rewrite Hp. unfold ret, lift.
    destruct keys as [| | | | |m]; unfold JS.get_prop; simpl; try reflexivity.
    simpl in Hw, Hi.
    apply bool_decide_eq_false_1 in Hw. apply bool_decide_eq_false_1 in Hi.
    destruct (m !! "installed") eqn:Ei; [exfalso; eauto|].
    destruct (m !! "web") eqn:Ew; [exfalso; eauto|].
    reflexivity.
Qed.

End AuthFacts.

(** ** The agenda route *)

Section AgendaFacts.
  Context (pf : platform).
  Local Arguments JS.get_prop : simpl never.

Lemma api_agenda_ok agora (fs fs' : filesystem) eventos :
  bind (carregarAuth pf) (listarEventos pf agora) fs = (Ok eventos, fs') ->
  api_agenda pf agora fs = (Ok (res_json (JArr eventos)), fs').
Proof.
  unfold api_agenda, try_catch, bind. intros H.
  destruct (carregarAuth pf fs) as [[auth|e] fs1]; [|discriminate].
  rewrite H. reflexivity.
Qed.

(** The [catch] of the route, on the exception [e] of its [try]. *)
Lemma api_agenda_throw agora (fs fs' : filesystem) e :
  bind (carregarAuth pf) (listarEventos pf agora) fs = (Throw e, fs') ->
  api_agenda pf agora fs =
    if String.eqb (message e) "AUTH_REQUIRED" || JS.includes "invalid_grant" (message e)
    then (Ok unauthorized, delete (TOKEN_PATH pf) fs')
    else (Ok {| status := 500;
                body := JObj {[ "error" := JStr ("Erro ao buscar agenda: " ++ message e) ]} |},
          fs').
Proof.
  unfold api_agenda, try_catch, bind. intros H.
  assert (Hcatch : forall fs1 : filesystem,
    (exists_ <- Fs.existsSync (TOKEN_PATH pf) ;;
     (if exists_ then Fs.unlinkSync (TOKEN_PATH pf) else ret tt) ;;;
     ret (res_status_json 401 (JObj {[ "error" := JStr "AUTH_REQUIRED" ]})))%js fs1
    = (Ok unauthorized, delete (TOKEN_PATH pf) fs1)).
  { intros fs1. unfold bind. destruct (fs1 !! TOKEN_PATH pf) as [t|] eqn:Ht.
    - rewrite (existsSync_Some _ _ _ Ht). unfold Fs.unlinkSync. rewrite Ht. reflexivity.
    - rewrite (existsSync_None _ _ Ht). simpl. rewrite delete_id by done. reflexivity. }
  destruct (carregarAuth pf fs) as [[auth|e0] fs1].
  - rewrite H. destruct (_ || _); [apply Hcatch | reflexivity].
  - injection H as -> ->. destruct (_ || _); [apply Hcatch | reflexivity].
Qed.

Lemma api_agenda_auth_required agora (fs : filesystem) :
  carregarAuth pf fs = (Throw (Error "AUTH_REQUIRED"), fs) ->
  api_agenda pf agora fs = (Ok unauthorized, delete (TOKEN_PATH pf) fs).
Proof.
  intros H. rewrite (api_agenda_throw agora fs fs (Error "AUTH_REQUIRED")).
  - reflexivity.
  - unfold bind. rewrite H. reflexivity.
Qed.

Lemma api_agenda_no_token agora (fs : filesystem) :
  fs !! TOKEN_PATH pf = None ->
  api_agenda pf agora fs = (Ok unauthorized, fs).
Proof.
  intros H.
  rewrite (api_agenda_auth_required agora fs (carregarAuth_no_token pf fs H)).
  rewrite delete_id by done. reflexivity.
Qed.

End AgendaFacts.

(** ** The event lister *)

Section EventosFacts.
  Context (pf : platform).
  Local Arguments JS.get_prop : simpl never.
  Local Open Scope Z_scope.

Lemma Day_MakeDate day time :
  0 <= time < Date.msPerDay -> Date.Day (Date.MakeDate day time) = day.
Proof.
  intros H. unfold Date.Day, Date.MakeDate.
  symmetry. apply (Z.div_unique_pos _ _ day time); unfold Date.msPerDay in *; lia.
Qed.

Lemma TimeWithinDay_MakeDate day time :
  0 <= time < Date.msPerDay -> Date.TimeWithinDay (Date.MakeDate day time) = time.
Proof.
  intros H. unfold Date.TimeWithinDay, Date.MakeDate.
  symmetry. apply (Z.mod_unique_pos _ _ day time); unfold Date.msPerDay in *; lia.
Qed.

(** [setDate(getDate() + 1)] then [setHours(0, 0, 0, 0)]: the midnight
    that starts the next day, whatever the month, when the dates on the
    way are in range. *)
Lemma inicio_is_tomorrow agora :
  Date.setHours (LocalTZA pf)
    (Date.setDate (month_start pf) (LocalTZA pf) (Some agora)
       (Num.add (Date.getDate (month_start pf) (Some agora)) (Some 1))) 0 0 0 0
  = if Date.in_range (LocalTZA pf)
         (Date.MakeDate (Date.Day agora + 1) (Date.TimeWithinDay agora)) &&
       Date.in_range (LocalTZA pf) (Date.MakeDate (Date.Day agora + 1) 0)
    then Some (Date.MakeDate (Date.Day agora + 1) 0) else None.
Proof.
  assert (Hmod : 0 <= Date.TimeWithinDay agora < Date.msPerDay).
  { unfold Date.TimeWithinDay. apply Z.mod_pos_bound. reflexivity. }
  cbn [Date.setDate Date.getDate Num.add].
  replace (month_start pf (Date.Day agora)
           + (Date.Day agora - month_start pf (Date.Day agora) + 1 + 1) - 1)
    with (Date.Day agora + 1) by lia.
  unfold Date.TimeClip at 1.
  destruct (Date.in_range (LocalTZA pf) (Date.MakeDate _ (Date.TimeWithinDay agora)));
    [|reflexivity].
  cbn [Date.setHours andb]. rewrite Day_MakeDate by exact Hmod.
  unfold Date.TimeClip. reflexivity.
Qed.

(** [setDate(getDate() + (n - 1))] then [setHours(23, 59, 59, 999)] on a
    midnight: the last millisecond of the day [n - 1] days later, when
    the dates on the way are in range. *)
Lemma fim_is_last_day amanha n :
  Date.setHours (LocalTZA pf)
    (Date.setDate (month_start pf) (LocalTZA pf) (Some (Date.MakeDate amanha 0))
       (Num.add (Date.getDate (month_start pf) (Some (Date.MakeDate amanha 0)))
          (Num.sub (Some n) (Some 1)))) 23 59 59 999
  = if Date.in_range (LocalTZA pf) (Date.MakeDate (amanha + n - 1) 0) &&
       Date.in_range (LocalTZA pf)
         (Date.MakeDate (amanha + n - 1) (Date.MakeTime 23 59 59 999))
    then Some (Date.MakeDate (amanha + n - 1) (Date.MakeTime 23 59 59 999)) else None.
Proof.
  assert (H0 : 0 <= 0 < Date.msPerDay) by (unfold Date.msPerDay; lia).
  cbn [Date.setDate Date.getDate Num.add Num.sub].
  rewrite (TimeWithinDay_MakeDate amanha 0 H0), (Day_MakeDate amanha 0 H0).
  replace (month_start pf amanha + (amanha - month_start pf amanha + 1 + (n - 1)) - 1)
    with (amanha + n - 1) by lia.
  unfold Date.TimeClip at 1.
  destruct (Date.in_range (LocalTZA pf) (Date.MakeDate (amanha + n - 1) 0)); [|reflexivity].
  cbn [Date.setHours andb]. rewrite Day_MakeDate by exact H0.
  unfold Date.TimeClip. reflexivity.
Qed.

Lemma formatarEvento_titulo evento :
  has_start evento = true ->
  exists ev, formatarEvento pf evento = Ok ev /\ titulo_ok evento ev.
Proof.
  unfold has_start. destruct evento as [| | | | |m]; try discriminate.
  destruct (m !! "start") as [[| | | | |st]|] eqn:Hst; try discriminate. intros _.
  unfold formatarEvento, JS.get_prop at 1. rewrite Hst.
  unfold JS.get_prop at 1.
  assert (Hdate : exists d, (if JS.truthy (st !! "dateTime") then Ok (st !! "dateTime")
                             else JS.get_prop (Some (JObj st)) "date") = Ok d).
  { destruct (JS.truthy _); unfold JS.get_prop; eauto. }
  destruct Hdate as [d ->].
  unfold JS.get_prop at 1.
  eexists. split; [reflexivity|]. unfold titulo_ok, JS.get_prop. split.
  - intros s [= Hs] Hne. rewrite Hs. simpl.
    destruct (String.eqb_spec s ""%string); [contradiction|]. simpl.
    by rewrite lookup_insert_eq.
  - intros [= Hs]. rewrite Hs. by rewrite lookup_insert_eq.
Qed.

Lemma map_eventos_titulos l :
  Forall (fun evento => has_start evento = true) l ->
  exists evs, map_eventos pf l = Ok evs /\ Forall2 titulo_ok l evs.
Proof.
  induction 1 as [|evento l Hstart _ IH]; simpl.
  - exists []. split; [reflexivity | constructor].
  - destruct (formatarEvento_titulo evento Hstart) as (ev & -> & Hev).
    destruct IH as (evs & -> & Hevs).
    exists (ev :: evs). split; [reflexivity | by constructor].
Qed.

(** The listing for whatever the settings hold: the number that
    [diasEscopo || 1] converts to counts the days; a value that has no
    number makes the end of the window an invalid date, and so does a
    window that leaves the range of [Date]; a value that cannot be
    converted throws. *)
Lemma listarEventos_dias (agora : Z) (auth : oauth_client) (fs fs1 : filesystem)
    settings diasEscopo :
  getSettings pf fs = (Ok settings, fs1) ->
  JS.get_prop (Some settings) "diasEscopo" = Ok diasEscopo ->
  listarEventos pf agora auth fs =
    (match Num.to_number (string_to_number pf) (JS.or_else diasEscopo (Some (JNum 1))) with
     | Throw e => Throw e
     | Ok None => Throw (RangeError "Invalid time value")
     | Ok (Some n) =>
         if window_in_range pf agora n then
           match events_list pf auth
                   {| calendarId := "primary";
                      timeMin := Date.MakeDate (Date.Day agora + 1) 0;
                      timeMax := Date.MakeDate (Date.Day agora + 1 + n - 1)
                                   (Date.MakeTime 23 59 59 999);
                      singleEvents := true; orderBy := "startTime" |} with
           | Throw e => Throw e
           | Ok items =>
               match JS.or_else items (Some (JArr [])) with
               | Some (JArr l) => map_eventos pf l
               | _ => Throw (TypeError "eventosBrutos.map is not a function")
               end
           end
         else Throw (RangeError "Invalid time value")
     end, fs1).
Proof.
  intros Hget Hdias. unfold listarEventos, bind. rewrite Hget.
  unfold lift at 1. rewrite Hdias. unfold lift at 1.
  destruct (Num.to_number (string_to_number pf) (JS.or_else diasEscopo (Some (JNum 1))))
    as [[n|]|e]; [| |reflexivity].
  - rewrite inicio_is_tomorrow. unfold window_in_range.
    destruct (Date.in_range (LocalTZA pf) (Date.MakeDate _ (Date.TimeWithinDay agora))
              && Date.in_range (LocalTZA pf) (Date.MakeDate (Date.Day agora + 1) 0));
      [|reflexivity].
    rewrite fim_is_last_day. cbn [andb].
    destruct (Date.in_range (LocalTZA pf) (Date.MakeDate (Date.Day agora + 1 + n - 1) 0)
              && Date.in_range (LocalTZA pf) (Date.MakeDate (Date.Day agora + 1 + n - 1) _));
      [|reflexivity].
    simpl.
    destruct (events_list pf auth _) as [items|e]; simpl; [|reflexivity].
    destruct (JS.or_else items (Some (JArr []))) as [[| | | | l |]|]; reflexivity.
  - rewrite inicio_is_tomorrow.
    destruct (_ && _); reflexivity.
Qed.

Lemma listarEventos_run (agora n : Z) (auth : oauth_client) (fs fs1 : filesystem) settings :
  getSettings pf fs = (Ok settings, fs1) ->
  JS.get_prop (Some settings) "diasEscopo" = Ok (Some (JNum n)) ->
  n <> 0 ->
  window_in_range pf agora n = true ->
  listarEventos pf agora auth fs =
    (match events_list pf auth
             {| calendarId := "primary";
                timeMin := Date.MakeDate (Date.Day agora + 1) 0;
                timeMax := Date.MakeDate (Date.Day agora + 1 + n - 1)
                             (Date.MakeTime 23 59 59 999);
                singleEvents := true; orderBy := "startTime" |} with
     | Throw e => Throw e
     | Ok items =>
         match JS.or_else items (Some (JArr [])) with
         | Some (JArr l) => map_eventos pf l
         | _ => Throw (TypeError "eventosBrutos.map is not a function")
         end
     end, fs1).
Proof.
  intros Hget Hdias Hn Hrange.
  rewrite (listarEventos_dias agora auth fs fs1 settings _ Hget Hdias).
  assert (Htruthy : JS.or_else (Some (JNum n)) (Some (JNum 1)) = Some (JNum n)).
  { unfold JS.or_else. simpl. destruct (Z.eqb_spec n 0); [contradiction|reflexivity]. }
  rewrite Htruthy. simpl Num.to_number. cbv iota. rewrite Hrange. reflexivity.
Qed.

End EventosFacts.

(** ** The upload route *)

Section UploadFacts.
  Context (pf : platform).
  Local Arguments JS.get_prop : simpl never.

Lemma CREDENTIALS_not_SETTINGS : CREDENTIALS_PATH pf <> SETTINGS_PATH pf.
Proof.
  unfold CREDENTIALS_PATH, SETTINGS_PATH, Fs.join. intros H.
  apply (inj _) in H. discriminate.
Qed.

(** multer writes an allowed file under its canonical name. *)
Lemma uploadFields_credenciais (fs : filesystem) senha content :
  uploadFields pf {| req_senha := senha; req_files := [("credenciais", content)] |} fs =
    (Ok tt, <[CREDENTIALS_PATH pf := content]> fs).
Proof. reflexivity. Qed.

(** After the upload the route only reads the settings. *)
Lemma api_upload_after (req : upload_request) (fs fs1 fs2 : filesystem) settings senhaAdmin :
  uploadFields pf req fs = (Ok tt, fs1) ->
  getSettings pf fs1 = (Ok settings, fs2) ->
  JS.get_prop (Some settings) "senhaAdmin" = Ok senhaAdmin ->
  api_upload pf req fs =
    (Ok (if negb (JS.strict_eq (req_senha req) senhaAdmin)
         then {| status := 403;
                 body := JObj {[ "success" := JBool false;
                                 "message" := JStr "Senha incorreta!" ]} |}
         else {| status := 200;
                 body := JObj {[ "success" := JBool true;
                                 "message" := JStr "Arquivo atualizado!" ]} |}), fs2).
Proof.
  intros Hup Hget Hadmin. unfold api_upload, bind, attempt. rewrite Hup, Hget.
  unfold lift. rewrite Hadmin. destruct (negb _); reflexivity.
Qed.

End UploadFacts.

(** ** The reference platform satisfies the laws *)

(** Induction on a JSON value, with the hypothesis for the elements of
    an array and for the members of an object. *)

Section JsonInduction.
  Import Ref.
  Variable P : json -> Prop.
  Hypothesis Hnull : P JNull.
  Hypothesis Hbool : forall b, P (JBool b).
  Hypothesis Hnum : forall n, P (JNum n).
  Hypothesis Hstr : forall s, P (JStr s).
  Hypothesis Harr : forall l, Forall P l -> P (JArr l).
  Hypothesis Hobj : forall m, Forall (fun kv => P kv.2) (map_to_list m) -> P (JObj m).

Lemma jfuel_elements (l : list json) x :
  x ∈ l -> (jfuel x < foldr (fun x n => S (jfuel x + n)) 0 l)%nat.
Proof.
  induction 1 as [x l | x y l _ IH]; simpl; lia.
Qed.

Lemma jfuel_members (l : list (string * json)) kv :
  kv ∈ l -> (jfuel kv.2 < foldr (fun kv n => S (jfuel kv.2 + n)) 0 l)%nat.
Proof.
  induction 1 as [x l | x y l _ IH]; simpl; lia.
Qed.

Lemma jfuel_JObj m :
  jfuel (JObj m) = S (foldr (fun kv n => S (jfuel kv.2 + n)) 0%nat (map_to_list m)).
Proof.
  simpl. f_equal. rewrite map_fold_foldr.
  induction (map_to_list m) as [|[k x] l IH]; simpl; congruence.
Qed.

Lemma json_ind_bounded n : forall v, (jfuel v <= n)%nat -> P v.
Proof.
  induction n as [|n IH]; intros v Hv.
  - destruct v; simpl in Hv; lia.
  - destruct v as [| | | | l | m]; auto.
    + apply Harr, Forall_forall. intros x Hx. apply IH.
      pose proof (jfuel_elements l x Hx). simpl in Hv. lia.
    + apply Hobj, Forall_forall. intros kv Hkv. apply IH.
      pose proof (jfuel_members _ kv Hkv). rewrite jfuel_JObj in Hv. lia.
Qed.

Lemma json_induction v : P v.
Proof. apply (json_ind_bounded (jfuel v)). lia. Qed.
End JsonInduction.

Section ReadingFacts.
  Import Ref.

Lemma skip_ws_indent n k : skip_ws (indent n k) = skip_ws k.
Proof. induction n as [|n IH]; [reflexivity | exact IH]. Qed.

Lemma skip_ws_newline n k : skip_ws (newline n k) = skip_ws k.
Proof. unfold newline. simpl. apply skip_ws_indent. Qed.

Lemma read_value_skip fuel s1 s2 :
  skip_ws s1 = skip_ws s2 -> read_value fuel s1 = read_value fuel s2.
Proof. intros H. destruct fuel; simpl; [reflexivity|]. rewrite H. reflexivity. Qed.

Lemma read_elements_skip fuel s1 s2 acc :
  skip_ws s1 = skip_ws s2 -> read_elements fuel s1 acc = read_elements fuel s2 acc.
Proof.
  intros H. destruct fuel; simpl; [reflexivity|].
  rewrite (read_value_skip fuel s1 s2 H). reflexivity.
Qed.

Lemma read_members_skip fuel s1 s2 acc :
  skip_ws s1 = skip_ws s2 -> read_members fuel s1 acc = read_members fuel s2 acc.
Proof. intros H. destruct fuel; simpl; [reflexivity|]. rewrite H. reflexivity. Qed.

Lemma read_string_escape_char c s k :
  read_string (escape s (String "034" k)) = Some (s, k) ->
  read_string (escape_char c (escape s (String "034" k))) = Some (String c s, k).
Proof.
  intros IH.
  destruct c as [[] [] [] [] [] [] [] []]; simpl; rewrite IH; reflexivity.
Qed.

Lemma read_string_escape s k : read_string (escape s (String "034" k)) = Some (s, k).
Proof.
  induction s as [|c s IH]; [reflexivity|].
  simpl escape. apply read_string_escape_char, IH.
Qed.

Lemma delimited_read_digits x k : delimited k = true -> read_digits x k = (x, k).
Proof.
  destruct k as [|c k]; [reflexivity|]. simpl. intros H.
  apply orb_true_iff in H as [H|H]; apply Ascii.eqb_eq in H; subst c; reflexivity.
Qed.

Lemma delimited_starts_fraction k : delimited k = true -> starts_fraction k = false.
Proof.
  destruct k as [|c k]; [reflexivity|]. simpl. intros H.
  apply orb_true_iff in H as [H|H]; apply Ascii.eqb_eq in H; subst c; reflexivity.
Qed.

Lemma digit_of_pretty_N_char d : (d < 10)%N -> digit_of (pretty_N_char d) = Some d.
Proof.
  intros H.
  assert (d = 0 \/ d = 1 \/ d = 2 \/ d = 3 \/ d = 4 \/ d = 5 \/ d = 6 \/ d = 7 \/ d = 8
          \/ d = 9)%N as Hd by lia.
  repeat (destruct Hd as [-> | Hd]; [reflexivity|]). subst d. reflexivity.
Qed.

Lemma pretty_N_go_app x s k : pretty_N_go x s ++ k = pretty_N_go x (s ++ k).
Proof.
  revert s. induction (N.lt_wf_0 x) as [x _ IH]. intros s.
  destruct (decide (x = 0)%N) as [-> | Hx]; [reflexivity|].
  rewrite (pretty_N_go_step x s), (pretty_N_go_step x (s ++ k)) by lia.
  rewrite IH by (apply N.div_lt; lia). reflexivity.
Qed.

Lemma read_digits_pretty x s : read_digits 0 (pretty_N_go x s) = read_digits x s.
Proof.
  revert s. induction (N.lt_wf_0 x) as [x _ IH]. intros s.
  destruct (decide (x = 0)%N) as [-> | Hx]; [reflexivity|].
  rewrite pretty_N_go_step by lia.
  rewrite IH by (apply N.div_lt; lia).
  simpl. rewrite digit_of_pretty_N_char by (apply N.mod_lt; lia).
  f_equal. rewrite N.mul_comm. symmetry. apply N.div_mod. lia.
Qed.

Lemma pretty_N_go_head x s :
  (0 < x)%N ->
  exists d r, (0 < d < 10)%N /\ pretty_N_go x s = String (pretty_N_char d) r.
Proof.
  revert s. induction (N.lt_wf_0 x) as [x _ IH]. intros s Hx.
  rewrite pretty_N_go_step by lia.
  destruct (decide (x < 10)%N) as [Hsmall | Hbig].
  - rewrite N.div_small, N.mod_small by lia. rewrite pretty_N_go_0.
    exists x, s. split; [lia | reflexivity].
  - apply IH.
    + apply N.div_lt; lia.
    + apply N.div_str_pos. lia.
Qed.

Lemma read_natural_pretty x k :
  (0 < x)%N -> delimited k = true ->
  exists c r, pretty_N_go x k = String c r /\ is_ws c = false /\
    (forall fuel, read_value (S fuel) (String c r) = Some (JNum (Z.of_N x), k)) /\
    read_natural (String c r) = Some (x, k).
Proof.
  intros Hx Hk.
  destruct (pretty_N_go_head x k Hx) as (d & r & Hd & Heq).
  exists (pretty_N_char d), r. split; [exact Heq|].
  assert (Hnat : read_natural (String (pretty_N_char d) r) = Some (x, k)).
  { assert (Hdig : read_digits 0 (String (pretty_N_char d) r) = (x, k)).
    { rewrite <- Heq, read_digits_pretty. apply delimited_read_digits, Hk. }
    unfold read_natural. rewrite digit_of_pretty_N_char by lia.
    destruct d as [|p]; [lia|]. rewrite Hdig.
    rewrite (delimited_starts_fraction k Hk). reflexivity. }
  assert (d = 1 \/ d = 2 \/ d = 3 \/ d = 4 \/ d = 5 \/ d = 6 \/ d = 7 \/ d = 8 \/ d = 9)%N
    as Hcases by lia.
  repeat (destruct Hcases as [-> | Hcases];
          [split; [reflexivity|]; split; [|exact Hnat]; intros fuel;
           cbn [read_value skip_ws is_ws pretty_N_char N_of_ascii N_of_digits];
           simpl; simpl in Hnat; rewrite Hnat; reflexivity|]).
  subst d. split; [reflexivity|]. split; [|exact Hnat]. intros fuel.
  simpl; simpl in Hnat; rewrite Hnat; reflexivity.
Qed.

Lemma value_head_digit d : value_head (pretty_N_char d) = true.
Proof. unfold pretty_N_char. repeat case_match; reflexivity. Qed.

Lemma print_head n v k : exists c r, print n v k = String c r /\ value_head c = true.
Proof.
  destruct v as [|[]|[|p|p]|s|l|m]; simpl; try (eexists _, _; split; reflexivity).
  - unfold pretty, pretty_Z, pretty, pretty_positive, pretty, pretty_N. simpl.
    rewrite pretty_N_go_app.
    destruct (pretty_N_go_head (N.pos p) ("" ++ k)) as (d & r & _ & ->); [lia|].
    eexists _, _. split; [reflexivity | apply value_head_digit].
  - destruct l; eexists _, _; split; reflexivity.
  - destruct (decide (m = ∅)); eexists _, _; split; reflexivity.
Qed.

Lemma skip_ws_head c r : value_head c = true -> skip_ws (String c r) = String c r.
Proof.
  unfold value_head. intros H. simpl. destruct (is_ws c); [discriminate | reflexivity].
Qed.

Lemma items_false n k x l : items n k (x :: l) false = String "," (items n k (x :: l) true).
Proof. reflexivity. Qed.

Lemma items_delimited n k l : delimited (items n k l false) = true.
Proof. destruct l; reflexivity. Qed.

Lemma members_delimited n k l : delimited (members n k l false) = true.
Proof. destruct l; reflexivity. Qed.

Lemma read_elements_items n k l :
  Forall reads_back l -> l <> [] ->
  forall acc fuel,
    (foldr (fun x n => S (jfuel x + n)) 0 l <= fuel)%nat -> delimited k = true ->
    read_elements fuel (items n k l true) acc = Some (JArr (rev acc ++ l), k).
Proof.
  induction 1 as [|x l Hx Hl IH]; [congruence|]. intros _ acc fuel Hfuel Hk.
  simpl in Hfuel. destruct fuel as [|fuel]; [lia|].
  change (items n k (x :: l) true)
    with (newline (n + 2) (print (n + 2) x (items n k l false))).
  cbn [read_elements].
  rewrite (read_value_skip fuel _ (print (n + 2) x (items n k l false)))
    by apply skip_ws_newline.
  rewrite (Hx (n + 2)%nat (items n k l false) fuel) by (lia || apply items_delimited).
  destruct l as [|y l'].
  - simpl. rewrite skip_ws_indent. simpl. reflexivity.
  - rewrite items_false.
    change (skip_ws (String "," (items n k (y :: l') true)))
      with (String "," (items n k (y :: l') true)).
    cbv beta iota.
    rewrite IH by (congruence || simpl in *; lia || exact Hk).
    simpl. rewrite <- app_assoc. reflexivity.
Qed.

Lemma members_false n k kv l :
  members n k (kv :: l) false = String "," (members n k (kv :: l) true).
Proof. reflexivity. Qed.

Lemma read_members_members n k l :
  Forall (fun kv => reads_back kv.2) l -> l <> [] ->
  forall acc fuel,
    (foldr (fun kv n => S (jfuel kv.2 + n)) 0 l <= fuel)%nat -> delimited k = true ->
    read_members fuel (members n k l true) acc = Some (JObj (list_to_map (rev l ++ acc)), k).
Proof.
  induction 1 as [|[key x] l Hx Hl IH]; [congruence|]. intros _ acc fuel Hfuel Hk.
  simpl in Hfuel, Hx. destruct fuel as [|fuel]; [lia|].
  change (members n k ((key, x) :: l) true)
    with (newline (n + 2)
            (quote key (String ":" (String " " (print (n + 2) x (members n k l false)))))).
  cbn [read_members]. rewrite skip_ws_newline.
  change (skip_ws (quote key ?s)) with (quote key s). unfold quote at 1.
  rewrite read_string_escape.
  change (skip_ws (String ":" ?s)) with (String ":" s). cbv beta iota.
  rewrite (read_value_skip fuel _ (print (n + 2) x (members n k l false))) by reflexivity.
  rewrite (Hx (n + 2)%nat (members n k l false) fuel) by (lia || apply members_delimited).
  destruct l as [|kv l'].
  - simpl. rewrite skip_ws_indent. simpl. reflexivity.
  - rewrite members_false.
    change (skip_ws (String "," (members n k (kv :: l') true)))
      with (String "," (members n k (kv :: l') true)).
    cbv beta iota.
    rewrite IH by (congruence || simpl in *; lia || exact Hk).
    simpl. rewrite <- !app_assoc. reflexivity.
Qed.

Lemma print_JObj n m k :
  m <> ∅ -> print n (JObj m) k = String "{" (members n k (map_to_list m) true).
Proof.
  intros Hm. cbn [print]. destruct (decide (m = ∅)); [contradiction|].
  rewrite map_fold_foldr. f_equal.
  enough (forall (l : list (string * json)) first,
    foldr (uncurry (fun key x next =>
                      print_item (n + 2)
                        (fun k' => quote key (String ":" (String " " (print (n + 2) x k'))))
                        next))
      (fun _ => newline n (String "}" k)) l first = members n k l first) as H by apply H.
  induction l as [|[key x] l IH]; intros first; [reflexivity|].
  simpl. unfold print_item. rewrite IH. reflexivity.
Qed.

Lemma reads_back_all v : reads_back v.
Proof.
  induction v as [|b|z|s|l IH|m IH] using json_induction; intros n k fuel Hfuel Hk;
    (destruct fuel as [|fuel]; [simpl in Hfuel; lia|]).
  - reflexivity.
  - destruct b; reflexivity.
  - destruct z as [|p|p].
    + simpl. destruct k as [|c k]; [reflexivity|].
      simpl in Hk. apply orb_true_iff in Hk as [Hk|Hk]; apply Ascii.eqb_eq in Hk; subst c;
        reflexivity.
    + change (print n (JNum (Z.pos p)) k) with (pretty_N_go (N.pos p) "" ++ k).
      rewrite pretty_N_go_app. change ("" ++ k) with k.
      destruct (read_natural_pretty (N.pos p) k) as (c & r & -> & _ & Hread & _);
        [lia | exact Hk |]. apply Hread.
    + change (print n (JNum (Z.neg p)) k) with (String "-" (pretty_N_go (N.pos p) "" ++ k)).
      rewrite pretty_N_go_app. change ("" ++ k) with k.
      destruct (read_natural_pretty (N.pos p) k) as (c & r & -> & _ & _ & Hread);
        [lia | exact Hk |].
      cbn [read_value]. change (skip_ws (String "-" ?s)) with (String "-" s). cbv beta iota.
      rewrite Hread. reflexivity.
  - cbn [print read_value]. unfold quote.
    change (skip_ws (String "034" ?s)) with (String "034" s). cbv beta iota.
    rewrite read_string_escape. reflexivity.
  - destruct l as [|x l]; [reflexivity|].
    change (print n (JArr (x :: l)) k) with (String "[" (items n k (x :: l) true)).
    cbn [read_value]. change (skip_ws (String "[" ?s)) with (String "[" s). cbv beta iota.
    change (items n k (x :: l) true)
      with (newline (n + 2) (print (n + 2) x (items n k l false))) at 1.
    rewrite skip_ws_newline.
    destruct (print_head (n + 2) x (items n k l false)) as (c & r & -> & Hc).
    rewrite (skip_ws_head c r Hc).
    unfold value_head in Hc. destruct (Ascii.eqb c "]"); [by destruct (is_ws c)|].
    rewrite read_elements_items by (auto || congruence || simpl in *; lia).
    reflexivity.
  - destruct (decide (m = ∅)) as [-> | Hm]; [reflexivity|].
    rewrite (print_JObj n m k Hm). rewrite jfuel_JObj in Hfuel.
    assert (Hne : map_to_list m <> []).
    { intros Hnil. apply Hm. by apply map_to_list_empty_iff. }
    cbn [read_value]. change (skip_ws (String "{" ?s)) with (String "{" s). cbv beta iota.
    destruct (map_to_list m) as [|[key x] l] eqn:Hl; [congruence|].
    change (members n k ((key, x) :: l) true)
      with (newline (n + 2)
              (quote key (String ":" (String " " (print (n + 2) x (members n k l false))))))
      at 1.
    rewrite skip_ws_newline.
    change (skip_ws (quote key ?s)) with (quote key s). unfold quote at 1. cbv beta iota.
    change (Ascii.eqb "034" "}") with false. cbv iota.
    rewrite read_members_members by (auto || simpl in *; lia).
    rewrite app_nil_r, <- Hl.
    assert (Hmap : (list_to_map (rev (map_to_list m)) : gmap string json) = m).
    { rewrite <- (list_to_map_to_list m) at 2. apply list_to_map_proper.
      - rewrite <- (Permutation_rev (map_to_list m)). apply NoDup_fst_map_to_list.
      - symmetry. apply Permutation_rev. }
    rewrite Hmap. reflexivity.
Qed.

Lemma length_append s k : String.length (s ++ k) = (String.length s + String.length k)%nat.
Proof. induction s as [|c s IH]; simpl; [reflexivity | by rewrite IH]. Qed.

Lemma length_indent n k : String.length (indent n k) = (n + String.length k)%nat.
Proof. induction n as [|n IH]; simpl; [reflexivity | by rewrite IH]. Qed.

Lemma length_escape s k : (String.length k <= String.length (escape s k))%nat.
Proof.
  induction s as [|c s IH]; simpl; [lia|].
  unfold escape_char. repeat case_match; simpl; lia.
Qed.

Lemma length_print_item n item next first len :
  (len <= String.length (item (next false)))%nat ->
  (S len <= String.length (print_item n item next first))%nat.
Proof.
  intros H. unfold print_item, newline. destruct first; simpl; rewrite length_indent; lia.
Qed.

Lemma long_enough_all v : long_enough v.
Proof.
  induction v as [|b|z|s|l IH|m IH] using json_induction; intros n k.
  - cbn [print]. rewrite length_append. simpl. lia.
  - destruct b; cbn [print]; rewrite length_append; simpl; lia.
  - destruct (print_head n (JNum z) "") as (c & r & Hp & _).
    change (print n (JNum z) "") with (pretty z ++ "") in Hp.
    change (print n (JNum z) k) with (pretty z ++ k). rewrite length_append.
    destruct (pretty z) as [|c' s']; [discriminate Hp | simpl; lia].
  - simpl. pose proof (length_escape s (String "034" k)). simpl in *. lia.
  - assert (Hitems : forall first,
      (foldr (fun x n => S (jfuel x + n)) 0 l + String.length k
       <= String.length (items n k l first))%nat).
    { induction IH as [|x l Hx _ IHl]; intros first.
      - simpl. unfold newline. simpl. rewrite length_indent. simpl. lia.
      - simpl. apply length_print_item.
        etrans; [|apply Hx]. specialize (IHl false). fold (items n k l) in *. lia. }
    destruct l as [|x l]; [simpl; lia|].
    change (print n (JArr (x :: l)) k) with (String "[" (items n k (x :: l) true)).
    apply le_n_S, (Hitems true).
  - destruct (decide (m = ∅)) as [-> | Hm].
    { rewrite jfuel_JObj, map_to_list_empty. cbn [print].
      destruct (decide (∅ = ∅)); [simpl; lia | congruence]. }
    rewrite (print_JObj n m k Hm), jfuel_JObj.
    assert (Hmembers : forall first,
      (foldr (fun kv n => S (jfuel kv.2 + n)) 0 (map_to_list m) + String.length k
       <= String.length (members n k (map_to_list m) first))%nat).
    { induction IH as [|[key x] l Hx _ IHl]; intros first.
      - simpl. unfold newline. simpl. rewrite length_indent. simpl. lia.
      - simpl. apply length_print_item. unfold quote. simpl.
        etrans; [|apply Nat.le_le_succ_r, length_escape]. simpl.
        specialize (Hx (n + 2)%nat (members n k l false)). simpl in Hx.
        specialize (IHl false). fold (members n k l) in *. lia. }
    apply le_n_S, (Hmembers true).
Qed.

Lemma Ref_parse_stringify v : JSON_parse (JSON_stringify v) = Some v.
Proof.
  unfold JSON_parse, JSON_stringify.
  rewrite (reads_back_all v 0%nat "" (S (String.length (print 0 v "")))).
  - reflexivity.
  - pose proof (long_enough_all v 0%nat ""). lia.
  - reflexivity.
Qed.

Lemma trim_start_rev_app r acc : trim_start (String.rev_app r acc) = "" -> trim_start acc = "".
Proof.
  revert acc. induction r as [|c r IH]; intros acc H; [exact H|].
  simpl in H. apply IH in H. simpl in H. destruct (is_space c); [exact H | discriminate].
Qed.

Lemma rev_app_empty r acc : String.rev_app r acc = "" -> r = "" /\ acc = "".
Proof.
  revert acc. induction r as [|c r IH]; intros acc H; [auto|].
  simpl in H. apply IH in H as [_ H]. discriminate.
Qed.

Lemma trim_empty s : trim s = "" -> trim_start s = "".
Proof.
  unfold trim, String.rev. intros H.
  apply rev_app_empty in H as [H _].
  destruct (trim_start s) as [|c r] eqn:Hs; [reflexivity|].
  simpl in H. apply trim_start_rev_app in H. simpl in H.
  assert (Hc : is_space c = false).
  { clear H. induction s as [|d s IH]; [discriminate|]. simpl in Hs.
    destruct (is_space d) eqn:Hd; [auto|]. injection Hs as -> _. exact Hd. }
  rewrite Hc in H. discriminate.
Qed.

Lemma blank_not_value fuel s : trim_start s = "" -> read_value fuel s = None.
Proof.
  intros H. destruct fuel as [|fuel]; [reflexivity|].
  induction s as [|c s IH]; [reflexivity|].
  simpl in H. destruct (is_space c) eqn:Hc; [|discriminate].
  specialize (IH H).
  destruct c as [[] [] [] [] [] [] [] []]; try discriminate Hc; try exact IH; reflexivity.
Qed.

Lemma Ref_parse_blank s : trim s = "" -> JSON_parse s = None.
Proof.
  intros H. unfold JSON_parse. rewrite blank_not_value by apply trim_empty, H. reflexivity.
Qed.

Lemma Ref_json_laws : json_laws the_platform.
Proof. split; [exact Ref_parse_stringify | exact Ref_parse_blank]. Qed.

Lemma all_digits_print_phone n : all_digits (print_phone n).
Proof.
  unfold all_digits. induction n as [|d ds IH]; [constructor|].
  cbn [print_phone list_ascii_of_string]. constructor; [|exact IH].
  assert (d mod 10 < 10)%N as Hd by (apply N.mod_lt; lia).
  destruct (d mod 10)%N as [|p]; [vm_compute; lia|].
  do 4 (destruct p as [p|p|]; try lia; try (vm_compute; lia)).
Qed.

Lemma Ref_phone_laws : phone_laws the_platform.
Proof.
  split. intros n. simpl in n. exists ("55" ++ print_phone n). split; [reflexivity|].
  unfold all_digits. cbn [String.append list_ascii_of_string].
  constructor; [vm_compute; lia|]. constructor; [vm_compute; lia|].
  apply all_digits_print_phone.
Qed.
End ReadingFacts.

(** * The claims *)

(** C1, where the code departs from the claim: a request that carries a
    [credenciais] file and a [senha] different from the stored
    [senhaAdmin] is answered 403, and yet the credentials file holds the
    uploaded content afterwards.  multer has already written the file
    under its canonical name when the callback compares the passwords. *)
Theorem api_upload_stores_before_password_check (pf : platform) (fs : filesystem)
    (senha senhaAdmin : value) (content : string) (settings : json) :
  fst (getSettings pf (<[CREDENTIALS_PATH pf := content]> fs)) = Ok settings ->
  JS.get_prop (Some settings) "senhaAdmin" = Ok senhaAdmin ->
  JS.strict_eq senha senhaAdmin = false ->
  exists fs',
    api_upload pf {| req_senha := senha; req_files := [("credenciais", content)] |} fs =
      (Ok {| status := 403;
             body := JObj {[ "success" := JBool false; "message" := JStr "Senha incorreta!" ]} |},
       fs') /\
    fs' !! CREDENTIALS_PATH pf = Some content.
Proof.
  intros Hget Hadmin Hneq.
  destruct (getSettings pf (<[CREDENTIALS_PATH pf := content]> fs)) as [r fs2] eqn:Hrun.
  simpl in Hget. subst r. exists fs2. split.
  - rewrite (api_upload_after pf _ fs _ fs2 settings senhaAdmin
               (uploadFields_credenciais pf fs senha content) Hrun Hadmin).
    simpl. rewrite Hneq. reflexivity.
  - replace fs2 with (snd (getSettings pf (<[CREDENTIALS_PATH pf := content]> fs)))
      by (rewrite Hrun; reflexivity).
    rewrite getSettings_frame by apply CREDENTIALS_not_SETTINGS.
    apply lookup_insert_eq.
Qed.

(** The failing input of C1 on the reference platform: the password is
    [admin], the request says [errada], and [antigo] becomes [novo]. *)
Lemma api_upload_stores_before_password_check_witness :
  exists fs',
    api_upload Ref.the_platform
      {| req_senha := Some (JStr "errada"); req_files := [("credenciais", "novo")] |}
      {[ CREDENTIALS_PATH Ref.the_platform := "antigo" ]} =
      (Ok {| status := 403;
             body := JObj {[ "success" := JBool false; "message" := JStr "Senha incorreta!" ]} |},
       fs') /\
    fs' !! CREDENTIALS_PATH Ref.the_platform = Some "novo".
Proof.
  apply (api_upload_stores_before_password_check Ref.the_platform
           {[ CREDENTIALS_PATH Ref.the_platform := "antigo" ]}
           (Some (JStr "errada")) (Some (JStr "admin")) "novo"
           defaultSettings).
  - vm_compute. reflexivity.
  - vm_compute. reflexivity.
  - reflexivity.
Defined.

(** C2 as stated fails: a settings file that parses is returned as it
    is and left as it is, so the file [{}] is read successfully and
    still has none of the three keys. *)
Lemma getSettings_keeps_incomplete_file :
  fst (getSettings Ref.the_platform {[ SETTINGS_PATH Ref.the_platform := "{}" ]}) = Ok (JObj ∅) /\
  snd (getSettings Ref.the_platform {[ SETTINGS_PATH Ref.the_platform := "{}" ]})
    = {[ SETTINGS_PATH Ref.the_platform := "{}" ]} /\
  settings_file_complete Ref.the_platform
    (snd (getSettings Ref.the_platform {[ SETTINGS_PATH Ref.the_platform := "{}" ]})) = false.
Proof. repeat split; vm_compute; reflexivity. Qed.

(** C2, amended: after [getSettings] a settings file that was missing,
    blank or unparsable holds the default object, which is also what is
    returned, and so contains the three recognised keys; a settings file
    that parses is returned as parsed and left unchanged, so it contains
    the three keys only if it already did. *)
Theorem getSettings_file_after (pf : platform) (fs : filesystem) :
  json_laws pf ->
  (settings_unreadable pf fs ->
   exists text,
     getSettings pf fs = (Ok defaultSettings, <[SETTINGS_PATH pf := text]> fs) /\
     JSON_parse pf text = Some defaultSettings /\
     settings_file_complete pf (snd (getSettings pf fs)) = true) /\
  (~ settings_unreadable pf fs ->
   exists text v,
     fs !! SETTINGS_PATH pf = Some text /\ JSON_parse pf text = Some v /\
     getSettings pf fs = (Ok v, fs) /\
     settings_file_complete pf (snd (getSettings pf fs)) = settings_file_complete pf fs).
Proof.
  intros L. split.
  - intros H. exists (JSON_stringify pf defaultSettings).
    rewrite (getSettings_unreadable pf fs H). unfold healed.
    split; [reflexivity|]. split; [apply (parse_stringify pf L)|].
    apply default_file_complete, L.
  - intros H. destruct (getSettings_readable pf fs H) as (text & v & Hf & Hp & Hget).
    exists text, v. rewrite Hget. auto.
Qed.

Lemma getSettings_file_after_witness :
  json_laws Ref.the_platform /\
  exists text,
    getSettings Ref.the_platform ∅ =
      (Ok defaultSettings, <[SETTINGS_PATH Ref.the_platform := text]> ∅) /\
    JSON_parse Ref.the_platform text = Some defaultSettings /\
    settings_file_complete Ref.the_platform (snd (getSettings Ref.the_platform ∅)) = true.
Proof.
  split; [exact Ref_json_laws|].
  apply (proj1 (getSettings_file_after Ref.the_platform ∅ Ref_json_laws)).
  left. reflexivity.
Defined.

(** C3: when the settings file is missing, blank or not JSON,
    [getSettings] returns exactly the default object, writes the text of
    that object to the settings file, and ends normally: the parse error
    does not reach the caller. *)
Theorem getSettings_self_heals (pf : platform) (fs : filesystem) :
  settings_unreadable pf fs ->
  getSettings pf fs =
    (Ok (JObj {[ "diasEscopo" := JNum 1; "senhaAdmin" := JStr "admin";
                 "ocultarIgnorados" := JBool true ]}),
     <[SETTINGS_PATH pf :=
         JSON_stringify pf (JObj {[ "diasEscopo" := JNum 1; "senhaAdmin" := JStr "admin";
                                    "ocultarIgnorados" := JBool true ]})]> fs).
Proof.
  intros [Hmiss | (text & Hfile & [Hblank | Hbad])].
  - exact (getSettings_missing pf fs Hmiss).
  - exact (getSettings_blank pf fs text Hfile Hblank).
  - exact (getSettings_unparsable pf fs text Hfile Hbad).
Qed.

Lemma getSettings_self_heals_witness :
  settings_unreadable Ref.the_platform {[ SETTINGS_PATH Ref.the_platform := "{ diasEscopo" ]} /\
  fst (getSettings Ref.the_platform {[ SETTINGS_PATH Ref.the_platform := "{ diasEscopo" ]})
    = Ok (JObj {[ "diasEscopo" := JNum 1; "senhaAdmin" := JStr "admin";
                  "ocultarIgnorados" := JBool true ]}).
Proof.
  assert (H : settings_unreadable Ref.the_platform
                {[ SETTINGS_PATH Ref.the_platform := "{ diasEscopo" ]}).
  { right. exists "{ diasEscopo". split; [reflexivity|]. right. reflexivity. }
  split; [exact H|].
  rewrite (getSettings_self_heals Ref.the_platform _ H). reflexivity.
Defined.

(** C4 as stated fails: no path of [getOAuthClient] raises
    CREDENTIALS_INVALID.  A credentials file [{}], which has neither key,
    makes it fail with the [TypeError] of reading [client_id] of
    [undefined], and a file that is not JSON with the [SyntaxError] of
    [JSON.parse], under the parser's message. *)
Lemma getOAuthClient_no_CREDENTIALS_INVALID :
  Ref.JSON_parse "{}" = Some (JObj ∅) /\
  fst (getOAuthClient Ref.the_platform {[ CREDENTIALS_PATH Ref.the_platform := "{}" ]})
    = Throw (TypeError "Cannot read properties of undefined (reading 'client_id')") /\
  Ref.JSON_parse "{ web" = None /\
  fst (getOAuthClient Ref.the_platform {[ CREDENTIALS_PATH Ref.the_platform := "{ web" ]})
    = Throw (SyntaxError (JSON_parse_error Ref.the_platform "{ web")).
Proof. repeat split; reflexivity. Qed.

(** C4, amended: [getOAuthClient] fails with the error
    CREDENTIALS_MISSING when the credentials file is absent; when the
    file is not JSON it fails with the [SyntaxError] of [JSON.parse];
    when it parses but has neither a [web] nor an [installed] key it
    fails with the [TypeError] of reading [client_id] of [undefined] (of
    reading [web] of [null] when the file holds [null]).  For every file
    that parses, what decides is [keys.web || keys.installed]: without
    it the [TypeError], with it a client of its [client_id] and
    [client_secret], bound to the fixed callback address.  These are
    all its failures: it never raises CREDENTIALS_INVALID. *)
Theorem getOAuthClient_failures (pf : platform) (fs : filesystem) :
  (fs !! CREDENTIALS_PATH pf = None ->
   getOAuthClient pf fs = (Throw (Error "CREDENTIALS_MISSING"), fs)) /\
  (forall text,
     fs !! CREDENTIALS_PATH pf = Some text -> JSON_parse pf text = None ->
     getOAuthClient pf fs = (Throw (SyntaxError (JSON_parse_error pf text)), fs)) /\
  (forall text keys,
     fs !! CREDENTIALS_PATH pf = Some text -> JSON_parse pf text = Some keys ->
     has_key keys "web" = false -> has_key keys "installed" = false ->
     getOAuthClient pf fs =
       (Throw (TypeError
                 match keys with
                 | JNull => "Cannot read properties of null (reading 'web')"
                 | _ => "Cannot read properties of undefined (reading 'client_id')"
                 end), fs)) /\
  (forall text keys web installed,
     fs !! CREDENTIALS_PATH pf = Some text -> JSON_parse pf text = Some keys ->
     JS.get_prop (Some keys) "web" = Ok web ->
     JS.get_prop (Some keys) "installed" = Ok installed ->
     match JS.or_else web installed with
     | None =>
         getOAuthClient pf fs =
           (Throw (TypeError "Cannot read properties of undefined (reading 'client_id')"), fs)
     | Some JNull =>
         getOAuthClient pf fs =
           (Throw (TypeError "Cannot read properties of null (reading 'client_id')"), fs)
     | Some key =>
         exists client,
           getOAuthClient pf fs = (Ok client, fs) /\
           JS.get_prop (Some key) "client_id" = Ok (client_id client) /\
           JS.get_prop (Some key) "client_secret" = Ok (client_secret client) /\
           redirect_uri client =
             Some (JStr "https://consultoriobw.com.br/agenda/oauth2callback")
     end) /\
  (forall e,
     fst (getOAuthClient pf fs) = Throw e ->
     (fs !! CREDENTIALS_PATH pf = None /\ e = Error "CREDENTIALS_MISSING") \/
     (exists text, fs !! CREDENTIALS_PATH pf = Some text /\ JSON_parse pf text = None /\
                   e = SyntaxError (JSON_parse_error pf text)) \/
     (exists msg, e = TypeError msg)) /\
  fst (getOAuthClient pf fs) <> Throw (Error "CREDENTIALS_INVALID") /\
  (forall client,
     fst (getOAuthClient pf fs) = Ok client ->
     redirect_uri client = Some (JStr "https://consultoriobw.com.br/agenda/oauth2callback")).
Proof.
  assert (Hall : forall e,
     fst (getOAuthClient pf fs) = Throw e ->
     (fs !! CREDENTIALS_PATH pf = None /\ e = Error "CREDENTIALS_MISSING") \/
     (exists text, fs !! CREDENTIALS_PATH pf = Some text /\ JSON_parse pf text = None /\
                   e = SyntaxError (JSON_parse_error pf text)) \/
     (exists msg, e = TypeError msg)).
  { intros e. destruct (fs !! CREDENTIALS_PATH pf) as [text|] eqn:H.
    - destruct (JSON_parse pf text) as [keys|] eqn:Hp.
      + rewrite (getOAuthClient_parsed pf fs text keys H Hp). cbn [fst].
        assert (Hprop : forall v k e0, JS.get_prop v k = Throw e0 -> exists msg, e0 = TypeError msg).
        { intros [[| | | | |m]|] k e0; simpl; intros [= <-]; eauto. }
        destruct (JS.get_prop (Some keys) "web") as [web|e0] eqn:Hw;
          [|intros Heq; injection Heq as Heq; subst e; right; right; eapply Hprop, Hw].
        destruct (if JS.truthy web then Ok web else JS.get_prop (Some keys) "installed")
          as [key|e0] eqn:Hk.
        * destruct (JS.get_prop key "client_id") as [id|e0] eqn:Hid;
            [|intros Heq; injection Heq as Heq; subst e; right; right; eapply Hprop, Hid].
          destruct (JS.get_prop key "client_secret") as [secret|e0] eqn:Hs;
            [discriminate|intros Heq; injection Heq as Heq; subst e; right; right; eapply Hprop, Hs].
        * intros Heq. injection Heq as Heq. subst e. right. right. destruct (JS.truthy web); [discriminate|].
          eapply Hprop, Hk.
      + rewrite (getOAuthClient_unparsable pf fs text H Hp). intros Heq. injection Heq as Heq. subst e.
        right. left. eauto.
    - rewrite (getOAuthClient_missing pf fs H). intros Heq. injection Heq as Heq. subst e. left. auto. }
  split; [|split; [|split; [|split; [|split; [|split]]]]].
  - apply getOAuthClient_missing.
  - apply getOAuthClient_unparsable.
  - intros text keys H Hp Hw Hi. rewrite (getOAuthClient_parsed pf fs text keys H Hp).
    destruct keys as [| | | | |m]; try reflexivity.
    simpl in Hw, Hi.
    apply bool_decide_eq_false_1 in Hw. apply bool_decide_eq_false_1 in Hi.
    destruct (m !! "web") eqn:Ew; [exfalso; eauto|].
    destruct (m !! "installed") eqn:Ei; [exfalso; eauto|].
    simpl. rewrite Ew. simpl. rewrite Ei. reflexivity.
  - intros text keys web installed H Hp Hw Hi.
    rewrite (getOAuthClient_parsed pf fs text keys H Hp), Hw. unfold JS.or_else.
    destruct (JS.truthy web) eqn:Ht.
    + destruct web as [[| b | n | s | l | m]|]; try discriminate;
        (eexists; split; [reflexivity|]; auto).
    + rewrite Hi. destruct installed as [[| b | n | s | l | m]|]; try reflexivity;
        (eexists; split; [reflexivity|]; auto).
  - exact Hall.
  - intros H. destruct (Hall _ H) as [[_ He] | [(text & _ & _ & He) | (msg & He)]];
      discriminate.
  - intros client H. destruct (getOAuthClient_built pf fs client H) as (Huri & _).
    exact Huri.
Qed.

(** C5 as stated fails: a readable token file is not enough.  With the
    token file [{}] and no credentials file, [carregarAuth] fails with
    AUTH_REQUIRED. *)
Lemma carregarAuth_needs_credentials :
  Ref.JSON_parse "{}" = Some (JObj ∅) /\
  carregarAuth Ref.the_platform {[ TOKEN_PATH Ref.the_platform := "{}" ]} =
    (Throw (Error "AUTH_REQUIRED"), {[ TOKEN_PATH Ref.the_platform := "{}" ]}).
Proof. split; vm_compute; reflexivity. Qed.

(** C5, amended: [carregarAuth] fails with AUTH_REQUIRED when no token
    file exists, and returns a client with the stored token attached when
    a readable token file exists and [getOAuthClient] builds the client;
    GET /api/agenda without a token file answers 401 with
    [{error: "AUTH_REQUIRED"}]; the route never throws, after a 401 the
    token file is absent, and a failure whose message is not
    AUTH_REQUIRED and does not contain [invalid_grant] is answered 500
    with an error body. *)
Theorem carregarAuth_and_api_agenda (pf : platform) (agora : Z) (fs : filesystem) :
  (fs !! TOKEN_PATH pf = None ->
   carregarAuth pf fs = (Throw (Error "AUTH_REQUIRED"), fs) /\
   api_agenda pf agora fs =
     (Ok {| status := 401; body := JObj {[ "error" := JStr "AUTH_REQUIRED" ]} |}, fs)) /\
  (forall text token client,
     fs !! TOKEN_PATH pf = Some text -> JSON_parse pf text = Some token ->
     fst (getOAuthClient pf fs) = Ok client ->
     carregarAuth pf fs = (Ok (setCredentials client token), fs) /\
     credentials (setCredentials client token) = Some token) /\
  (exists r fs', api_agenda pf agora fs = (Ok r, fs') /\
     (status r = 401%Z ->
      body r = JObj {[ "error" := JStr "AUTH_REQUIRED" ]} /\ fs' !! TOKEN_PATH pf = None)) /\
  (forall e fs',
     bind (carregarAuth pf) (listarEventos pf agora) fs = (Throw e, fs') ->
     message e <> "AUTH_REQUIRED" -> JS.includes "invalid_grant" (message e) = false ->
     api_agenda pf agora fs =
       (Ok {| status := 500;
              body := JObj {[ "error" := JStr ("Erro ao buscar agenda: " ++ message e) ]} |},
        fs')).
Proof.
  split; [|split; [|split]].
  - intros H. split.
    + apply carregarAuth_no_token, H.
    + apply api_agenda_no_token, H.
  - intros text token client Htok Hparse Hclient. split; [|reflexivity].
    rewrite (carregarAuth_token pf fs text Htok), Hclient, Hparse. reflexivity.
  - destruct (bind (carregarAuth pf) (listarEventos pf agora) fs) as [[eventos|e] fs'] eqn:Hrun.
    + exists (res_json (JArr eventos)), fs'. split.
      * apply api_agenda_ok, Hrun.
      * simpl. discriminate.
    + rewrite (api_agenda_throw pf agora fs fs' e Hrun).
      destruct (_ || _).
      * eexists _, _. split; [reflexivity|]. intros _. split; [reflexivity|].
        apply lookup_delete_eq.
      * eexists _, _. split; [reflexivity|]. simpl. discriminate.
  - intros e fs' Hrun Hne Hinc.
    rewrite (api_agenda_throw pf agora fs fs' e Hrun), Hinc.
    destruct (String.eqb_spec (message e) "AUTH_REQUIRED"); [contradiction|]. reflexivity.
Qed.



(** C7: for a raw phone string, [prepararNumero] returns [null] when
    parsing it under the region BR throws and when the parsed number is
    not valid; otherwise it returns the E.164 form of the number without
    its leading plus sign, a string of digits only. *)
Theorem prepararNumero_spec (pf : platform) (numeroBruto : string) :
  phone_laws pf ->
  (parseAndKeepRawInput pf (Some (JStr numeroBruto)) "BR" = None ->
   prepararNumero pf (Some (JStr numeroBruto)) = JNull) /\
  (forall n, parseAndKeepRawInput pf (Some (JStr numeroBruto)) "BR" = Some n ->
             isValidNumber pf n = false ->
             prepararNumero pf (Some (JStr numeroBruto)) = JNull) /\
  (forall n, parseAndKeepRawInput pf (Some (JStr numeroBruto)) "BR" = Some n ->
             isValidNumber pf n = true ->
             exists digits, format_E164 pf n = String "+" digits /\ all_digits digits /\
                            prepararNumero pf (Some (JStr numeroBruto)) = JStr digits).
Proof.
  intros L. unfold prepararNumero. split; [|split].
  - intros ->. reflexivity.
  - intros n -> ->. reflexivity.
  - intros n -> ->. simpl.
    destruct (E164_shape pf L n) as (ds & Hfmt & Hds).
    exists ds. rewrite Hfmt. auto.
Qed.

(** A Brazilian mobile number becomes thirteen digits. *)
Lemma prepararNumero_spec_witness :
  phone_laws Ref.the_platform /\
  prepararNumero Ref.the_platform (Some (JStr "11999998888")) = JStr "5511999998888".
Proof.
  split; [exact Ref_phone_laws|].
  destruct (prepararNumero_spec Ref.the_platform "11999998888" Ref_phone_laws)
    as (_ & _ & Hvalid).
  destruct (Hvalid [1; 1; 9; 9; 9; 9; 9; 8; 8; 8; 8]%N eq_refl eq_refl)
    as (digits & Hformat & _ & ->).
  injection Hformat as <-. reflexivity.
Defined.

(** C8: when the normalisation of the phone of the request fails,
    POST /api/salvar answers 400 with [success: false] and the files are
    as they were: no patient record is created or changed. *)
Theorem api_salvar_invalid_phone (pf : platform) (fs : filesystem)
    (req_body : gmap string json) :
  prepararNumero pf (req_body !! "telefone") = JNull ->
  api_salvar pf (Some (JObj req_body)) fs =
    (Ok {| status := 400;
           body := JObj {[ "success" := JBool false; "message" := JStr "Número inválido" ]} |},
     fs).
Proof.
  intros H. unfold api_salvar, try_catch, bind, lift. simpl. rewrite H. reflexivity.
Qed.

(** [setPhone("Maria", "123")] on a store with one patient. *)
Lemma api_salvar_invalid_phone_witness :
  prepararNumero Ref.the_platform (Some (JStr "123")) = JNull /\
  api_salvar Ref.the_platform
    (Some (JObj {[ "nome" := JStr "Maria"; "telefone" := JStr "123" ]}))
    {[ DB_PATH Ref.the_platform := "{}" ]} =
    (Ok {| status := 400;
           body := JObj {[ "success" := JBool false; "message" := JStr "Número inválido" ]} |},
     {[ DB_PATH Ref.the_platform := "{}" ]}).
Proof.
  split; [reflexivity|].
  apply (api_salvar_invalid_phone Ref.the_platform {[ DB_PATH Ref.the_platform := "{}" ]}
           {[ "nome" := JStr "Maria"; "telefone" := JStr "123" ]}).
  reflexivity.
Defined.

(** C9 as stated fails for a window that leaves the range of [Date]:
    with [diasEscopo] at 200000000 the end of the window is an invalid
    date, [listarEventos] throws the [RangeError] of [toISOString] and
    the provider is asked nothing. *)
Lemma listarEventos_window_out_of_range :
  JS.get_prop
    (Some (JObj {[ "diasEscopo" := JNum 200000000; "senhaAdmin" := JStr "admin";
                   "ocultarIgnorados" := JBool true ]})) "diasEscopo" =
    Ok (Some (JNum 200000000)) /\
  listarEventos Ref.the_platform 1793613600000
    (OAuth2 undefined undefined undefined (Some (JObj {[ "access_token" := JStr "abc" ]})))
    {[ SETTINGS_PATH Ref.the_platform :=
         Ref.JSON_stringify
           (JObj {[ "diasEscopo" := JNum 200000000; "senhaAdmin" := JStr "admin";
                    "ocultarIgnorados" := JBool true ]}) ]} =
    (Throw (RangeError "Invalid time value"),
     {[ SETTINGS_PATH Ref.the_platform :=
          Ref.JSON_stringify
            (JObj {[ "diasEscopo" := JNum 200000000; "senhaAdmin" := JStr "admin";
                     "ocultarIgnorados" := JBool true ]}) ]}).
Proof. split; reflexivity. Qed.

(** C9, amended: with [diasEscopo] an integer [n >= 1] in the current
    settings and a window whose dates are in the range of [Date],
    [listarEventos] asks the provider for the primary calendar from the
    local midnight that starts tomorrow to 23:59:59.999 of the day
    [tomorrow + n - 1], and what it returns is the provider's answer with
    each event mapped; when the provider answers with events that have a
    [start], every returned event has the title of its raw event, or
    [Sem Título] when the raw event has none.  With a window that leaves
    the range, it throws the [RangeError] of [toISOString] and the
    provider is not asked. *)
Theorem listarEventos_window_and_titles (pf : platform) (agora n : Z) (auth : oauth_client)
    (fs : filesystem) (settings : json) :
  fst (getSettings pf fs) = Ok settings ->
  JS.get_prop (Some settings) "diasEscopo" = Ok (Some (JNum n)) ->
  (1 <= n)%Z ->
  let amanha := (Date.Day agora + 1)%Z in
  let consulta :=
    {| calendarId := "primary";
       timeMin := Date.MakeDate amanha 0;
       timeMax := Date.MakeDate (amanha + n - 1) (Date.MakeTime 23 59 59 999);
       singleEvents := true; orderBy := "startTime" |} in
  (window_in_range pf agora n = true ->
   listarEventos pf agora auth fs =
     (match events_list pf auth consulta with
      | Throw e => Throw e
      | Ok items =>
          match JS.or_else items (Some (JArr [])) with
          | Some (JArr l) => map_eventos pf l
          | _ => Throw (TypeError "eventosBrutos.map is not a function")
          end
      end, snd (getSettings pf fs)) /\
   (forall l, events_list pf auth consulta = Ok (Some (JArr l)) ->
              Forall (fun evento => has_start evento = true) l ->
              exists evs, fst (listarEventos pf agora auth fs) = Ok evs /\
                          Forall2 titulo_ok l evs)) /\
  (window_in_range pf agora n = false ->
   listarEventos pf agora auth fs =
     (Throw (RangeError "Invalid time value"), snd (getSettings pf fs))).
Proof.
  intros Hget Hdias Hn amanha consulta.
  destruct (getSettings pf fs) as [r fs1] eqn:Hrun. simpl in Hget. subst r.
  assert (Hne : n <> 0%Z) by lia.
  split.
  - intros Hrange.
    pose proof (listarEventos_run pf agora n auth fs fs1 settings Hrun Hdias Hne Hrange)
      as Hlist.
    fold amanha in Hlist. fold consulta in Hlist.
    split; [exact Hlist|].
    intros l Hitems Hstart. rewrite Hlist, Hitems. simpl.
    apply map_eventos_titulos, Hstart.
  - intros Hrange.
    rewrite (listarEventos_dias pf agora auth fs fs1 settings _ Hrun Hdias).
    unfold JS.or_else. simpl JS.truthy.
    destruct (Z.eqb_spec n 0); [contradiction|]. simpl. rewrite Hrange. reflexivity.
Qed.

(** On 2 November 2026 at 10:00 with [diasEscopo] at 2, the window is
    the 3rd and the 4th of November (days 20760 and 20761); a provider
    that answers by the window sends its events of those two days, one
    titled and one not, and keeps the one of the 6th. *)
Lemma listarEventos_window_and_titles_witness :
  let fs : filesystem :=
    {[ SETTINGS_PATH RefRoutes.com_janela :=
         Ref.JSON_stringify
           (JObj {[ "diasEscopo" := JNum 2; "senhaAdmin" := JStr "admin";
                    "ocultarIgnorados" := JBool true ]}) ]} in
  let auth := OAuth2 undefined undefined undefined
                (Some (JObj {[ "access_token" := JStr "abc" ]})) in
  (1 <= 2)%Z /\
  window_in_range RefRoutes.com_janela 1793613600000 2 = true /\
  fst (listarEventos RefRoutes.com_janela 1793613600000 auth fs)
  = Ok [ JObj {[ "titulo" := JStr "Maria"; "data" := JStr "03/11 às 14:30" ]};
         JObj {[ "titulo" := JStr "Sem Título"; "data" := JStr "04/11 às 00:00" ]} ] /\
  Date.MakeDate (Date.Day 1793613600000 + 1) 0 = (20760 * Date.msPerDay)%Z /\
  Date.MakeDate (Date.Day 1793613600000 + 1 + 2 - 1) (Date.MakeTime 23 59 59 999)
    = (20762 * Date.msPerDay - 1)%Z.
Proof.
  intros fs auth.
  assert (Hget : fst (getSettings RefRoutes.com_janela fs) =
                 Ok (JObj {[ "diasEscopo" := JNum 2; "senhaAdmin" := JStr "admin";
                             "ocultarIgnorados" := JBool true ]})) by reflexivity.
  assert (Hdias : JS.get_prop
                    (Some (JObj {[ "diasEscopo" := JNum 2; "senhaAdmin" := JStr "admin";
                                   "ocultarIgnorados" := JBool true ]})) "diasEscopo"
                  = Ok (Some (JNum 2))) by reflexivity.
  assert (Hn : (1 <= 2)%Z) by lia.
  assert (Hrange : window_in_range RefRoutes.com_janela 1793613600000 2 = true)
    by reflexivity.
  split; [exact Hn|]. split; [exact Hrange|]. split; [|split; reflexivity].
  rewrite (proj1 (proj1 (listarEventos_window_and_titles RefRoutes.com_janela
                           1793613600000 2 auth fs _ Hget Hdias Hn) Hrange)).
  reflexivity.
Defined.

(** C10: in the web flow, when a token file exists and the credentials
    file is missing or is not JSON, [carregarAuth] throws AUTH_REQUIRED
    (the failure of [getOAuthClient] is caught inside the [try]), so
    GET /api/agenda answers 401 with [{error: "AUTH_REQUIRED"}] and
    deletes the token file. *)
Theorem carregarAuth_hides_credentials_failure (pf : platform) (agora : Z) (fs : filesystem) :
  is_Some (fs !! TOKEN_PATH pf) ->
  (fs !! CREDENTIALS_PATH pf = None \/
   exists text, fs !! CREDENTIALS_PATH pf = Some text /\ JSON_parse pf text = None) ->
  carregarAuth pf fs = (Throw (Error "AUTH_REQUIRED"), fs) /\
  api_agenda pf agora fs =
    (Ok {| status := 401; body := JObj {[ "error" := JStr "AUTH_REQUIRED" ]} |},
     delete (TOKEN_PATH pf) fs) /\
  delete (TOKEN_PATH pf) fs !! TOKEN_PATH pf = None.
Proof.
  intros Htok Hcred.
  pose proof (carregarAuth_credentials_failure pf fs Htok Hcred) as Hauth.
  split; [exact Hauth|]. split; [|apply lookup_delete_eq].
  apply api_agenda_auth_required, Hauth.
Qed.

(** A token file and no credentials file: 401, and the token file is gone. *)
Lemma carregarAuth_hides_credentials_failure_witness :
  is_Some (({[ TOKEN_PATH Ref.the_platform := "{}" ]} : filesystem) !! TOKEN_PATH Ref.the_platform) /\
  api_agenda Ref.the_platform 1793613600000 {[ TOKEN_PATH Ref.the_platform := "{}" ]} =
    (Ok {| status := 401; body := JObj {[ "error" := JStr "AUTH_REQUIRED" ]} |}, ∅).
Proof.
  assert (Htok : is_Some (({[ TOKEN_PATH Ref.the_platform := "{}" ]} : filesystem)
                            !! TOKEN_PATH Ref.the_platform)).
  { exists "{}". reflexivity. }
  split; [exact Htok|].
  destruct (carregarAuth_hides_credentials_failure Ref.the_platform 1793613600000
              {[ TOKEN_PATH Ref.the_platform := "{}" ]} Htok (or_introl eq_refl))
    as (_ & -> & _).
  vm_compute. reflexivity.
Defined.

(** * The rest of the program *)

(** ** The patient store *)

Ltac map_lookup :=
  repeat first
    [ rewrite lookup_insert_eq | rewrite lookup_insert_ne by congruence
    | rewrite lookup_singleton_eq | rewrite lookup_singleton_ne by congruence
    | rewrite lookup_delete_eq | rewrite lookup_delete_ne by congruence
    | rewrite lookup_empty ].

Section PacientesFacts.
  Context (pf : platform).
  Variable exotic : json -> string -> json -> result json.
  Local Arguments JS.get_prop : simpl never.

(** The patient file as the three routes load it. *)
Lemma api_pacientes_loaded (fs : filesystem) m :
  api_pacientes pf fs = (Ok (res_json (JObj m)), fs) <->
  (fs !! DB_PATH pf = None /\ m = ∅) \/
  (exists text, fs !! DB_PATH pf = Some text /\ JSON_parse pf text = Some (JObj m)).
Proof.
  unfold api_pacientes, bind. destruct (fs !! DB_PATH pf) as [text|] eqn:H.
  - rewrite (existsSync_Some _ _ _ H). unfold Fs.readFileSync. rewrite H. unfold parse.
    destruct (JSON_parse pf text) as [v|] eqn:Hp; simpl.
    + split.
      * intros Heq. injection Heq as ->. right. eauto.
      * intros [[? _] | (t & Ht & Hv)]; [discriminate|].
        injection Ht as <-. rewrite Hp in Hv. injection Hv as ->. reflexivity.
    + split; [discriminate|]. intros [[? _] | (t & Ht & Hv)]; [discriminate|].
      injection Ht as <-. rewrite Hp in Hv. discriminate.
  - rewrite (existsSync_None _ _ H). simpl. split.
    + intros Heq. injection Heq as <-. left. auto.
    + intros [[_ ->] | (t & ? & _)]; [reflexivity | discriminate].
Qed.

Lemma api_pacientes_written (fs : filesystem) v :
  json_laws pf ->
  api_pacientes pf (<[DB_PATH pf := JSON_stringify pf v]> fs) =
    (Ok (res_json v), <[DB_PATH pf := JSON_stringify pf v]> fs).
Proof.
  intros L. unfold api_pacientes, bind.
  rewrite (existsSync_Some _ _ (JSON_stringify pf v)) by apply lookup_insert_eq.
  unfold Fs.readFileSync. rewrite lookup_insert_eq. unfold parse.
  rewrite (parse_stringify pf L). reflexivity.
Qed.

(** The route past the phone check, on a patient file with an object at
    its root. *)
Lemma api_salvar_run (fs : filesystem) (b : gmap string json) numero nome m :
  prepararNumero pf (b !! "telefone") = JStr numero -> numero <> "" ->
  JS.to_property_key (b !! "nome") = Ok nome ->
  api_pacientes pf fs = (Ok (res_json (JObj m)), fs) ->
  exists m',
    set_telefone pf (JObj m) (b !! "nome") (JStr numero) = Ok (JObj m') /\
    api_salvar pf (Some (JObj b)) fs =
      (Ok (res_json (JObj {[ "success" := JBool true ]})),
       <[DB_PATH pf := JSON_stringify pf (JObj m')]> fs).
Proof.
  intros Hnum Hne Hkey Hdb.
  assert (Hset : exists m', set_telefone pf (JObj m) (b !! "nome") (JStr numero) = Ok (JObj m')).
  { unfold set_telefone. rewrite Hkey.
    destruct (m !! nome) as [[| | | | |p]|]; eauto.
    destruct (String.eqb _ _); eauto. }
  destruct Hset as [m' Hset]. exists m'. split; [exact Hset|].
  unfold api_salvar, try_catch, bind. simpl JS.destructure. unfold lift at 1 2.
  rewrite Hnum.
  replace (negb (JS.truthy (Some (JStr numero)))) with false
    by (simpl; destruct (String.eqb_spec numero ""); [contradiction | reflexivity]).
  apply api_pacientes_loaded in Hdb. destruct Hdb as [[H ->] | (text & H & Hp)].
  - rewrite (existsSync_None _ _ H). unfold ret at 1, lift. rewrite Hset. reflexivity.
  - rewrite (existsSync_Some _ _ _ H). unfold Fs.readFileSync. rewrite H.
    unfold parse. rewrite Hp. unfold ret at 1, lift. rewrite Hset. reflexivity.
Qed.

Lemma api_marcar_informado_run (fs : filesystem) agora (b : gmap string json) nome m :
  JS.to_property_key (b !! "nome") = Ok nome ->
  api_pacientes pf fs = (Ok (res_json (JObj m)), fs) ->
  exists m',
    set_informadoEm pf exotic (JObj m) (b !! "nome")
      (if JS.truthy (b !! "informado") then JStr agora else JNull) = Ok (JObj m') /\
    api_marcar_informado pf exotic agora (Some (JObj b)) fs =
      (Ok (res_json (JObj {[ "success" := JBool true ]})),
       <[DB_PATH pf := JSON_stringify pf (JObj m')]> fs).
Proof.
  intros Hkey Hdb. set (x := if JS.truthy (b !! "informado") then JStr agora else JNull).
  assert (Hset : exists m', set_informadoEm pf exotic (JObj m) (b !! "nome") x = Ok (JObj m')).
  { unfold set_informadoEm. rewrite Hkey.
    destruct (m !! nome) as [[| | | | |p]|]; eauto.
    destruct (String.eqb _ _); eauto. }
  destruct Hset as [m' Hset]. exists m'. split; [exact Hset|].
  unfold api_marcar_informado, try_catch, bind. simpl JS.destructure. unfold lift at 1 2.
  fold x.
  apply api_pacientes_loaded in Hdb. destruct Hdb as [[H ->] | (text & H & Hp)].
  - rewrite (existsSync_None _ _ H). unfold ret at 1, lift. rewrite Hset. reflexivity.
  - rewrite (existsSync_Some _ _ _ H). unfold Fs.readFileSync. rewrite H.
    unfold parse. rewrite Hp. unfold ret at 1, lift. rewrite Hset. reflexivity.
Qed.


(** What [set_telefone] does to an object root: the other patients are
    kept, and the record of the patient holds the number beside the
    fields it had. *)
Lemma set_telefone_object (m m' : gmap string json) nome numero :
  set_telefone pf (JObj m) nome numero = Ok (JObj m') ->
  forall key, JS.to_property_key nome = Ok key ->
  (forall other, other <> key -> m' !! other = m !! other) /\
  (key <> "__proto__" -> (forall l, m !! key <> Some (JArr l)) ->
   exists paciente,
     m' !! key = Some (JObj paciente) /\ paciente !! "telefone" = Some numero /\
     forall k, k <> "telefone" ->
       paciente !! k = match m !! key with Some (JObj p) => p !! k | _ => None end).
Proof.
  unfold set_telefone. intros H key Hkey. rewrite Hkey in H.
  destruct (m !! key) as [[| | | | l |p]|] eqn:Hk;
    [ | | | | | | destruct (String.eqb_spec key "__proto__")];
    injection H as <-;
    (split; [intros other Ho; by map_lookup |]);
    intros Hproto Harr; try contradiction; try (exfalso; by eapply Harr);
    eexists; (split; [apply lookup_insert_eq|]);
    (split; [by map_lookup|]); intros k Hkk; by map_lookup.
Qed.

Lemma set_informadoEm_object (m m' : gmap string json) nome x :
  set_informadoEm pf exotic (JObj m) nome x = Ok (JObj m') ->
  forall key, JS.to_property_key nome = Ok key ->
  (forall other, other <> key -> m' !! other = m !! other) /\
  (key <> "__proto__" -> (forall l, m !! key <> Some (JArr l)) ->
   exists paciente,
     m' !! key = Some (JObj paciente) /\ paciente !! "informadoEm" = Some x /\
     forall k, k <> "informadoEm" ->
       paciente !! k = match m !! key with Some (JObj p) => p !! k | _ => None end).
Proof.
  unfold set_informadoEm. intros H key Hkey. rewrite Hkey in H.
  destruct (m !! key) as [[| | | | l |p]|] eqn:Hk;
    [ | | | | | | destruct (String.eqb_spec key "__proto__")];
    injection H as <-;
    (split; [intros other Ho; by map_lookup |]);
    intros Hproto Harr; try contradiction; try (exfalso; by eapply Harr);
    eexists; (split; [apply lookup_insert_eq|]);
    (split; [by map_lookup|]); intros k Hkk; by map_lookup.
Qed.

(** The two writes to a record leave the same patients with the same
    fields in either order. *)
Lemma set_telefone_set_informadoEm (m m1 m2 m12 m21 : gmap string json) n1 n2 k1 k2 x y :
  JS.to_property_key n1 = Ok k1 -> JS.to_property_key n2 = Ok k2 ->
  set_telefone pf (JObj m) n1 x = Ok (JObj m1) ->
  set_informadoEm pf exotic (JObj m1) n2 y = Ok (JObj m12) ->
  set_informadoEm pf exotic (JObj m) n2 y = Ok (JObj m2) ->
  set_telefone pf (JObj m2) n1 x = Ok (JObj m21) ->
  m12 = m21.
Proof.
  unfold set_telefone, set_informadoEm. intros -> ->.
  destruct (decide (k1 = k2)) as [<-|Hne].
  - destruct (m !! k1) as [[| | | | l |p]|] eqn:Hk;
      [ | | | | | | destruct (String.eqb_spec k1 "__proto__")];
      intros [= <-]; rewrite ?lookup_insert_eq, ?Hk;
      try (destruct (String.eqb_spec k1 "__proto__"); [contradiction|]);
      intros [= <-] [= <-]; rewrite ?lookup_insert_eq, ?Hk;
      try (destruct (String.eqb_spec k1 "__proto__"); [contradiction|]);
      intros [= <-]; rewrite ?insert_insert_eq; try reflexivity;
      f_equal; f_equal; rewrite <- ?insert_empty; by apply insert_insert_ne.
  - intros H1 H2 H3 H4.
    assert (E1 : m1 !! k2 = m !! k2).
    { destruct (m !! k1) as [[| | | | l |p]|];
        [ | | | | | | destruct (String.eqb k1 "__proto__")];
        injection H1 as <-; try reflexivity; by rewrite lookup_insert_ne. }
    assert (E2 : m2 !! k1 = m !! k1).
    { destruct (m !! k2) as [[| | | | l |p]|];
        [ | | | | | | destruct (String.eqb k2 "__proto__")];
        injection H3 as <-; try reflexivity; by rewrite lookup_insert_ne. }
    rewrite E1 in H2. rewrite E2 in H4.
    destruct (m !! k1) as [[| | | | l |p]|];
      [ | | | | | | destruct (String.eqb k1 "__proto__")];
      injection H1 as <-;
      (destruct (m !! k2) as [[| | | | l' |p']|];
        [ | | | | | | destruct (String.eqb k2 "__proto__")]);
      injection H3 as <-; injection H2 as <-; injection H4 as <-;
      try reflexivity; by apply insert_insert_ne.
Qed.

End PacientesFacts.

(** X1.  A number saved through [/api/salvar] under a name, a string,
    is what [/api/pacientes] shows afterwards: the record of the patient
    holds the normalised number beside the fields it had, the other
    patients and the other files are as before. *)
Theorem api_salvar_then_api_pacientes (pf : platform) (fs : filesystem)
    (b m : gmap string json) (nome numero : string) :
  json_laws pf ->
  api_pacientes pf fs = (Ok (res_json (JObj m)), fs) ->
  prepararNumero pf (b !! "telefone") = JStr numero -> numero <> "" ->
  b !! "nome" = Some (JStr nome) -> nome <> "__proto__" ->
  (forall l, m !! nome <> Some (JArr l)) ->
  exists fs' m' paciente,
    api_salvar pf (Some (JObj b)) fs =
      (Ok (res_json (JObj {[ "success" := JBool true ]})), fs') /\
    api_pacientes pf fs' = (Ok (res_json (JObj m')), fs') /\
    m' !! nome = Some (JObj paciente) /\
    paciente !! "telefone" = Some (JStr numero) /\
    (forall k, k <> "telefone" ->
       paciente !! k = match m !! nome with Some (JObj p) => p !! k | _ => None end) /\
    (forall other, other <> nome -> m' !! other = m !! other) /\
    (forall p, p <> DB_PATH pf -> fs' !! p = fs !! p).
Proof.
  intros L Hdb Hnum Hne Hstr Hproto Harr.
  assert (Hnome : JS.to_property_key (b !! "nome") = Ok nome) by (by rewrite Hstr).
  destruct (api_salvar_run pf fs b numero nome m Hnum Hne Hnome Hdb) as (m' & Hset & Hrun).
  destruct (set_telefone_object pf m m' _ _ Hset nome Hnome) as [Hothers Hrec].
  destruct (Hrec Hproto Harr) as (paciente & Hp & Htel & Hfields).
  exists (<[DB_PATH pf := JSON_stringify pf (JObj m')]> fs), m', paciente.
  split; [exact Hrun|]. split; [apply api_pacientes_written, L|].
  repeat split; try assumption.
  intros p Hpath. by rewrite lookup_insert_ne.
Qed.

Lemma api_salvar_then_api_pacientes_witness :
  exists fs' m' paciente,
    api_salvar Ref.the_platform
      (Some (JObj {[ "nome" := JStr "Ana"; "telefone" := JStr "11987654321" ]})) ∅ =
      (Ok (res_json (JObj {[ "success" := JBool true ]})), fs') /\
    api_pacientes Ref.the_platform fs' = (Ok (res_json (JObj m')), fs') /\
    m' !! "Ana" = Some (JObj paciente) /\
    paciente !! "telefone" = Some (JStr "5511987654321") /\
    (forall k, k <> "telefone" ->
       paciente !! k =
         match (∅ : gmap string json) !! "Ana" with Some (JObj p) => p !! k | _ => None end) /\
    (forall other, other <> "Ana" -> m' !! other = (∅ : gmap string json) !! other) /\
    (forall p, p <> DB_PATH Ref.the_platform -> fs' !! p = (∅ : filesystem) !! p).
Proof.
  apply (api_salvar_then_api_pacientes Ref.the_platform ∅
           {[ "nome" := JStr "Ana"; "telefone" := JStr "11987654321" ]} ∅
           "Ana" "5511987654321").
  - exact Ref_json_laws.
  - reflexivity.
  - reflexivity.
  - discriminate.
  - reflexivity.
  - discriminate.
  - intros l. rewrite lookup_empty. discriminate.
Defined.

(** X2.  [/api/salvar] always answers, with 200, 400 or 500; it changes
    no file but the patient file, and that one only when it answers
    200. *)
Theorem api_salvar_outcomes (pf : platform) (req_body : value) (fs : filesystem) :
  exists resp fs',
    api_salvar pf req_body fs = (Ok resp, fs') /\
    (status resp = 200%Z \/ status resp = 400%Z \/ status resp = 500%Z) /\
    (status resp <> 200%Z -> fs' = fs) /\
    (forall p, p <> DB_PATH pf -> fs' !! p = fs !! p).
Proof.
  assert (Hend : forall (resp : response) (fs' : filesystem),
    (status resp = 200%Z \/ status resp = 400%Z \/ status resp = 500%Z) ->
    (status resp <> 200%Z -> fs' = fs) ->
    (forall p, p <> DB_PATH pf -> fs' !! p = fs !! p) ->
    forall r, r = (Ok resp, fs') ->
    exists resp0 fs0,
      r = (Ok resp0, fs0) /\
      (status resp0 = 200%Z \/ status resp0 = 400%Z \/ status resp0 = 500%Z) /\
      (status resp0 <> 200%Z -> fs0 = fs) /\
      (forall p, p <> DB_PATH pf -> fs0 !! p = fs !! p)).
  { intros resp fs' H1 H2 H3 r ->. eauto 10. }
  unfold api_salvar, try_catch, bind, lift.
  destruct (JS.destructure req_body "req.body" "nome") as [nome|e];
    [|eapply Hend; [| | |reflexivity]; simpl; auto].
  destruct (JS.destructure req_body "req.body" "telefone") as [tel|e];
    [|eapply Hend; [| | |reflexivity]; simpl; auto].
  destruct (negb (JS.truthy (Some (prepararNumero pf tel))));
    [eapply Hend; [| | |reflexivity]; simpl; auto|].
  unfold Fs.existsSync, Fs.readFileSync, parse.
  destruct (fs !! DB_PATH pf) as [text|] eqn:Hf.
  - rewrite bool_decide_eq_true_2 by eauto. rewrite Hf.
    destruct (JSON_parse pf text) as [db|];
      [|eapply Hend; [| | |reflexivity]; simpl; auto].
    unfold ret at 1. destruct (set_telefone pf db nome _);
      (eapply Hend; [| | |reflexivity]; simpl; auto; try done).
    intros p Hp. by rewrite lookup_insert_ne.
  - rewrite bool_decide_eq_false_2 by (intros [? ?]; discriminate).
    unfold ret at 1. destruct (set_telefone pf (JObj ∅) nome _);
      (eapply Hend; [| | |reflexivity]; simpl; auto; try done).
    intros p Hp. by rewrite lookup_insert_ne.
Qed.

(** X3.  A patient marked through [/api/marcar-informado], under a
    name that is a string, carries the time of the request, one unmarked
    carries [null]; the number and the other fields of the record, the
    other patients and the other files are as before. *)
Theorem api_marcar_informado_then_api_pacientes (pf : platform)
    (exotic : json -> string -> json -> result json) (fs : filesystem) (agora : string)
    (b m : gmap string json) (nome : string) :
  json_laws pf ->
  api_pacientes pf fs = (Ok (res_json (JObj m)), fs) ->
  b !! "nome" = Some (JStr nome) -> nome <> "__proto__" ->
  (forall l, m !! nome <> Some (JArr l)) ->
  exists fs' m' paciente,
    api_marcar_informado pf exotic agora (Some (JObj b)) fs =
      (Ok (res_json (JObj {[ "success" := JBool true ]})), fs') /\
    api_pacientes pf fs' = (Ok (res_json (JObj m')), fs') /\
    m' !! nome = Some (JObj paciente) /\
    paciente !! "informadoEm" =
      Some (if JS.truthy (b !! "informado") then JStr agora else JNull) /\
    (forall k, k <> "informadoEm" ->
       paciente !! k = match m !! nome with Some (JObj p) => p !! k | _ => None end) /\
    (forall other, other <> nome -> m' !! other = m !! other) /\
    (forall p, p <> DB_PATH pf -> fs' !! p = fs !! p).
Proof.
  intros L Hdb Hstr Hproto Harr.
  assert (Hnome : JS.to_property_key (b !! "nome") = Ok nome) by (by rewrite Hstr).
  destruct (api_marcar_informado_run pf exotic fs agora b nome m Hnome Hdb)
    as (m' & Hset & Hrun).
  destruct (set_informadoEm_object pf exotic m m' _ _ Hset nome Hnome) as [Hothers Hrec].
  destruct (Hrec Hproto Harr) as (paciente & Hp & Hinf & Hfields).
  exists (<[DB_PATH pf := JSON_stringify pf (JObj m')]> fs), m', paciente.
  split; [exact Hrun|]. split; [apply api_pacientes_written, L|].
  repeat split; try assumption.
  intros p Hpath. by rewrite lookup_insert_ne.
Qed.

(** X4.  Saving a number and marking a patient, under names that are
    strings other than [__proto__], leave the same patient store in
    either order, for the same patient or for two: the listings read
    back after the two orders have the same patients, and each record
    has the same fields with the same values.  Nothing is said of the
    order in which the fields are written. *)
Theorem api_salvar_api_marcar_informado_commute (pf : platform)
    (exotic : json -> string -> json -> result json) (fs : filesystem) (agora : string)
    (b1 b2 m : gmap string json) (numero n1 n2 : string) :
  json_laws pf ->
  api_pacientes pf fs = (Ok (res_json (JObj m)), fs) ->
  prepararNumero pf (b1 !! "telefone") = JStr numero -> numero <> "" ->
  b1 !! "nome" = Some (JStr n1) -> n1 <> "__proto__" ->
  b2 !! "nome" = Some (JStr n2) -> n2 <> "__proto__" ->
  exists mA mB : gmap string json,
    fst (api_pacientes pf
           (snd (api_marcar_informado pf exotic agora (Some (JObj b2))
                   (snd (api_salvar pf (Some (JObj b1)) fs))))) = Ok (res_json (JObj mA)) /\
    fst (api_pacientes pf
           (snd (api_salvar pf (Some (JObj b1))
                   (snd (api_marcar_informado pf exotic agora (Some (JObj b2)) fs)))))
      = Ok (res_json (JObj mB)) /\
    forall nome, mesmo_registro (mA !! nome) (mB !! nome).
Proof.
  intros L Hdb Hnum Hne Hs1 _ Hs2 _.
  assert (Hk1 : JS.to_property_key (b1 !! "nome") = Ok n1) by (by rewrite Hs1).
  assert (Hk2 : JS.to_property_key (b2 !! "nome") = Ok n2) by (by rewrite Hs2).
  destruct (api_salvar_run pf fs b1 numero n1 m Hnum Hne Hk1 Hdb) as (m1 & Hset1 & ->).
  destruct (api_marcar_informado_run pf exotic fs agora b2 n2 m Hk2 Hdb)
    as (m2 & Hset2 & ->).
  cbn [snd].
  destruct (api_marcar_informado_run pf exotic _ agora b2 n2 m1 Hk2
              (api_pacientes_written pf fs (JObj m1) L)) as (m12 & Hset12 & ->).
  destruct (api_salvar_run pf _ b1 numero n1 m2 Hnum Hne Hk1
              (api_pacientes_written pf fs (JObj m2) L)) as (m21 & Hset21 & ->).
  cbn [snd]. rewrite !insert_insert_eq, !api_pacientes_written by exact L.
  exists m12, m21. split; [reflexivity|]. split; [reflexivity|].
  rewrite (set_telefone_set_informadoEm pf exotic m m1 m2 m12 m21 _ _ n1 n2 _ _
             Hk1 Hk2 Hset1 Hset12 Hset2 Hset21).
  intros nome. unfold mesmo_registro.
  destruct (m21 !! nome) as [[| | | | |p]|]; auto.
Qed.

Lemma api_marcar_informado_then_api_pacientes_witness :
  exists fs' m' paciente,
    api_marcar_informado Ref.the_platform RefRoutes.exotic_set_informadoEm
      "2026-11-02T12:00:00.000Z"
      (Some (JObj {[ "nome" := JStr "Ana"; "informado" := JBool true ]})) ∅ =
      (Ok (res_json (JObj {[ "success" := JBool true ]})), fs') /\
    api_pacientes Ref.the_platform fs' = (Ok (res_json (JObj m')), fs') /\
    m' !! "Ana" = Some (JObj paciente) /\
    paciente !! "informadoEm" =
      Some (if JS.truthy (({[ "nome" := JStr "Ana"; "informado" := JBool true ]}
                            : gmap string json) !! "informado")
            then JStr "2026-11-02T12:00:00.000Z" else JNull) /\
    (forall k, k <> "informadoEm" ->
       paciente !! k =
         match (∅ : gmap string json) !! "Ana" with Some (JObj p) => p !! k | _ => None end) /\
    (forall other, other <> "Ana" -> m' !! other = (∅ : gmap string json) !! other) /\
    (forall p, p <> DB_PATH Ref.the_platform -> fs' !! p = (∅ : filesystem) !! p).
Proof.
  apply (api_marcar_informado_then_api_pacientes Ref.the_platform
           RefRoutes.exotic_set_informadoEm ∅ "2026-11-02T12:00:00.000Z"
           {[ "nome" := JStr "Ana"; "informado" := JBool true ]} ∅ "Ana").
  - exact Ref_json_laws.
  - reflexivity.
  - reflexivity.
  - discriminate.
  - intros l. rewrite lookup_empty. discriminate.
Defined.

Lemma api_salvar_api_marcar_informado_commute_witness :
  let salvar := Some (JObj {[ "nome" := JStr "Ana"; "telefone" := JStr "11987654321" ]}) in
  let marcar := Some (JObj {[ "nome" := JStr "Ana"; "informado" := JBool true ]}) in
  exists mA mB : gmap string json,
    fst (api_pacientes Ref.the_platform
           (snd (api_marcar_informado Ref.the_platform RefRoutes.exotic_set_informadoEm
                   "2026-11-02T12:00:00.000Z" marcar
                   (snd (api_salvar Ref.the_platform salvar ∅))))) = Ok (res_json (JObj mA)) /\
    fst (api_pacientes Ref.the_platform
           (snd (api_salvar Ref.the_platform salvar
                   (snd (api_marcar_informado Ref.the_platform
                           RefRoutes.exotic_set_informadoEm
                           "2026-11-02T12:00:00.000Z" marcar ∅)))))
      = Ok (res_json (JObj mB)) /\
    forall nome, mesmo_registro (mA !! nome) (mB !! nome).
Proof.
  intros salvar marcar.
  apply (api_salvar_api_marcar_informado_commute Ref.the_platform
           RefRoutes.exotic_set_informadoEm ∅ "2026-11-02T12:00:00.000Z"
           {[ "nome" := JStr "Ana"; "telefone" := JStr "11987654321" ]}
           {[ "nome" := JStr "Ana"; "informado" := JBool true ]} ∅ "5511987654321"
           "Ana" "Ana").
  - exact Ref_json_laws.
  - reflexivity.
  - reflexivity.
  - discriminate.
  - reflexivity.
  - discriminate.
  - reflexivity.
  - discriminate.
Defined.

(** X5.  On a patient file that is not JSON the two writing routes
    answer 500 with the parser's message and leave the file as it is;
    the reading route lets the parser's exception out. *)
Theorem patient_file_unparsable (pf : platform)
    (exotic : json -> string -> json -> result json) (fs : filesystem) (agora text : string)
    (b : gmap string json) :
  fs !! DB_PATH pf = Some text -> JSON_parse pf text = None ->
  JS.truthy (Some (prepararNumero pf (b !! "telefone"))) = true ->
  let erro := {| status := 500;
                 body := JObj {[ "success" := JBool false;
                                 "message" := JStr (JSON_parse_error pf text) ]} |} in
  api_salvar pf (Some (JObj b)) fs = (Ok erro, fs) /\
  api_marcar_informado pf exotic agora (Some (JObj b)) fs = (Ok erro, fs) /\
  api_pacientes pf fs = (Throw (SyntaxError (JSON_parse_error pf text)), fs).
Proof.
  intros H Hp Hnum erro. repeat split.
  - unfold api_salvar, try_catch, bind. simpl JS.destructure. unfold lift at 1 2.
    rewrite Hnum. change (negb true) with false. cbv beta iota.
    rewrite (existsSync_Some _ _ _ H). unfold Fs.readFileSync. rewrite H.
    unfold parse. rewrite Hp. reflexivity.
  - unfold api_marcar_informado, try_catch, bind. simpl JS.destructure.
    unfold lift at 1 2.
    rewrite (existsSync_Some _ _ _ H). unfold Fs.readFileSync. rewrite H.
    unfold parse. rewrite Hp. reflexivity.
  - unfold api_pacientes, bind.
    rewrite (existsSync_Some _ _ _ H). unfold Fs.readFileSync. rewrite H.
    unfold parse. rewrite Hp. reflexivity.
Qed.

Lemma patient_file_unparsable_witness :
  let fs : filesystem := {[ DB_PATH Ref.the_platform := "{ Ana" ]} in
  let b : gmap string json := {[ "nome" := JStr "Ana"; "telefone" := JStr "11987654321" ]} in
  let erro := {| status := 500;
                 body := JObj {[ "success" := JBool false;
                                 "message" := JStr "Unexpected token in JSON" ]} |} in
  api_salvar Ref.the_platform (Some (JObj b)) fs = (Ok erro, fs) /\
  api_marcar_informado Ref.the_platform RefRoutes.exotic_set_informadoEm
    "2026-11-02T12:00:00.000Z" (Some (JObj b)) fs = (Ok erro, fs) /\
  api_pacientes Ref.the_platform fs = (Throw (SyntaxError "Unexpected token in JSON"), fs).
Proof.
  intros fs b erro.
  apply (patient_file_unparsable Ref.the_platform RefRoutes.exotic_set_informadoEm fs
           "2026-11-02T12:00:00.000Z" "{ Ana" b).
  - reflexivity.
  - reflexivity.
  - reflexivity.
Defined.

(** ** The login routes *)

Section LoginFacts.
  Context (pf : platform).
  Local Arguments JS.get_prop : simpl never.

(** The four files of the data directory are four paths. *)
Lemma paths_distinct :
  TOKEN_PATH pf <> CREDENTIALS_PATH pf /\ TOKEN_PATH pf <> DB_PATH pf /\
  TOKEN_PATH pf <> SETTINGS_PATH pf /\ DB_PATH pf <> CREDENTIALS_PATH pf /\
  DB_PATH pf <> SETTINGS_PATH pf.
Proof.
  unfold TOKEN_PATH, CREDENTIALS_PATH, DB_PATH, SETTINGS_PATH, Fs.join.
  repeat split; intros H; apply (inj _) in H; discriminate.
Qed.

(** [getOAuthClient] looks at the credentials file only. *)
Lemma getOAuthClient_depends (fs1 fs2 : filesystem) :
  fs1 !! CREDENTIALS_PATH pf = fs2 !! CREDENTIALS_PATH pf ->
  fst (getOAuthClient pf fs1) = fst (getOAuthClient pf fs2).
Proof.
  intros H. destruct (fs2 !! CREDENTIALS_PATH pf) as [text|] eqn:H2.
  - destruct (JSON_parse pf text) as [keys|] eqn:Hp.
    + by rewrite (getOAuthClient_parsed pf fs1 text keys H Hp),
                 (getOAuthClient_parsed pf fs2 text keys H2 Hp).
    + by rewrite (getOAuthClient_unparsable pf fs1 text H Hp),
                 (getOAuthClient_unparsable pf fs2 text H2 Hp).
  - by rewrite (getOAuthClient_missing pf fs1 H), (getOAuthClient_missing pf fs2 H2).
Qed.

Lemma getOAuthClient_run (fs : filesystem) :
  getOAuthClient pf fs = (fst (getOAuthClient pf fs), fs).
Proof.
  pose proof (getOAuthClient_reads_only pf fs) as H.
  destruct (getOAuthClient pf fs) as [r fs1]. simpl in *. by subst.
Qed.

End LoginFacts.

(** X6.  [/api/delete-token] answers success whether or not a token
    was stored, leaves no token file and touches nothing else; the
    agenda route then answers 401 [AUTH_REQUIRED], whatever the
    credentials. *)
Theorem api_delete_token_then_api_agenda (pf : platform) (agora : Z) (fs : filesystem) :
  api_delete_token pf fs =
    (Ok (res_json (JObj {[ "success" := JBool true;
                           "message" := JStr "Token apagado com sucesso." ]})),
     delete (TOKEN_PATH pf) fs) /\
  api_agenda pf agora (delete (TOKEN_PATH pf) fs) =
    (Ok unauthorized, delete (TOKEN_PATH pf) fs).
Proof.
  split.
  - unfold api_delete_token, try_catch, bind.
    destruct (fs !! TOKEN_PATH pf) as [t|] eqn:Ht.
    + rewrite (existsSync_Some _ _ _ Ht). unfold Fs.unlinkSync. rewrite Ht. reflexivity.
    + rewrite (existsSync_None _ _ Ht). simpl. rewrite delete_id by done. reflexivity.
  - apply api_agenda_no_token, lookup_delete_eq.
Qed.

(** X7.  [/api/auth-url] always answers and writes nothing: when
    [getOAuthClient] builds a client and [generateAuthUrl] makes a link
    for it, offline and with the consent prompt, the answer is that
    link; whatever fails, the answer is 500 with the one message about
    the credentials file. *)
Theorem api_auth_url_outcomes (pf : platform)
    (generateAuthUrl : oauth_client -> auth_url_options -> result string) (fs : filesystem) :
  api_auth_url pf generateAuthUrl fs =
    (Ok match fst (getOAuthClient pf fs) with
        | Ok client =>
            match generateAuthUrl client
                    {| access_type := "offline"; scope := SCOPES; prompt := "consent" |} with
            | Ok url => {| status := 200; body := JObj {[ "url" := JStr url ]} |}
            | Throw _ =>
                {| status := 500;
                   body := JObj {[ "error" := JStr "Erro no credentials.json" ]} |}
            end
        | Throw _ =>
            {| status := 500; body := JObj {[ "error" := JStr "Erro no credentials.json" ]} |}
        end, fs).
Proof.
  pose proof (getOAuthClient_reads_only pf fs) as Hfs.
  unfold api_auth_url, try_catch, bind.
  destruct (getOAuthClient pf fs) as [[client|e] fs1]; simpl in Hfs; subst fs1;
    cbn [fst]; [|reflexivity].
  unfold lift. destruct (generateAuthUrl client _) as [url|e]; reflexivity.
Qed.

(** X8.  [/oauth2callback] always answers.  Without a code it sends
    its message and stops; it redirects to the agenda only after the
    code was exchanged, and then the token file holds the tokens; when
    it sends a message no file has changed. *)
Theorem oauth2callback_outcomes (pf : platform)
    (getToken : oauth_client -> value -> result json)
    (JSON_stringify_compact : json -> string) (code : value) (fs : filesystem) :
  exists r fs',
    oauth2callback pf getToken JSON_stringify_compact code fs = (Ok r, fs') /\
    (JS.truthy code = false -> r = Send "Erro: Sem código.") /\
    match r with
    | Redirect url =>
        url = "/agenda" /\ JS.truthy code = true /\
        exists client tokens,
          getOAuthClient pf fs = (Ok client, fs) /\ getToken client code = Ok tokens /\
          fs' = <[TOKEN_PATH pf := JSON_stringify_compact tokens]> fs
    | Send _ => fs' = fs
    end.
Proof.
  unfold oauth2callback. destruct (JS.truthy code) eqn:Hcode; cbn [negb]; cbv beta iota.
  - unfold try_catch, bind. rewrite (getOAuthClient_run pf fs).
    destruct (fst (getOAuthClient pf fs)) as [client|e] eqn:Hclient.
    + unfold lift. destruct (getToken client code) as [tokens|e] eqn:Htok.
      * eexists _, _. split; [reflexivity|]. split; [discriminate|].
        split; [reflexivity|]. split; [reflexivity|]. exists client, tokens.
        auto.
      * eexists _, _. split; [reflexivity|]. split; [discriminate | reflexivity].
    + eexists _, _. split; [reflexivity|]. split; [discriminate | reflexivity].
  - eexists _, _. split; [reflexivity|]. split; reflexivity.
Qed.

(** X9.  After a successful [/oauth2callback] the user is logged in:
    [carregarAuth] returns the client of the credentials file with the
    exchanged tokens, read back from the token file. *)
Theorem oauth2callback_then_carregarAuth (pf : platform)
    (getToken : oauth_client -> value -> result json)
    (JSON_stringify_compact : json -> string) (code : value) (fs : filesystem)
    (client : oauth_client) (tokens : json) :
  JS.truthy code = true ->
  getOAuthClient pf fs = (Ok client, fs) ->
  getToken client code = Ok tokens ->
  JSON_parse pf (JSON_stringify_compact tokens) = Some tokens ->
  exists fs',
    oauth2callback pf getToken JSON_stringify_compact code fs = (Ok (Redirect "/agenda"), fs') /\
    carregarAuth pf fs' = (Ok (setCredentials client tokens), fs').
Proof.
  intros Hcode Hclient Htok Hparse.
  exists (<[TOKEN_PATH pf := JSON_stringify_compact tokens]> fs). split.
  - unfold oauth2callback. rewrite Hcode. cbn [negb]. cbv beta iota.
    unfold try_catch, bind. rewrite Hclient. unfold lift. rewrite Htok. reflexivity.
  - rewrite (carregarAuth_token pf _ (JSON_stringify_compact tokens))
      by apply lookup_insert_eq.
    rewrite (getOAuthClient_depends pf _ fs), Hclient, Hparse; [reflexivity|].
    apply lookup_insert_ne, (paths_distinct pf).
Qed.

Lemma oauth2callback_then_carregarAuth_witness :
  let fs : filesystem :=
    {[ CREDENTIALS_PATH Ref.the_platform :=
         Ref.JSON_stringify
           (JObj {[ "web" := JObj {[ "client_id" := JStr "id"; "client_secret" := JStr "s" ]} ]}) ]} in
  let client :=
    OAuth2 (Some (JStr "id")) (Some (JStr "s"))
      (Some (JStr "https://consultoriobw.com.br/agenda/oauth2callback")) undefined in
  let tokens := JObj {[ "access_token" := JStr "ya29.4/0Ab"; "token_type" := JStr "Bearer" ]} in
  exists fs',
    oauth2callback Ref.the_platform RefRoutes.getToken RefRoutes.JSON_stringify_compact
      (Some (JStr "4/0Ab")) fs = (Ok (Redirect "/agenda"), fs') /\
    carregarAuth Ref.the_platform fs' = (Ok (setCredentials client tokens), fs').
Proof.
  intros fs client tokens.
  apply (oauth2callback_then_carregarAuth Ref.the_platform RefRoutes.getToken
           RefRoutes.JSON_stringify_compact (Some (JStr "4/0Ab")) fs client tokens).
  - reflexivity.
  - reflexivity.
  - reflexivity.
  - reflexivity.
Defined.

(** X10.  When the provider rejects the stored token with
    [invalid_grant], [/api/agenda] answers 401 and forgets the token:
    the next request is answered 401 as well, with no token file. *)
Theorem api_agenda_invalid_grant (pf : platform) (agora : Z) (fs fs1 : filesystem)
    (auth : oauth_client) (e : js_error) :
  carregarAuth pf fs = (Ok auth, fs) ->
  listarEventos pf agora auth fs = (Throw e, fs1) ->
  JS.includes "invalid_grant" (message e) = true ->
  api_agenda pf agora fs = (Ok unauthorized, delete (TOKEN_PATH pf) fs1) /\
  api_agenda pf agora (delete (TOKEN_PATH pf) fs1) =
    (Ok unauthorized, delete (TOKEN_PATH pf) fs1).
Proof.
  intros Hauth Hlist Hmsg. split.
  - rewrite (api_agenda_throw pf agora fs fs1 e).
    + rewrite Hmsg, orb_true_r. reflexivity.
    + unfold bind. rewrite Hauth. exact Hlist.
  - apply api_agenda_no_token, lookup_delete_eq.
Qed.

Lemma api_agenda_invalid_grant_witness :
  let fs : filesystem :=
    {[ CREDENTIALS_PATH Ref.the_platform :=
         Ref.JSON_stringify
           (JObj {[ "web" := JObj {[ "client_id" := JStr "id"; "client_secret" := JStr "s" ]} ]});
       TOKEN_PATH Ref.the_platform :=
         Ref.JSON_stringify (JObj {[ "access_token" := JStr "expired" ]});
       SETTINGS_PATH Ref.the_platform := Ref.JSON_stringify defaultSettings ]} in
  api_agenda Ref.the_platform 1793613600000 fs =
    (Ok unauthorized, delete (TOKEN_PATH Ref.the_platform) fs) /\
  api_agenda Ref.the_platform 1793613600000 (delete (TOKEN_PATH Ref.the_platform) fs) =
    (Ok unauthorized, delete (TOKEN_PATH Ref.the_platform) fs).
Proof.
  intros fs.
  apply (api_agenda_invalid_grant Ref.the_platform 1793613600000 fs fs
           (OAuth2 (Some (JStr "id")) (Some (JStr "s"))
              (Some (JStr "https://consultoriobw.com.br/agenda/oauth2callback"))
              (Some (JObj {[ "access_token" := JStr "expired" ]})))
           (Error "invalid_grant")).
  - reflexivity.
  - reflexivity.
  - reflexivity.
Defined.

(** ** The event lister, for any [diasEscopo] *)

Section JanelaFacts.
  Context (pf : platform).
  Local Arguments JS.get_prop : simpl never.
  Local Open Scope Z_scope.

Lemma token_kept_by_getSettings (fs : filesystem) :
  snd (getSettings pf fs) !! TOKEN_PATH pf = fs !! TOKEN_PATH pf.
Proof. apply getSettings_frame, (paths_distinct pf). Qed.


End JanelaFacts.

(** X11.  When the settings hold no [diasEscopo], or hold 0, [null],
    [false] or the empty text in its place, the window is the one day
    of tomorrow; at a time so close to the end of the range of [Date]
    that tomorrow is outside it, the listing throws the [RangeError] of
    [toISOString] instead. *)
Theorem listarEventos_default_window (pf : platform) (agora : Z) (auth : oauth_client)
    (fs : filesystem) (settings : json) (diasEscopo : value) :
  fst (getSettings pf fs) = Ok settings ->
  JS.get_prop (Some settings) "diasEscopo" = Ok diasEscopo ->
  JS.truthy diasEscopo = false ->
  let amanha := (Date.Day agora + 1)%Z in
  let consulta :=
    {| calendarId := "primary";
       timeMin := Date.MakeDate amanha 0;
       timeMax := Date.MakeDate amanha (Date.MakeTime 23 59 59 999);
       singleEvents := true; orderBy := "startTime" |} in
  listarEventos pf agora auth fs =
    (if window_in_range pf agora 1 then
       match events_list pf auth consulta with
       | Throw e => Throw e
       | Ok items =>
           match JS.or_else items (Some (JArr [])) with
           | Some (JArr l) => map_eventos pf l
           | _ => Throw (TypeError "eventosBrutos.map is not a function")
           end
       end
     else Throw (RangeError "Invalid time value"), snd (getSettings pf fs)).
Proof.
  intros Hget Hdias Hfalsy amanha consulta.
  destruct (getSettings pf fs) as [r fs1] eqn:Hrun. simpl in Hget. subst r.
  rewrite (listarEventos_dias pf agora auth fs fs1 settings diasEscopo Hrun Hdias).
  unfold JS.or_else. rewrite Hfalsy. simpl Num.to_number. cbv iota.
  replace (Date.Day agora + 1 + 1 - 1)%Z with amanha by (unfold amanha; lia).
  reflexivity.
Qed.

Lemma listarEventos_default_window_witness :
  let fs : filesystem := {[ SETTINGS_PATH Ref.the_platform := "{}" ]} in
  let auth := OAuth2 undefined undefined undefined
                (Some (JObj {[ "access_token" := JStr "abc" ]})) in
  let consulta :=
    {| calendarId := "primary";
       timeMin := Date.MakeDate (Date.Day 1793613600000 + 1) 0;
       timeMax := Date.MakeDate (Date.Day 1793613600000 + 1) (Date.MakeTime 23 59 59 999);
       singleEvents := true; orderBy := "startTime" |} in
  window_in_range Ref.the_platform 1793613600000 1 = true /\
  listarEventos Ref.the_platform 1793613600000 auth fs =
    (match events_list Ref.the_platform auth consulta with
     | Throw e => Throw e
     | Ok items =>
         match JS.or_else items (Some (JArr [])) with
         | Some (JArr l) => map_eventos Ref.the_platform l
         | _ => Throw (TypeError "eventosBrutos.map is not a function")
         end
     end, snd (getSettings Ref.the_platform fs)).
Proof.
  intros fs auth consulta.
  assert (Hget : fst (getSettings Ref.the_platform fs) = Ok (JObj ∅)) by reflexivity.
  assert (Hdias : JS.get_prop (Some (JObj ∅)) "diasEscopo" = Ok undefined) by reflexivity.
  assert (Hfalsy : JS.truthy undefined = false) by reflexivity.
  assert (Hrange : window_in_range Ref.the_platform 1793613600000 1 = true) by reflexivity.
  split; [exact Hrange|].
  pose proof (listarEventos_default_window Ref.the_platform 1793613600000 auth fs
                (JObj ∅) undefined Hget Hdias Hfalsy) as H.
  cbv zeta in H. rewrite Hrange in H. exact H.
Defined.

(** X12.  When [diasEscopo] is truthy and has no number (a text that
    is not numeric, an object), the end of the window is an invalid
    date: [listarEventos] throws the [RangeError] of [toISOString], the
    provider is not asked, and [/api/agenda] answers 500 and keeps the
    token.  When it is an object with a [toString] key of its own, the
    conversion itself throws, and the [TypeError] is what
    [/api/agenda] reports. *)
Theorem listarEventos_invalid_diasEscopo (pf : platform) (agora : Z) (auth : oauth_client)
    (fs : filesystem) (settings : json) (diasEscopo : value) :
  carregarAuth pf fs = (Ok auth, fs) ->
  fst (getSettings pf fs) = Ok settings ->
  JS.get_prop (Some settings) "diasEscopo" = Ok diasEscopo ->
  JS.truthy diasEscopo = true ->
  (Num.to_number (string_to_number pf) diasEscopo = Ok None ->
   listarEventos pf agora auth fs =
     (Throw (RangeError "Invalid time value"), snd (getSettings pf fs)) /\
   api_agenda pf agora fs =
     (Ok {| status := 500;
            body := JObj {[ "error" := JStr "Erro ao buscar agenda: Invalid time value" ]} |},
      snd (getSettings pf fs)) /\
   snd (api_agenda pf agora fs) !! TOKEN_PATH pf = fs !! TOKEN_PATH pf) /\
  (forall m : gmap string json,
     diasEscopo = Some (JObj m) -> is_Some (m !! "toString") ->
     listarEventos pf agora auth fs =
       (Throw (TypeError "Cannot convert object to primitive value"),
        snd (getSettings pf fs)) /\
     api_agenda pf agora fs =
       (Ok {| status := 500;
              body := JObj {[ "error" :=
                JStr "Erro ao buscar agenda: Cannot convert object to primitive value" ]} |},
        snd (getSettings pf fs)) /\
     snd (api_agenda pf agora fs) !! TOKEN_PATH pf = fs !! TOKEN_PATH pf).
Proof.
  intros Hauth Hget Hdias Htruthy.
  pose proof (token_kept_by_getSettings pf fs) as Htoken.
  destruct (getSettings pf fs) as [r fs1] eqn:Hrun. simpl in Hget. subst r.
  simpl snd in *.
  assert (Hroute : forall e,
    listarEventos pf agora auth fs = (Throw e, fs1) ->
    String.eqb (message e) "AUTH_REQUIRED" || JS.includes "invalid_grant" (message e) = false ->
    api_agenda pf agora fs =
      (Ok {| status := 500;
             body := JObj {[ "error" := JStr ("Erro ao buscar agenda: " ++ message e) ]} |},
       fs1)).
  { intros e Hlist Hmsg. rewrite (api_agenda_throw pf agora fs fs1 e).
    - rewrite Hmsg. reflexivity.
    - unfold bind. rewrite Hauth. exact Hlist. }
  split.
  - intros Hnan.
    assert (Hlist : listarEventos pf agora auth fs =
                      (Throw (RangeError "Invalid time value"), fs1)).
    { rewrite (listarEventos_dias pf agora auth fs fs1 settings diasEscopo Hrun Hdias).
      unfold JS.or_else. rewrite Htruthy, Hnan. reflexivity. }
    split; [exact Hlist|].
    rewrite (Hroute _ Hlist eq_refl). split; [reflexivity | exact Htoken].
  - intros m -> Hm.
    assert (Hlist : listarEventos pf agora auth fs =
                      (Throw (TypeError "Cannot convert object to primitive value"), fs1)).
    { rewrite (listarEventos_dias pf agora auth fs fs1 settings _ Hrun Hdias).
      unfold JS.or_else. rewrite Htruthy. simpl.
      rewrite bool_decide_eq_true_2 by exact Hm. reflexivity. }
    split; [exact Hlist|].
    rewrite (Hroute _ Hlist eq_refl). split; [reflexivity | exact Htoken].
Qed.

(** X13.  When the provider's answer has no [items], the listing is
    empty and [/api/agenda] answers 200 with the empty list, for a
    window in the range of [Date]. *)
Theorem api_agenda_no_items (pf : platform) (agora n : Z) (auth : oauth_client)
    (fs : filesystem) (settings : json) (items : value) :
  carregarAuth pf fs = (Ok auth, fs) ->
  fst (getSettings pf fs) = Ok settings ->
  JS.get_prop (Some settings) "diasEscopo" = Ok (Some (JNum n)) -> n <> 0%Z ->
  window_in_range pf agora n = true ->
  events_list pf auth
    {| calendarId := "primary";
       timeMin := Date.MakeDate (Date.Day agora + 1) 0;
       timeMax := Date.MakeDate (Date.Day agora + 1 + n - 1) (Date.MakeTime 23 59 59 999);
       singleEvents := true; orderBy := "startTime" |} = Ok items ->
  JS.truthy items = false ->
  api_agenda pf agora fs = (Ok (res_json (JArr [])), snd (getSettings pf fs)).
Proof.
  intros Hauth Hget Hdias Hn Hrange Hitems Hfalsy.
  destruct (getSettings pf fs) as [r fs1] eqn:Hrun. simpl in Hget. subst r.
  apply api_agenda_ok. unfold bind. rewrite Hauth.
  rewrite (listarEventos_run pf agora n auth fs fs1 settings Hrun Hdias Hn Hrange), Hitems.
  unfold JS.or_else. rewrite Hfalsy. reflexivity.
Qed.


Lemma listarEventos_invalid_diasEscopo_witness :
  let fs : filesystem :=
    {[ CREDENTIALS_PATH Ref.the_platform :=
         Ref.JSON_stringify
           (JObj {[ "web" := JObj {[ "client_id" := JStr "id"; "client_secret" := JStr "s" ]} ]});
       TOKEN_PATH Ref.the_platform :=
         Ref.JSON_stringify (JObj {[ "access_token" := JStr "abc" ]});
       SETTINGS_PATH Ref.the_platform :=
         Ref.JSON_stringify (JObj {[ "diasEscopo" := JStr "muitos" ]}) ]} in
  let auth :=
    OAuth2 (Some (JStr "id")) (Some (JStr "s"))
      (Some (JStr "https://consultoriobw.com.br/agenda/oauth2callback"))
      (Some (JObj {[ "access_token" := JStr "abc" ]})) in
  listarEventos Ref.the_platform 1793613600000 auth fs =
    (Throw (RangeError "Invalid time value"), snd (getSettings Ref.the_platform fs)) /\
  api_agenda Ref.the_platform 1793613600000 fs =
    (Ok {| status := 500;
           body := JObj {[ "error" := JStr "Erro ao buscar agenda: Invalid time value" ]} |},
     snd (getSettings Ref.the_platform fs)) /\
  snd (api_agenda Ref.the_platform 1793613600000 fs) !! TOKEN_PATH Ref.the_platform =
    fs !! TOKEN_PATH Ref.the_platform.
Proof.
  intros fs auth.
  assert (Hauth : carregarAuth Ref.the_platform fs = (Ok auth, fs)) by reflexivity.
  assert (Hget : fst (getSettings Ref.the_platform fs) =
                 Ok (JObj {[ "diasEscopo" := JStr "muitos" ]})) by reflexivity.
  assert (Hdias : JS.get_prop (Some (JObj {[ "diasEscopo" := JStr "muitos" ]})) "diasEscopo"
                  = Ok (Some (JStr "muitos"))) by reflexivity.
  assert (Htruthy : JS.truthy (Some (JStr "muitos")) = true) by reflexivity.
  assert (Hnan : Num.to_number (string_to_number Ref.the_platform) (Some (JStr "muitos"))
                 = Ok None) by reflexivity.
  exact (proj1 (listarEventos_invalid_diasEscopo Ref.the_platform 1793613600000 auth fs
                  _ _ Hauth Hget Hdias Htruthy) Hnan).
Defined.

Lemma api_agenda_no_items_witness :
  let fs : filesystem :=
    {[ CREDENTIALS_PATH RefRoutes.sem_itens :=
         Ref.JSON_stringify
           (JObj {[ "web" := JObj {[ "client_id" := JStr "id"; "client_secret" := JStr "s" ]} ]});
       TOKEN_PATH RefRoutes.sem_itens :=
         Ref.JSON_stringify (JObj {[ "access_token" := JStr "abc" ]});
       SETTINGS_PATH RefRoutes.sem_itens := Ref.JSON_stringify defaultSettings ]} in
  api_agenda RefRoutes.sem_itens 1793613600000 fs =
    (Ok (res_json (JArr [])), snd (getSettings RefRoutes.sem_itens fs)).
Proof.
  intros fs.
  apply (api_agenda_no_items RefRoutes.sem_itens 1793613600000 1
           (OAuth2 (Some (JStr "id")) (Some (JStr "s"))
              (Some (JStr "https://consultoriobw.com.br/agenda/oauth2callback"))
              (Some (JObj {[ "access_token" := JStr "abc" ]})))
           fs defaultSettings undefined).
  - reflexivity.
  - reflexivity.
  - reflexivity.
  - discriminate.
  - reflexivity.
  - reflexivity.
  - reflexivity.
Defined.


(** ** The upload, for any request *)

Section MulterFacts.
  Context (pf : platform).
  Local Arguments JS.get_prop : simpl never.

Lemma storage_filename_Ok field name :
  storage_filename field = Ok name ->
  (field = "credenciais" /\ Fs.join (storage_destination pf) name = CREDENTIALS_PATH pf) \/
  (field = "banco" /\ Fs.join (storage_destination pf) name = DB_PATH pf).
Proof.
  unfold storage_filename.
  destruct (String.eqb_spec field "credenciais") as [->|_]; [intros [= <-]; by left|].
  destruct (String.eqb_spec field "banco") as [->|_]; [intros [= <-]; by right|].
  discriminate.
Qed.

Lemma storage_filename_listed field :
  field = "credenciais" \/ field = "banco" -> exists name, storage_filename field = Ok name.
Proof. intros [-> | ->]; eexists; reflexivity. Qed.


Lemma uploadFields_filesLeft_ok :
  filesLeft_ok (list_to_map [("credenciais", 1%nat); ("banco", 1%nat)]).
Proof.
  intros field n. simpl.
  destruct (decide (field = "credenciais")) as [->|H1].
  - rewrite lookup_insert_eq. intros [= <-]. auto.
  - rewrite lookup_insert_ne by done.
    destruct (decide (field = "banco")) as [->|H2].
    + rewrite lookup_insert_eq. intros [= <-]. auto.
    + rewrite lookup_insert_ne by done. rewrite lookup_empty. discriminate.
Qed.

Lemma filesLeft_ok_insert filesLeft field n :
  filesLeft_ok filesLeft -> filesLeft !! field = Some (S n) ->
  filesLeft_ok (<[field := n]> filesLeft).
Proof.
  intros Hok Hf f k. destruct (decide (f = field)) as [->|Hne].
  - rewrite lookup_insert_eq. intros [= <-].
    destruct (Hok field (S n) Hf) as [Hle Hl]. split; [lia | exact Hl].
  - rewrite lookup_insert_ne by done. apply Hok.
Qed.

Lemma remove_uploaded_lookup (stored : list string) (fs : filesystem) p :
  foldr (fun q acc => delete q acc) fs stored !! p =
    if decide (p ∈ stored) then None else fs !! p.
Proof.
  induction stored as [|q stored IH]; simpl.
  - destruct (decide (p ∈ [])) as [H|_]; [by apply elem_of_nil in H | reflexivity].
  - destruct (decide (q = p)) as [->|Hne].
    + rewrite lookup_delete_eq.
      destruct (decide (p ∈ p :: stored)) as [_|H]; [reflexivity|].
      exfalso. apply H. left.
    + rewrite lookup_delete_ne by done. rewrite IH.
      destruct (decide (p ∈ stored)) as [H|H];
        destruct (decide (p ∈ q :: stored)) as [H'|H']; try reflexivity.
      * exfalso. apply H'. by right.
      * exfalso. apply elem_of_cons in H' as [->|H']; [by apply Hne | by apply H].
Qed.

(** multer's only refusal here is the unexpected field: the refusal of
    the storage's [filename] is never reached, a part in an unlisted
    field being stopped before. *)
Lemma handle_files_outcome files : forall filesLeft stored (fs : filesystem),
  filesLeft_ok filesLeft ->
  exists fs',
    Multer.handle_files (storage_destination pf) (storage_filename)
      filesLeft files stored fs = (Ok tt, fs') \/
    Multer.handle_files (storage_destination pf) (storage_filename)
      filesLeft files stored fs = (Throw (MulterError "LIMIT_UNEXPECTED_FILE"), fs').
Proof.
  induction files as [|[field content] rest IH]; intros filesLeft stored fs Hok; simpl.
  - eexists. left. reflexivity.
  - destruct (filesLeft !! field) as [[|n]|] eqn:Hf;
      try (eexists; right; reflexivity).
    destruct (storage_filename_listed field (proj2 (Hok _ _ Hf))) as [name ->].
    unfold bind, Fs.writeFileSync.
    apply IH, filesLeft_ok_insert; assumption.
Qed.


(** multer writes and removes the credentials and the patient file
    only. *)
Lemma handle_files_frame files : forall filesLeft stored (fs : filesystem) p,
  (forall q, q ∈ stored -> q = CREDENTIALS_PATH pf \/ q = DB_PATH pf) ->
  p <> CREDENTIALS_PATH pf -> p <> DB_PATH pf ->
  snd (Multer.handle_files (storage_destination pf) (storage_filename)
         filesLeft files stored fs) !! p = fs !! p.
Proof.
  intros filesLeft stored fs p Hstored Hc Hd. revert filesLeft stored fs Hstored.
  assert (Hremove : forall stored (fs : filesystem) e',
    (forall q, q ∈ stored -> q = CREDENTIALS_PATH pf \/ q = DB_PATH pf) ->
    snd ((Multer.remove_uploaded stored ;;; (throw e' : js unit))%js fs) !! p = fs !! p).
  { intros stored fs e' Hstored. unfold bind, Multer.remove_uploaded, throw. simpl.
    rewrite remove_uploaded_lookup. destruct (decide (p ∈ stored)) as [H|_]; [|reflexivity].
    destruct (Hstored p H); contradiction. }
  induction files as [|[field content] rest IH]; intros filesLeft stored fs Hstored; simpl.
  - reflexivity.
  - destruct (filesLeft !! field) as [[|n]|]; try by apply Hremove.
    destruct (storage_filename field) as [name|e0] eqn:Hname; [|by apply Hremove].
    unfold bind at 1, Fs.writeFileSync.
    assert (Hpath : Fs.join (storage_destination pf) name = CREDENTIALS_PATH pf \/
                    Fs.join (storage_destination pf) name = DB_PATH pf).
    { destruct (storage_filename_Ok _ _ Hname) as [[_ ?] | [_ ?]]; auto. }
    rewrite IH.
    + apply lookup_insert_ne. destruct Hpath as [-> | ->]; congruence.
    + intros q Hq. apply elem_of_cons in Hq as [-> | Hq]; auto.
Qed.

Lemma api_upload_outcomes (req : upload_request) (fs : filesystem) :
  (exists fs1, uploadFields pf req fs = (Throw (MulterError "LIMIT_UNEXPECTED_FILE"), fs1) /\
     api_upload pf req fs =
       (Ok {| status := 500;
              body := JObj {[ "success" := JBool false;
                              "message" := JStr "Unexpected field" ]} |}, fs1)) \/
  (exists fs1 settings,
     uploadFields pf req fs = (Ok tt, fs1) /\
     fst (getSettings pf fs1) = Ok settings /\
     api_upload pf req fs =
       (match JS.get_prop (Some settings) "senhaAdmin" with
        | Throw e => Throw e
        | Ok senhaAdmin =>
            Ok (if negb (JS.strict_eq (req_senha req) senhaAdmin)
                then {| status := 403;
                        body := JObj {[ "success" := JBool false;
                                        "message" := JStr "Senha incorreta!" ]} |}
                else {| status := 200;
                        body := JObj {[ "success" := JBool true;
                                        "message" := JStr "Arquivo atualizado!" ]} |})
        end, snd (getSettings pf fs1))).
Proof.
  destruct (handle_files_outcome (req_files req) _ [] fs uploadFields_filesLeft_ok)
    as [fs1 [Hup | Hup]]; fold (Multer.fields (storage_destination pf) (storage_filename)
      [("credenciais", 1%nat); ("banco", 1%nat)] req fs) in Hup; fold (uploadFields pf req fs) in Hup.
  - right. destruct (getSettings_total pf fs1) as (settings & fs2 & Hget).
    exists fs1, settings. split; [exact Hup|]. rewrite Hget. split; [reflexivity|].
    unfold api_upload, bind, attempt. rewrite Hup, Hget. unfold lift. simpl.
    destruct (JS.get_prop (Some settings) "senhaAdmin"); [|reflexivity].
    destruct (negb _); reflexivity.
  - left. exists fs1. split; [exact Hup|].
    unfold api_upload, bind, attempt. rewrite Hup. reflexivity.
Qed.

End MulterFacts.

(** X15.  [/api/upload] touches the credentials file, the patient file
    and the settings file, and no other: the stored token, for one,
    survives every upload. *)
Theorem api_upload_frame (pf : platform) (req : upload_request) (fs : filesystem)
    (p : string) :
  p <> CREDENTIALS_PATH pf -> p <> DB_PATH pf -> p <> SETTINGS_PATH pf ->
  snd (api_upload pf req fs) !! p = fs !! p.
Proof.
  intros Hc Hd Hs.
  assert (Hup : snd (uploadFields pf req fs) !! p = fs !! p).
  { apply handle_files_frame; [|assumption..]. intros q Hq. by apply elem_of_nil in Hq. }
  destruct (api_upload_outcomes pf req fs)
    as [(fs1 & Hfs1 & ->) | (fs1 & settings & Hfs1 & _ & ->)];
    rewrite Hfs1 in Hup; simpl in Hup; simpl snd.
  - exact Hup.
  - rewrite getSettings_frame by exact Hs. exact Hup.
Qed.

Lemma api_upload_frame_witness :
  snd (api_upload Ref.the_platform
         {| req_senha := Some (JStr "admin"); req_files := [("credenciais", "novo")] |}
         {[ TOKEN_PATH Ref.the_platform := "{}" ]}) !! TOKEN_PATH Ref.the_platform =
    ({[ TOKEN_PATH Ref.the_platform := "{}" ]} : filesystem) !! TOKEN_PATH Ref.the_platform.
Proof.
  apply (api_upload_frame Ref.the_platform
           {| req_senha := Some (JStr "admin"); req_files := [("credenciais", "novo")] |}
           {[ TOKEN_PATH Ref.the_platform := "{}" ]} (TOKEN_PATH Ref.the_platform)).
  - discriminate.
  - discriminate.
  - discriminate.
Defined.



(** ** The settings store over several calls *)

(** X18.  After a first [getSettings] the settings file is in order:
    a second call returns the same settings and writes nothing. *)
Theorem getSettings_idempotent (pf : platform) (fs : filesystem) :
  json_laws pf ->
  getSettings pf (snd (getSettings pf fs)) = getSettings pf fs.
Proof.
  intros L.
  assert (Hheal : getSettings pf (snd (healed pf fs)) = healed pf fs).
  { apply (getSettings_written pf fs defaultSettings L). }
  destruct (fs !! SETTINGS_PATH pf) as [text|] eqn:H.
  - destruct (String.eqb_spec (trim pf text) "") as [Ht|Ht].
    + by rewrite (getSettings_blank pf _ _ H Ht).
    + destruct (JSON_parse pf text) as [v|] eqn:Hp.
      * rewrite (getSettings_parsed pf _ _ _ H Ht Hp). simpl.
        apply (getSettings_parsed pf _ _ _ H Ht Hp).
      * by rewrite (getSettings_unparsable pf _ _ H Hp).
  - by rewrite (getSettings_missing pf _ H).
Qed.

Lemma getSettings_idempotent_witness :
  getSettings Ref.the_platform (snd (getSettings Ref.the_platform ∅)) =
    getSettings Ref.the_platform ∅.
Proof. apply (getSettings_idempotent Ref.the_platform ∅), Ref_json_laws. Defined.

(** X19.  [saveSettings] removes no key: settings that were complete,
    or could not be read, are complete after any save. *)
Theorem saveSettings_keeps_complete (pf : platform) (fs : filesystem) (newSettings : value) :
  json_laws pf ->
  settings_file_complete pf fs = true \/ settings_unreadable pf fs ->
  settings_file_complete pf (snd (saveSettings pf newSettings fs)) = true.
Proof.
  intros L H.
  assert (Hcurrent : exists (m : gmap string json) fs1,
    getSettings pf fs = (Ok (JObj m), fs1) /\
    is_Some (m !! "diasEscopo") /\ is_Some (m !! "senhaAdmin") /\
    is_Some (m !! "ocultarIgnorados")).
  { destruct H as [H | H].
    - unfold settings_file_complete in H.
      destruct (fs !! SETTINGS_PATH pf) as [text|] eqn:Hf; [|discriminate].
      destruct (JSON_parse pf text) as [[| | | | |m]|] eqn:Hp; try discriminate.
      apply andb_prop in H as [H H3]. apply andb_prop in H as [H1 H2].
      apply bool_decide_eq_true_1 in H1, H2, H3.
      exists m, fs. split; [|auto].
      apply (getSettings_parsed pf _ _ _ Hf); [|exact Hp].
      intros Hb. apply (parse_blank pf L) in Hb. congruence.
    - rewrite (getSettings_unreadable pf fs H). unfold healed, defaultSettings.
      eexists _, _. split; [reflexivity|]. repeat split; eexists; reflexivity. }
  destruct Hcurrent as (m & fs1 & Hget & H1 & H2 & H3).
  rewrite (saveSettings_run pf fs _ fs1 newSettings Hget). simpl.
  unfold settings_file_complete. rewrite lookup_insert_eq, (parse_stringify pf L).
  assert (Hkeep : forall k, is_Some (m !! k) -> is_Some ((JS.spread newSettings ∪ m) !! k)).
  { intros k Hk. apply lookup_union_is_Some. by right. }
  rewrite !bool_decide_eq_true_2; [reflexivity | by apply Hkeep..].
Qed.

Lemma saveSettings_keeps_complete_witness :
  settings_file_complete Ref.the_platform
    (snd (saveSettings Ref.the_platform (Some (JObj {[ "diasEscopo" := JNum 3 ]})) ∅)) = true.
Proof.
  apply (saveSettings_keeps_complete Ref.the_platform ∅).
  - exact Ref_json_laws.
  - right. left. reflexivity.
Defined.

(** ** The local flow *)

Section LocalFacts.
  Context (pf : platform).
  Variable authenticate : list string -> string -> filesystem -> result value.
  Variable JSON_stringify_compact : json -> string.
  Local Arguments JS.get_prop : simpl never.

(** The client of the local flow, for a credentials file that parses. *)
Lemma carregarAuth_local_client_parsed (fs : filesystem) text json :
  fs !! CREDENTIALS_PATH pf = Some text -> JSON_parse pf text = Some json ->
  carregarAuth_local_client pf fs =
    (match JS.get_prop (Some json) "installed" with
     | Throw _ => Throw (Error "Arquivo 'credentials.json' corrompido/inválido.")
     | Ok installed =>
         match (if JS.truthy installed then Ok installed
                else JS.get_prop (Some json) "web") with
         | Throw _ => Throw (Error "Arquivo 'credentials.json' corrompido/inválido.")
         | Ok keys =>
             if negb (JS.truthy keys)
             then Throw (Error "Arquivo 'credentials.json' corrompido/inválido.")
             else
               match JS.get_prop keys "client_id" with
               | Throw e => Throw e
               | Ok id =>
                   match JS.get_prop keys "client_secret" with
                   | Throw e => Throw e
                   | Ok secret =>
                       match JS.get_prop keys "redirect_uris" with
                       | Throw e => Throw e
                       | Ok redirect_uris =>
                           match (if JS.truthy redirect_uris then JS.first redirect_uris
                                  else Ok (Some (JStr "http://localhost"))) with
                           | Throw e => Throw e
                           | Ok redirect => Ok (OAuth2 id secret redirect undefined)
                           end
                       end
                   end
               end
         end
     end, fs).
Proof.
  intros H Hp. unfold carregarAuth_local_client, bind, try_catch.
  rewrite (existsSync_Some _ _ _ H). simpl.
  unfold Fs.readFileSync. rewrite H. unfold parse. rewrite Hp. unfold ret, lift, throw.
  destruct (JS.get_prop (Some json) "installed") as [installed|]; [|reflexivity].
  destruct (JS.truthy installed).
  - destruct (negb (JS.truthy installed)); [reflexivity|].
    destruct (JS.get_prop installed "client_id"); [|reflexivity].
    destruct (JS.get_prop installed "client_secret"); [|reflexivity].
    destruct (JS.get_prop installed "redirect_uris") as [uris|]; [|reflexivity].
    destruct (JS.truthy uris); [destruct (JS.first uris)|]; reflexivity.
  - destruct (JS.get_prop (Some json) "web") as [keys|]; [|reflexivity].
    destruct (negb (JS.truthy keys)); [reflexivity|].
    destruct (JS.get_prop keys "client_id"); [|reflexivity].
    destruct (JS.get_prop keys "client_secret"); [|reflexivity].
    destruct (JS.get_prop keys "redirect_uris") as [uris|]; [|reflexivity].
    destruct (JS.truthy uris); [destruct (JS.first uris)|]; reflexivity.
Qed.

(** It looks at the credentials file only, and writes nothing. *)
Lemma carregarAuth_local_client_depends (fs1 fs2 : filesystem) :
  fs1 !! CREDENTIALS_PATH pf = fs2 !! CREDENTIALS_PATH pf ->
  carregarAuth_local_client pf fs2 = (fst (carregarAuth_local_client pf fs1), fs2).
Proof.
  intros H. destruct (fs2 !! CREDENTIALS_PATH pf) as [text|] eqn:H2.
  - destruct (JSON_parse pf text) as [json|] eqn:Hp.
    + by rewrite (carregarAuth_local_client_parsed fs1 text json H Hp),
                 (carregarAuth_local_client_parsed fs2 text json H2 Hp).
    + destruct (carregarAuth_local_client_failures pf fs1) as (_ & Hbad1 & _).
      destruct (carregarAuth_local_client_failures pf fs2) as (_ & Hbad2 & _).
      by rewrite (Hbad1 text H Hp), (Hbad2 text H2 Hp).
  - destruct (carregarAuth_local_client_failures pf fs1) as (Hmiss1 & _).
    destruct (carregarAuth_local_client_failures pf fs2) as (Hmiss2 & _).
    by rewrite (Hmiss1 H), (Hmiss2 H2).
Qed.

Lemma carregarAuth_local_client_run (fs : filesystem) :
  carregarAuth_local_client pf fs = (fst (carregarAuth_local_client pf fs), fs).
Proof. by apply carregarAuth_local_client_depends. Qed.

(** With a token file that can be read the login is not started. *)
Lemma carregarAuth_local_token (fs : filesystem) client text token :
  carregarAuth_local_client pf fs = (Ok client, fs) ->
  fs !! TOKEN_PATH pf = Some text -> JSON_parse pf text = Some token ->
  carregarAuth_local pf authenticate JSON_stringify_compact fs =
    (Ok (setCredentials client token), fs).
Proof.
  intros Hclient Htok Hp. unfold carregarAuth_local, bind, try_catch.
  rewrite Hclient, (existsSync_Some _ _ _ Htok).
  unfold Fs.readFileSync. rewrite Htok. unfold parse. rewrite Hp. reflexivity.
Qed.

(** Without one, the login decides. *)
Lemma carregarAuth_local_login (fs : filesystem) client :
  carregarAuth_local_client pf fs = (Ok client, fs) ->
  (fs !! TOKEN_PATH pf = None \/
   exists text, fs !! TOKEN_PATH pf = Some text /\ JSON_parse pf text = None) ->
  carregarAuth_local pf authenticate JSON_stringify_compact fs =
    match authenticate SCOPES (CREDENTIALS_PATH pf) fs with
    | Throw e => (Throw e, fs)
    | Ok credentials_ =>
        match credentials_ with
        | Some c =>
            if JS.truthy credentials_
            then (Ok (setCredentials client c),
                  <[TOKEN_PATH pf := JSON_stringify_compact c]> fs)
            else (Ok client, fs)
        | None => (Ok client, fs)
        end
    end.
Proof.
  intros Hclient Htok. unfold carregarAuth_local, bind, try_catch. rewrite Hclient.
  destruct Htok as [Htok | (text & Htok & Hp)].
  - rewrite (existsSync_None _ _ Htok). simpl.
    destruct (authenticate SCOPES (CREDENTIALS_PATH pf) fs) as [[c|]|]; try reflexivity.
    destruct (JS.truthy (Some c)); reflexivity.
  - rewrite (existsSync_Some _ _ _ Htok). unfold Fs.readFileSync. rewrite Htok.
    unfold parse. rewrite Hp. simpl.
    destruct (authenticate SCOPES (CREDENTIALS_PATH pf) fs) as [[c|]|]; try reflexivity.
    destruct (JS.truthy (Some c)); reflexivity.
Qed.

(** The [catch] of the local agenda route. *)
Lemma api_agenda_local_catch (e : js_error) (fs : filesystem) :
  ((if JS.includes "invalid_grant" (message e) then
      exists_ <- Fs.existsSync (TOKEN_PATH pf) ;;
      if exists_ then Fs.unlinkSync (TOKEN_PATH pf) else ret tt
    else ret tt) ;;;
   ret (res_status_json 500
          (JObj {[ "error" := JStr ("Erro ao buscar agenda: " ++ message e) ]})))%js fs =
  (Ok {| status := 500;
         body := JObj {[ "error" := JStr ("Erro ao buscar agenda: " ++ message e) ]} |},
   if JS.includes "invalid_grant" (message e) then delete (TOKEN_PATH pf) fs else fs).
Proof.
  unfold bind. destruct (JS.includes "invalid_grant" (message e)); [|reflexivity].
  destruct (fs !! TOKEN_PATH pf) as [t|] eqn:Ht.
  - rewrite (existsSync_Some _ _ _ Ht). unfold Fs.unlinkSync. rewrite Ht. reflexivity.
  - rewrite (existsSync_None _ _ Ht). simpl. rewrite delete_id by done. reflexivity.
Qed.

End LocalFacts.

(** X20.  In the local flow a login is kept: when no usable token is
    stored and the browser login yields credentials, [carregarAuth]
    writes them to the token file and returns the client carrying them;
    from then on it returns that client without a login, whatever a
    login would yield. *)
Theorem carregarAuth_local_login_persists (pf : platform)
    (authenticate : list string -> string -> filesystem -> result value)
    (JSON_stringify_compact : json -> string) (fs : filesystem)
    (client : oauth_client) (c : json) :
  carregarAuth_local_client pf fs = (Ok client, fs) ->
  (fs !! TOKEN_PATH pf = None \/
   exists text, fs !! TOKEN_PATH pf = Some text /\ JSON_parse pf text = None) ->
  authenticate SCOPES (CREDENTIALS_PATH pf) fs = Ok (Some c) ->
  JS.truthy (Some c) = true ->
  JSON_parse pf (JSON_stringify_compact c) = Some c ->
  let fs' := <[TOKEN_PATH pf := JSON_stringify_compact c]> fs in
  carregarAuth_local pf authenticate JSON_stringify_compact fs =
    (Ok (setCredentials client c), fs') /\
  forall authenticate',
    carregarAuth_local pf authenticate' JSON_stringify_compact fs' =
      (Ok (setCredentials client c), fs').
Proof.
  intros Hclient Htok Hauth Htruthy Hparse fs'. split.
  - rewrite (carregarAuth_local_login pf _ _ fs client Hclient Htok), Hauth, Htruthy.
    reflexivity.
  - intros authenticate'.
    apply (carregarAuth_local_token pf _ _ fs' client (JSON_stringify_compact c) c).
    + rewrite (carregarAuth_local_client_depends pf fs fs'), Hclient; [reflexivity|].
      symmetry. apply lookup_insert_ne, (paths_distinct pf).
    + apply lookup_insert_eq.
    + exact Hparse.
Qed.

Lemma carregarAuth_local_login_persists_witness :
  let fs : filesystem :=
    {[ CREDENTIALS_PATH Ref.the_platform :=
         Ref.JSON_stringify
           (JObj {[ "installed" :=
                      JObj {[ "client_id" := JStr "id"; "client_secret" := JStr "s" ]} ]}) ]} in
  let client :=
    OAuth2 (Some (JStr "id")) (Some (JStr "s")) (Some (JStr "http://localhost")) undefined in
  let c := JObj {[ "access_token" := JStr "ya29.local"; "token_type" := JStr "Bearer" ]} in
  let fs' := <[TOKEN_PATH Ref.the_platform := RefRoutes.JSON_stringify_compact c]> fs in
  carregarAuth_local Ref.the_platform RefRoutes.authenticate
    RefRoutes.JSON_stringify_compact fs = (Ok (setCredentials client c), fs') /\
  forall authenticate',
    carregarAuth_local Ref.the_platform authenticate'
      RefRoutes.JSON_stringify_compact fs' = (Ok (setCredentials client c), fs').
Proof.
  intros fs client c.
  apply (carregarAuth_local_login_persists Ref.the_platform RefRoutes.authenticate
           RefRoutes.JSON_stringify_compact fs client c).
  - reflexivity.
  - left. reflexivity.
  - reflexivity.
  - reflexivity.
  - reflexivity.
Defined.

(** X21.  The agenda route of the local flow always answers, with
    200 or 500 and never 401: 200 with the events when the login and
    the listing succeed; on a failure 500 with the message of the error
    thrown, and when that message contains [invalid_grant] the token
    file is deleted. *)
Theorem api_agenda_local_outcomes (pf : platform)
    (authenticate : list string -> string -> filesystem -> result value)
    (JSON_stringify_compact : json -> string) (agora : Z) (fs : filesystem) :
  api_agenda_local pf authenticate JSON_stringify_compact agora fs =
    match bind (carregarAuth_local pf authenticate JSON_stringify_compact)
               (listarEventos pf agora) fs with
    | (Ok eventos, fs') => (Ok {| status := 200; body := JArr eventos |}, fs')
    | (Throw e, fs') =>
        (Ok {| status := 500;
               body := JObj {[ "error" := JStr ("Erro ao buscar agenda: " ++ message e) ]} |},
         if JS.includes "invalid_grant" (message e)
         then delete (TOKEN_PATH pf) fs' else fs')
    end.
Proof.
  unfold api_agenda_local, try_catch, bind.
  destruct (carregarAuth_local pf authenticate JSON_stringify_compact fs)
    as [[auth|e] fs1].
  - destruct (listarEventos pf agora auth fs1) as [[eventos|e] fs2].
    + reflexivity.
    + exact (api_agenda_local_catch pf e fs2).
  - exact (api_agenda_local_catch pf e fs1).
Qed.

(** X22.  Without a credentials file the agenda route of the local
    flow answers 500 with the advice to upload one, and changes no
    file: a stored token stays. *)
Theorem api_agenda_local_credentials_missing (pf : platform)
    (authenticate : list string -> string -> filesystem -> result value)
    (JSON_stringify_compact : json -> string) (agora : Z) (fs : filesystem) :
  fs !! CREDENTIALS_PATH pf = None ->
  api_agenda_local pf authenticate JSON_stringify_compact agora fs =
    (Ok {| status := 500;
           body := JObj {[ "error" := JStr ("Erro ao buscar agenda: Arquivo 'credentials.json' ausente. Vá em Configurações e faça o upload.") ]} |},
     fs).
Proof.
  intros H. unfold api_agenda_local, try_catch. unfold bind at 1.
  unfold carregarAuth_local. unfold bind at 1.
  rewrite (proj1 (carregarAuth_local_client_failures pf fs) H).
  rewrite api_agenda_local_catch. reflexivity.
Qed.

Lemma api_agenda_local_credentials_missing_witness :
  api_agenda_local Ref.the_platform RefRoutes.authenticate RefRoutes.JSON_stringify_compact
    1793613600000 {[ TOKEN_PATH Ref.the_platform := "{}" ]} =
    (Ok {| status := 500;
           body := JObj {[ "error" := JStr ("Erro ao buscar agenda: Arquivo 'credentials.json' ausente. Vá em Configurações e faça o upload.") ]} |},
     {[ TOKEN_PATH Ref.the_platform := "{}" ]}).
Proof.
  apply (api_agenda_local_credentials_missing Ref.the_platform RefRoutes.authenticate
           RefRoutes.JSON_stringify_compact 1793613600000
           {[ TOKEN_PATH Ref.the_platform := "{}" ]}).
  reflexivity.
Defined.

(** ** The alert *)

Section AlertaFacts.

Lemma replace_all_chars c d s :
  list_ascii_of_string (replace_all c d s) =
    map (fun x => if Ascii.eqb x c then d else x) (list_ascii_of_string s).
Proof. induction s as [|x s IH]; simpl; [reflexivity | by rewrite IH]. Qed.

Lemma replace_all_length c d s : String.length (replace_all c d s) = String.length s.
Proof. induction s as [|x s IH]; simpl; [reflexivity | by rewrite IH]. Qed.

Lemma replace_all_absent c d s :
  ~ In c (list_ascii_of_string s) -> replace_all c d s = s.
Proof.
  induction s as [|x s IH]; simpl; [reflexivity|]. intros H.
  destruct (Ascii.eqb_spec x c) as [->|_]; [exfalso; auto|].
  rewrite IH; [reflexivity | tauto].
Qed.

End AlertaFacts.

(** X23.  The message [mostrarErroFatal] puts in a command has the
    length of the message given, with every double quote and every line
    break replaced, so that it holds neither; a message that held
    neither is passed as it is.  On a platform other than macOS and
    Windows no command is run, and the console gets the message as
    given. *)
Theorem mostrarErroFatal_msgLimpa (plataforma titulo mensagem : string) :
  exists msgLimpa,
    String.length msgLimpa = String.length mensagem /\
    (forall x, In x (list_ascii_of_string msgLimpa) -> x <> "034"%char /\ x <> "010"%char) /\
    (~ In "034"%char (list_ascii_of_string mensagem) ->
     ~ In "010"%char (list_ascii_of_string mensagem) -> msgLimpa = mensagem) /\
    mostrarErroFatal plataforma titulo mensagem =
      if String.eqb plataforma "darwin" then
        Exec ("osascript -e 'display alert " ++ aspas ++ titulo ++ aspas ++ " message "
              ++ aspas ++ msgLimpa ++ aspas ++ " as critical'")
      else if String.eqb plataforma "win32" then
        Exec ("powershell -Command " ++ aspas
              ++ "Add-Type -AssemblyName PresentationFramework;[System.Windows.MessageBox]::Show('"
              ++ msgLimpa ++ "','" ++ titulo ++ "')" ++ aspas)
      else ConsoleError ("[" ++ titulo ++ "] " ++ mensagem).
Proof.
  exists (replace_all "010" " " (replace_all "034" "'" mensagem)).
  split; [by rewrite !replace_all_length|]. split; [|split; [|reflexivity]].
  - intros x. rewrite !replace_all_chars, map_map. intros Hx.
    apply in_map_iff in Hx as (y & <- & _).
    destruct (Ascii.eqb_spec y "034") as [->|Hq]; [split; discriminate|].
    destruct (Ascii.eqb_spec y "010") as [->|Hn]; [split; discriminate|]. auto.
  - intros Hq Hn. rewrite (replace_all_absent "034" "'" mensagem Hq).
    apply replace_all_absent, Hn.
Qed.

(** ** The token and the keys *)

(** X24.  A token file that is not JSON counts as no token: the
    agenda route answers 401 [AUTH_REQUIRED] and deletes it, whatever
    the credentials file holds. *)
Theorem api_agenda_unparsable_token (pf : platform) (agora : Z) (fs : filesystem)
    (text : string) :
  fs !! TOKEN_PATH pf = Some text -> JSON_parse pf text = None ->
  carregarAuth pf fs = (Throw (Error "AUTH_REQUIRED"), fs) /\
  api_agenda pf agora fs = (Ok unauthorized, delete (TOKEN_PATH pf) fs).
Proof.
  intros H Hp.
  assert (Hauth : carregarAuth pf fs = (Throw (Error "AUTH_REQUIRED"), fs)).
  { rewrite (carregarAuth_token pf fs text H), Hp.
    by destruct (fst (getOAuthClient pf fs)). }
  split; [exact Hauth|]. by apply api_agenda_auth_required.
Qed.

Lemma api_agenda_unparsable_token_witness :
  let fs : filesystem :=
    {[ CREDENTIALS_PATH Ref.the_platform :=
         Ref.JSON_stringify
           (JObj {[ "web" := JObj {[ "client_id" := JStr "id"; "client_secret" := JStr "s" ]} ]});
       TOKEN_PATH Ref.the_platform := "{ access" ]} in
  carregarAuth Ref.the_platform fs = (Throw (Error "AUTH_REQUIRED"), fs) /\
  api_agenda Ref.the_platform 1793613600000 fs =
    (Ok unauthorized, delete (TOKEN_PATH Ref.the_platform) fs).
Proof.
  intros fs.
  apply (api_agenda_unparsable_token Ref.the_platform 1793613600000 fs "{ access");
    reflexivity.
Defined.

(** X25.  When the credentials file carries both a [web] and an
    [installed] key, the web flow takes the client from [web] and the
    local flow from [installed]; the web flow always uses its fixed
    callback address, the local flow the first of the [redirect_uris]
    of the key, or [http://localhost] when it has none. *)
Theorem client_key_precedence (pf : platform) (fs : filesystem) (text : string)
    (keys web installed : gmap string json) :
  fs !! CREDENTIALS_PATH pf = Some text -> JSON_parse pf text = Some (JObj keys) ->
  keys !! "web" = Some (JObj web) -> keys !! "installed" = Some (JObj installed) ->
  getOAuthClient pf fs =
    (Ok (OAuth2 (web !! "client_id") (web !! "client_secret")
           (Some (JStr "https://consultoriobw.com.br/agenda/oauth2callback")) undefined),
     fs) /\
  exists redirect,
    carregarAuth_local_client pf fs =
      (Ok (OAuth2 (installed !! "client_id") (installed !! "client_secret")
             redirect undefined), fs) /\
    (JS.truthy (installed !! "redirect_uris") = false ->
     redirect = Some (JStr "http://localhost")) /\
    (forall l, installed !! "redirect_uris" = Some (JArr l) -> redirect = head l).
Proof.
  intros H Hp Hweb Hinst. split.
  - rewrite (getOAuthClient_parsed pf fs text _ H Hp).
    unfold JS.get_prop. rewrite Hweb. reflexivity.
  - rewrite (carregarAuth_local_client_parsed pf fs text _ H Hp).
    unfold JS.get_prop at 1. rewrite Hinst. simpl JS.truthy. cbv iota.
    unfold JS.get_prop.
    destruct (installed !! "redirect_uris") as [uris|] eqn:Huris.
    + destruct (JS.truthy (Some uris)) eqn:Ht.
      * destruct uris as [| b | n | [|ch s] | l | m]; try discriminate;
          (eexists; split; [reflexivity|]; split; [discriminate|]);
          intros l' Hl; first [discriminate | by injection Hl as <-].
      * eexists. split; [reflexivity|]. split; [reflexivity|].
        intros l [= ->]. discriminate.
    + eexists. split; [reflexivity|]. split; [reflexivity|]. discriminate.
Qed.

Lemma client_key_precedence_witness :
  let keys : gmap string json :=
    {[ "web" := JObj {[ "client_id" := JStr "w" ]};
       "installed" := JObj {[ "client_id" := JStr "i";
                              "redirect_uris" := JArr [JStr "http://127.0.0.1:3000"] ]} ]} in
  let fs : filesystem :=
    {[ CREDENTIALS_PATH Ref.the_platform := Ref.JSON_stringify (JObj keys) ]} in
  getOAuthClient Ref.the_platform fs =
    (Ok (OAuth2 (Some (JStr "w")) undefined
           (Some (JStr "https://consultoriobw.com.br/agenda/oauth2callback")) undefined),
     fs) /\
  carregarAuth_local_client Ref.the_platform fs =
    (Ok (OAuth2 (Some (JStr "i")) undefined (Some (JStr "http://127.0.0.1:3000")) undefined),
     fs).
Proof.
  intros keys fs.
  assert (Hp : JSON_parse Ref.the_platform (Ref.JSON_stringify (JObj keys)) = Some (JObj keys))
    by reflexivity.
  assert (Hf : fs !! CREDENTIALS_PATH Ref.the_platform = Some (Ref.JSON_stringify (JObj keys)))
    by reflexivity.
  assert (Hw : keys !! "web" = Some (JObj {[ "client_id" := JStr "w" ]})) by reflexivity.
  assert (Hi : keys !! "installed" =
               Some (JObj {[ "client_id" := JStr "i";
                             "redirect_uris" := JArr [JStr "http://127.0.0.1:3000"] ]}))
    by reflexivity.
  destruct (client_key_precedence Ref.the_platform fs _ keys _ _ Hf Hp Hw Hi)
    as [Hweb (redirect & Hlocal & _ & Hfirst)].
  split; [exact Hweb|].
  rewrite Hlocal. rewrite (Hfirst [JStr "http://127.0.0.1:3000"] eq_refl). reflexivity.
Defined.

(** ** A settings file that holds [null] *)

(** X26.  A settings file holding the JSON text [null] is read as
    [null] and not restored: the agenda route then answers 500 with the
    [TypeError] raised on reading [diasEscopo], and leaves every file as
    it is; a save replaces the file by the object of the saved keys. *)
Theorem settings_null (pf : platform) (agora : Z) (fs : filesystem) (text : string)
    (auth : oauth_client) (newSettings : gmap string json) :
  json_laws pf ->
  fs !! SETTINGS_PATH pf = Some text -> JSON_parse pf text = Some JNull ->
  carregarAuth pf fs = (Ok auth, fs) ->
  getSettings pf fs = (Ok JNull, fs) /\
  api_agenda pf agora fs =
    (Ok {| status := 500;
           body := JObj {[ "error" := JStr "Erro ao buscar agenda: Cannot read properties of null (reading 'diasEscopo')" ]} |},
     fs) /\
  getSettings pf (snd (saveSettings pf (Some (JObj newSettings)) fs)) =
    (Ok (JObj newSettings), snd (saveSettings pf (Some (JObj newSettings)) fs)).
Proof.
  intros L H Hp Hauth.
  assert (Hget : getSettings pf fs = (Ok JNull, fs)).
  { apply (getSettings_parsed pf _ _ _ H); [|exact Hp].
    intros Hb. apply (parse_blank pf L) in Hb. congruence. }
  split; [exact Hget|]. split.
  - rewrite (api_agenda_throw pf agora fs fs
               (TypeError "Cannot read properties of null (reading 'diasEscopo')")).
    + reflexivity.
    + unfold bind. rewrite Hauth. unfold listarEventos, bind. rewrite Hget. reflexivity.
  - rewrite (saveSettings_run pf fs _ fs _ Hget). simpl snd.
    replace (JS.spread (Some (JObj newSettings)) ∪ JS.spread (Some JNull)) with newSettings
      by (simpl; by rewrite (right_id ∅ (∪))).
    apply getSettings_written, L.
Qed.

Lemma settings_null_witness :
  let fs : filesystem :=
    {[ CREDENTIALS_PATH Ref.the_platform :=
         Ref.JSON_stringify
           (JObj {[ "web" := JObj {[ "client_id" := JStr "id"; "client_secret" := JStr "s" ]} ]});
       TOKEN_PATH Ref.the_platform :=
         Ref.JSON_stringify (JObj {[ "access_token" := JStr "abc" ]});
       SETTINGS_PATH Ref.the_platform := "null" ]} in
  let novo : gmap string json := {[ "diasEscopo" := JNum 2 ]} in
  getSettings Ref.the_platform fs = (Ok JNull, fs) /\
  api_agenda Ref.the_platform 1793613600000 fs =
    (Ok {| status := 500;
           body := JObj {[ "error" := JStr "Erro ao buscar agenda: Cannot read properties of null (reading 'diasEscopo')" ]} |},
     fs) /\
  getSettings Ref.the_platform (snd (saveSettings Ref.the_platform (Some (JObj novo)) fs)) =
    (Ok (JObj novo), snd (saveSettings Ref.the_platform (Some (JObj novo)) fs)).
Proof.
  intros fs novo.
  apply (settings_null Ref.the_platform 1793613600000 fs "null"
           (OAuth2 (Some (JStr "id")) (Some (JStr "s"))
              (Some (JStr "https://consultoriobw.com.br/agenda/oauth2callback"))
              (Some (JObj {[ "access_token" := JStr "abc" ]}))) novo).
  - exact Ref_json_laws.
  - reflexivity.
  - reflexivity.
  - reflexivity.
Defined.

(** X27.  [/api/marcar-informado] always answers, with 200 or 500; it
    changes no file but the patient file, and that one only when it
    answers 200. *)
Theorem api_marcar_informado_outcomes (pf : platform)
    (exotic : json -> string -> json -> result json) (agora : string) (req_body : value)
    (fs : filesystem) :
  exists resp fs',
    api_marcar_informado pf exotic agora req_body fs = (Ok resp, fs') /\
    (status resp = 200%Z \/ status resp = 500%Z) /\
    (status resp <> 200%Z -> fs' = fs) /\
    (forall p, p <> DB_PATH pf -> fs' !! p = fs !! p).
Proof.
  assert (Hend : forall (resp : response) (fs' : filesystem),
    (status resp = 200%Z \/ status resp = 500%Z) ->
    (status resp <> 200%Z -> fs' = fs) ->
    (forall p, p <> DB_PATH pf -> fs' !! p = fs !! p) ->
    forall r, r = (Ok resp, fs') ->
    exists resp0 fs0,
      r = (Ok resp0, fs0) /\
      (status resp0 = 200%Z \/ status resp0 = 500%Z) /\
      (status resp0 <> 200%Z -> fs0 = fs) /\
      (forall p, p <> DB_PATH pf -> fs0 !! p = fs !! p)).
  { intros resp fs' H1 H2 H3 r ->. eauto 10. }
  unfold api_marcar_informado, try_catch, bind, lift.
  destruct (JS.destructure req_body "req.body" "nome") as [nome|e];
    [|eapply Hend; [| | |reflexivity]; simpl; auto].
  destruct (JS.destructure req_body "req.body" "informado") as [informado|e];
    [|eapply Hend; [| | |reflexivity]; simpl; auto].
  unfold Fs.existsSync, Fs.readFileSync, parse.
  destruct (fs !! DB_PATH pf) as [text|] eqn:Hf.
  - rewrite bool_decide_eq_true_2 by eauto. rewrite Hf.
    destruct (JSON_parse pf text) as [db|];
      [|eapply Hend; [| | |reflexivity]; simpl; auto].
    unfold ret at 1. destruct (set_informadoEm pf exotic db nome _);
      (eapply Hend; [| | |reflexivity]; simpl; auto; try done).
    intros p Hp. by rewrite lookup_insert_ne.
  - rewrite bool_decide_eq_false_2 by (intros [? ?]; discriminate).
    unfold ret at 1. destruct (set_informadoEm pf exotic (JObj ∅) nome _);
      (eapply Hend; [| | |reflexivity]; simpl; auto; try done).
    intros p Hp. by rewrite lookup_insert_ne.
Qed.
